(** * The advanced analytics engine of the financial-crime investigation backend

    A shallow embedding of [backend/app/analytics/advanced_analytics.py]
    (class [AdvancedFinancialAnalytics]) and the properties of its five
    analyzers and of the report aggregator.

    Conventions of the embedding.
    - A pandas [DataFrame] is a list of column names together with a list of
      typed rows.  A column that is not listed is absent: reading it raises
      [KeyError], as pandas does.  Cells of [customer_id] and [merchant_name]
      may be null (Python [None], as in a frame built from records).
    - Numbers that are binary64 floats in Python are exact rationals ([Q])
      here; timestamps are integers, the nanoseconds since the epoch that a
      pandas [Timestamp] stores.
    - Python exceptions are values of [exn]; code that may raise returns a
      [result].  Code that mutates an object shared with its caller (the
      table, the engine's scaler and outlier model) runs in the state and
      exception monad [M] over [World].
    - Operations of networkx, numpy, pandas and scikit-learn whose results are
      numeric approximations (betweenness, PageRank, clustering, standard
      deviation, the scaler, the isolation forest, float formatting) are the
      fields of the class [Libs]; everything else is computed. *)

From Stdlib Require Import ZArith QArith Qabs String Ascii List Bool Lia.
From Stdlib Require Import DecimalString Floats Lqa.
From Stdlib Require Import Sorting.Permutation Sorting.Sorted.
Import ListNotations.

Local Open Scope string_scope.
Local Open Scope Z_scope.
Local Open Scope list_scope.

Set Implicit Arguments.

(** ** Exceptions and the two monads *)

Inductive exn : Type :=
| KeyError (key : string)
| ZeroDivisionError
| ValueError (msg : string)
| PowerIterationFailedConvergence.

Inductive result (A : Type) : Type :=
| Ok (a : A)
| Raise (e : exn).

Arguments Ok {A} a.
Arguments Raise {A} e.

Class Monad (m : Type -> Type) : Type := {
  ret : forall {A}, A -> m A;
  bind : forall {A B}, m A -> (A -> m B) -> m B
}.

Notation "x <- c1 ;; c2" := (bind c1 (fun x => c2))
  (at level 61, c1 at next level, right associativity).
Notation "c1 ;; c2" := (bind c1 (fun _ => c2))
  (at level 61, right associativity).

#[export] Instance result_monad : Monad result := {
  ret := fun A a => Ok a;
  bind := fun A B c f => match c with Ok a => f a | Raise e => Raise e end
}.

Definition is_ok {A} (r : result A) : bool :=
  match r with Ok _ => true | Raise _ => false end.

(** ** Small library: strings, rationals, lists *)

Definition str_of_Z (z : Z) : string := NilZero.string_of_int (Z.to_int z).
Definition str_of_nat (n : nat) : string := str_of_Z (Z.of_nat n).

Definition lower_ascii (c : ascii) : ascii :=
  let n := nat_of_ascii c in
  if andb (Nat.leb 65 n) (Nat.leb n 90) then ascii_of_nat (n + 32) else c.

Fixpoint lower (s : string) : string :=
  match s with
  | EmptyString => EmptyString
  | String c s' => String (lower_ascii c) (lower s')
  end.

(** [contains sub s] is Python's [sub in s]. *)
Fixpoint contains (sub s : string) : bool :=
  if prefix sub s then true
  else match s with
       | EmptyString => false
       | String _ s' => contains sub s'
       end.

Definition mem_str (x : string) (l : list string) : bool :=
  existsb (String.eqb x) l.

Definition mem_Z (x : Z) (l : list Z) : bool := existsb (Z.eqb x) l.

Definition Qlt_bool (x y : Q) : bool := negb (Qle_bool y x).

Definition Qsum (l : list Q) : Q := fold_right Qplus 0%Q l.

Definition Qofnat (n : nat) : Q := inject_Z (Z.of_nat n).

(** [count / total]: Python's true division of two [int]s. *)
Definition py_div (count total : nat) : result Q :=
  match total with
  | O => Raise ZeroDivisionError
  | S _ => Ok (Qofnat count / Qofnat total)%Q
  end.

(** [(count / total) * 100] *)
Definition percentage (count total : nat) : result Q :=
  q <- py_div count total ;; Ok (q * 100)%Q.

(** Mean of a non-empty list; pandas gives NaN ([None]) on an empty one. *)
Definition Qmean (l : list Q) : option Q :=
  match l with
  | [] => None
  | _ => Some (Qsum l / Qofnat (length l))%Q
  end.

Section Sorting.
Variable A : Type.
Variable leb : A -> A -> bool.

Fixpoint insert_sorted (x : A) (l : list A) : list A :=
  match l with
  | [] => [x]
  | y :: l' => if leb x y then x :: l else y :: insert_sorted x l'
  end.

(** A stable sort: among equal keys the earlier element stays first. *)
Definition sort (l : list A) : list A :=
  fold_right insert_sorted [] l.
End Sorting.

Section Dedup.
Variable A : Type.
Variable eqb : A -> A -> bool.

(** Distinct elements in order of first appearance. *)
Fixpoint unique (l : list A) : list A :=
  match l with
  | [] => []
  | x :: l' => x :: filter (fun y => negb (eqb x y)) (unique l')
  end.

Definition nunique (l : list A) : nat := length (unique l).
End Dedup.

(** Non-null cells of a nullable column (pandas skips nulls in [nunique],
    [value_counts] and group keys). *)
Fixpoint dropna {A} (l : list (option A)) : list A :=
  match l with
  | [] => []
  | Some a :: l' => a :: dropna l'
  | None :: l' => dropna l'
  end.

(** ** Timestamps *)

Definition ns_per_second : Z := 1000000000.
Definition ns_per_hour : Z := 3600 * ns_per_second.
Definition ns_per_day : Z := 86400 * ns_per_second.

(** [.dt.hour] *)
Definition hour_of (t : Z) : Z := (t / ns_per_hour) mod 24.

(** Days since 1970-01-01 (floor). *)
Definition days_of (t : Z) : Z := t / ns_per_day.

(** [.dt.dayofweek]: Monday is 0; 1970-01-01 was a Thursday. *)
Definition dayofweek_of (t : Z) : Z := (days_of t + 3) mod 7.

(** Proleptic Gregorian (year, month, day) of a day number. *)
Definition civil_of_days (d : Z) : Z * Z * Z :=
  let z := d + 719468 in
  let era := z / 146097 in
  let doe := z mod 146097 in
  let yoe := (doe - doe / 1460 + doe / 36524 - doe / 146096) / 365 in
  let doy := doe - (365 * yoe + yoe / 4 - yoe / 100) in
  let mp := (5 * doy + 2) / 153 in
  let day := doy - (153 * mp + 2) / 5 + 1 in
  let month := if mp <? 10 then mp + 3 else mp - 9 in
  let year := yoe + era * 400 + (if month <=? 2 then 1 else 0) in
  (year, month, day).

(** [.dt.day] and [.dt.month] *)
Definition day_of (t : Z) : Z := snd (civil_of_days (days_of t)).
Definition month_of (t : Z) : Z := snd (fst (civil_of_days (days_of t))).

(** [Timedelta.days] of [t2 - t1] and its [total_seconds()]. *)
Definition delta_days (t1 t2 : Z) : Z := (t2 - t1) / ns_per_day.
Definition total_seconds (delta : Z) : Q := (inject_Z delta / inject_Z ns_per_second)%Q.

(** ** The transaction table *)

Record Row : Type := mkRow {
  transaction_id : string;
  customer_id : option string;
  account_number : string;
  merchant_name : option string;
  merchant_category : string;
  payment_method : string;
  amount : Q;
  location : string;
  timestamp : Z;
  (* columns that [temporal_pattern_analysis] adds *)
  hour : Z;
  day_of_week : Z;
  day_of_month : Z;
  month : Z
}.

Record DataFrame : Type := mkDataFrame {
  columns : list string;
  rows : list Row
}.

Definition has_column (df : DataFrame) (c : string) : bool :=
  mem_str c (columns df).

(** [len(df)] *)
Definition len (df : DataFrame) : nat := length (rows df).

(** [df[c]] read as a whole column. *)
Definition column {A} (df : DataFrame) (c : string) (cell : Row -> A)
  : result (list A) :=
  if has_column df c then Ok (map cell (rows df)) else Raise (KeyError c).

(** The check [groupby(..).agg({c: ..})] and [df[c]] make before any work. *)
Definition require (df : DataFrame) (c : string) : result unit :=
  if has_column df c then Ok tt else Raise (KeyError c).

(** [row.get(c, default)] on a row yielded by [iterrows()]. *)
Definition row_get {A} (df : DataFrame) (r : Row) (c : string)
  (cell : Row -> A) (default : A) : A :=
  if has_column df c then cell r else default.

(** [df[cond]]: boolean-mask selection. *)
Definition select (df : DataFrame) (cond : Row -> bool) : DataFrame :=
  mkDataFrame (columns df) (filter cond (rows df)).

Definition add_column (cols : list string) (c : string) : list string :=
  if mem_str c cols then cols else cols ++ [c].

Definition set_timestamp (v : Z) (r : Row) : Row :=
  mkRow (transaction_id r) (customer_id r) (account_number r) (merchant_name r)
        (merchant_category r) (payment_method r) (amount r) (location r)
        v (hour r) (day_of_week r) (day_of_month r) (month r).

Definition set_time_features (r : Row) : Row :=
  mkRow (transaction_id r) (customer_id r) (account_number r) (merchant_name r)
        (merchant_category r) (payment_method r) (amount r) (location r)
        (timestamp r) (hour_of (timestamp r)) (dayofweek_of (timestamp r))
        (day_of (timestamp r)) (month_of (timestamp r)).

(** [df[c] = values]: the column is appended when new, overwritten otherwise. *)
Definition assign (df : DataFrame) (cs : list string) (f : Row -> Row)
  : DataFrame :=
  mkDataFrame (fold_left add_column cs (columns df)) (map f (rows df)).

(** ** The transaction graph ([networkx.DiGraph]) *)

Record EdgeData : Type := mkEdgeData {
  weight : Q;
  transaction_count : nat;
  timestamps : list Z
}.

Definition Edge : Type := (string * string * EdgeData)%type.

(** Nodes and edges are kept in insertion order, as networkx keeps them. *)
Record DiGraph : Type := mkDiGraph {
  nodes : list string;
  edges : list Edge
}.

Definition empty_graph : DiGraph := mkDiGraph [] [].

Definition edge_source (e : Edge) : string := fst (fst e).
Definition edge_target (e : Edge) : string := snd (fst e).
Definition edge_data (e : Edge) : EdgeData := snd e.
Definition edge_key (e : Edge) : string * string := fst e.

Definition is_edge (u v : string) (e : Edge) : bool :=
  andb (String.eqb u (edge_source e)) (String.eqb v (edge_target e)).

(** [G.has_edge(u, v)]; a null endpoint is in no edge. *)
Definition has_edge (G : DiGraph) (u v : option string) : bool :=
  match u, v with
  | Some u, Some v => existsb (is_edge u v) (edges G)
  | _, _ => false
  end.

Definition add_node (ns : list string) (u : string) : list string :=
  if mem_str u ns then ns else ns ++ [u].

Definition update_edge (u v : string) (f : EdgeData -> EdgeData) (e : Edge)
  : Edge :=
  if is_edge u v e then (edge_key e, f (edge_data e)) else e.

(** [G.add_edge(u, v, **attr)]: the endpoints become nodes, [u] first; a new
    edge is appended, the attributes of an existing one are replaced.  A null
    endpoint is refused with [ValueError("None cannot be a node")]. *)
Definition add_edge (G : DiGraph) (u v : option string) (d : EdgeData)
  : result DiGraph :=
  match u, v with
  | Some u, Some v =>
      Ok (mkDiGraph (add_node (add_node (nodes G) u) v)
            (if existsb (is_edge u v) (edges G)
             then map (update_edge u v (fun _ => d)) (edges G)
             else edges G ++ [(u, v, d)]))
  | _, _ => Raise (ValueError "None cannot be a node")
  end.

(** The three in-place updates of an existing edge's attributes. *)
Definition accumulate (amount : Q) (ts : Z) (d : EdgeData) : EdgeData :=
  mkEdgeData (weight d + amount)%Q (transaction_count d + 1)
             (timestamps d ++ [ts]).

Definition accumulate_edge (G : DiGraph) (u v : option string) (amount : Q)
  (ts : Z) : DiGraph :=
  match u, v with
  | Some u, Some v =>
      mkDiGraph (nodes G) (map (update_edge u v (accumulate amount ts)) (edges G))
  | _, _ => G
  end.

Definition number_of_nodes (G : DiGraph) : nat := length (nodes G).
Definition number_of_edges (G : DiGraph) : nat := length (edges G).

(** [nx.density] of a directed graph. *)
Definition nx_density (G : DiGraph) : Q :=
  let n := number_of_nodes G in
  let m := number_of_edges G in
  if orb (Nat.eqb m 0) (Nat.leb n 1) then 0%Q
  else (Qofnat m / (Qofnat n * (Qofnat n - 1)))%Q.

(** [G.degree(node)]: in-degree plus out-degree. *)
Definition degree (G : DiGraph) (u : string) : nat :=
  length (filter (fun e => String.eqb u (edge_source e)) (edges G)) +
  length (filter (fun e => String.eqb u (edge_target e)) (edges G)).

(** [nx.degree_centrality] *)
Definition nx_degree_centrality (G : DiGraph) (u : string) : Q :=
  if Nat.leb (number_of_nodes G) 1 then 1%Q
  else (Qofnat (degree G u) * (1 / (Qofnat (number_of_nodes G) - 1)))%Q.

(** Neighbours in [G.to_undirected()]. *)
Definition neighbors (G : DiGraph) (u : string) : list string :=
  flat_map (fun e =>
              (if String.eqb (edge_source e) u then [edge_target e] else []) ++
              (if String.eqb (edge_target e) u then [edge_source e] else []))
           (edges G).

(** Breadth-first closure: each round adds the neighbours of what was seen. *)
Fixpoint reach (fuel : nat) (G : DiGraph) (seen : list string) : list string :=
  match fuel with
  | O => seen
  | S fuel' =>
      reach fuel' G
        (seen ++ filter (fun x => negb (mem_str x seen))
                        (flat_map (neighbors G) seen))
  end.

(** The component of [v], listed in node order: a path visits each node at
    most once, so as many rounds as there are nodes reach all of it. *)
Definition component (G : DiGraph) (v : string) : list string :=
  let c := reach (number_of_nodes G) G [v] in
  filter (fun x => mem_str x c) (nodes G).

Fixpoint components_from (G : DiGraph) (todo seen : list string)
  : list (list string) :=
  match todo with
  | [] => []
  | v :: todo' =>
      if mem_str v seen then components_from G todo' seen
      else let c := component G v in
           c :: components_from G todo' (seen ++ c)
  end.

(** [nx.connected_components(G.to_undirected())] *)
Definition nx_connected_components (G : DiGraph) : list (list string) :=
  components_from G (nodes G) [].

(** ** Operations taken from the numeric libraries *)

Class Libs : Type := {
  (** Python's builtin [hash] on strings *)
  py_hash : string -> Z;
  (** the format specification [:.1f] *)
  py_format_1f : Q -> string;
  (** [nx.betweenness_centrality(G)[node]] *)
  nx_betweenness_centrality : DiGraph -> string -> Q;
  (** [nx.pagerank(G)]; raises when the power iteration does not converge *)
  nx_pagerank : DiGraph -> result (string -> Q);
  (** [nx.average_clustering(G.to_undirected())] *)
  nx_average_clustering : DiGraph -> Q;
  (** [Series.std()], NaN ([None]) on fewer than two values *)
  pd_std : list Q -> option Q;
  (** [.round(2)] *)
  np_round2 : Q -> Q;
  (** [StandardScaler]: the fitted parameters, [fit] and [transform] *)
  ScalerParams : Type;
  scaler_fit : list (list Q) -> ScalerParams;
  scaler_transform : ScalerParams -> list (list Q) -> list (list Q);
  (** [IsolationForest(contamination, random_state)]: the fitted trees,
      [fit] and [predict] (1 for inliers, -1 for outliers) *)
  ForestParams : Type;
  forest_fit : Q -> Z -> list (list Q) -> ForestParams;
  forest_predict : ForestParams -> list (list Q) -> list Z
}.

(** ** Results

    [AnalyticsResult.summary] and [.detailed_results] are dictionaries whose
    keys depend on the analysis; each analysis gets a record of its own. *)

(** Per-group aggregate [{'amount': ['count', 'sum', 'mean']}] after
    [.round(2)]. *)
Record AmountStats : Type := mkAmountStats {
  stat_count : nat;
  stat_sum : Q;
  stat_mean : Q
}.

(** What an anomaly or alert dictionary carries besides type, severity and
    description. *)
Inductive Payload : Type :=
| Count (n : nat)
| Locations (counts : list (string * nat))
| ConcentrationPercentage (q : Q)
| DiversityScore (q : Q)
| ForeignLocations (counts : list (string * nat))
| Customers (ids : list string).

Record Anomaly : Type := mkAnomaly {
  anomaly_type : string;
  severity : string;
  description : string;
  payload : Payload
}.

Module Network.
Record metrics : Type := mkMetrics {
  total_nodes : nat;
  total_edges : nat;
  density : Q;
  average_clustering : Q
}.

Record suspicious_node : Type := mkSuspicious {
  node_id : string;
  degree_centrality : Q;
  betweenness_centrality : Q;
  pagerank : Q;
  total_connections : nat
}.

Record summary : Type := mkSummary {
  network_metrics : metrics;
  suspicious_entities_count : nat;
  communities_detected : nat;
  risk_level : string
}.

(** [_serialize_graph] *)
Record serialized : Type := mkSerialized {
  graph_nodes : list (string * nat);
  graph_edges : list (string * string * Q);
  node_count : nat;
  edge_count : nat;
  graph_density : Q
}.

Record details : Type := mkDetails {
  suspicious_nodes : list suspicious_node;
  communities : list (list string);
  network_graph : serialized
}.
End Network.

Module Temporal.
Record summary : Type := mkSummary {
  total_transactions : nat;
  unusual_hour_percentage : Q;
  velocity_abuse_percentage : Q;
  weekend_activity_percentage : Q;
  anomalies_detected : nat;
  risk_level : string
}.

Record details : Type := mkDetails {
  (* per hour: the amount aggregate and the count of transaction ids *)
  hourly_stats : list (Z * AmountStats * nat);
  daily_stats : list (Z * AmountStats);
  monthly_stats : list (Z * AmountStats);
  anomalies : list Anomaly;
  (* each rapid row with its [time_diff] in seconds *)
  rapid_transactions : list (Row * Q)
}.
End Temporal.

Module Geographic.
Record summary : Type := mkSummary {
  total_locations : nat;
  high_risk_percentage : Q;
  cross_border_percentage : Q;
  diversity_score : Q;
  anomalies_detected : nat;
  risk_level : string
}.

Record details : Type := mkDetails {
  (* per location: the amount aggregate and the distinct customers *)
  location_stats : list (string * AmountStats * nat);
  top_locations : list (string * nat);
  geographic_anomalies : list Anomaly;
  high_risk_transactions : list Row
}.
End Geographic.

Module Behavioral.
(** One row of [behavioral_df]. *)
Record profile : Type := mkProfile {
  profile_customer_id : string;
  profile_transaction_count : nat;
  total_amount : Q;
  avg_amount : Q;
  amount_variance : option Q;
  velocity : Q;
  round_amount_percentage : Q;
  location_diversity : nat;
  payment_method_diversity : nat;
  hour_variance : option Q
}.

Record summary : Type := mkSummary {
  total_customers : nat;
  suspicious_customers_count : nat;
  behavioral_alerts_count : nat;
  risk_level : string
}.

(** The aggregate table [customer_profiles] is not carried; its length is
    [total_customers]. *)
Record details : Type := mkDetails {
  (* outlier profiles with their [anomaly_score] *)
  suspicious_customers : list (profile * Z);
  payment_method_stats : list (string * AmountStats * nat);
  merchant_category_stats : list (string * AmountStats * nat);
  behavioral_alerts : list Anomaly
}.
End Behavioral.

Module Predictive.
(** One row of [feature_df]; [log_amount] is not carried. *)
Record scored : Type := mkScored {
  transaction : Row;
  feature_hour : Z;
  feature_day_of_week : Z;
  is_weekend : Z;
  is_unusual_hour : Z;
  is_round_amount : Z;
  is_high_amount : Z;
  is_high_risk_location : Z;
  payment_risk_score : Q;
  merchant_risk_score : Q;
  predicted_risk_score : Q;
  (* [None] is the NaN of a score outside every bin *)
  predicted_risk_level : option string
}.

Inductive prediction : Type :=
| RiskIncrease (predicted_risk_increase : Q) (recommendation : string)
| RiskDecrease (predicted_risk_decrease : Q) (recommendation : string).

Record summary : Type := mkSummary {
  total_transactions_analyzed : nat;
  high_risk_count : nat;
  average_risk_score : option Q;
  risk_trend : string;
  model_accuracy : Q;
  risk_level : string
}.

Record details : Type := mkDetails {
  risk_distribution : list (string * nat);
  high_risk_transactions : list scored;
  model_metrics : list (string * Q);
  future_predictions : list prediction;
  feature_importance : list (string * Q)
}.
End Predictive.

Inductive Summary : Type :=
| NetworkSummary (s : Network.summary)
| TemporalSummary (s : Temporal.summary)
| GeographicSummary (s : Geographic.summary)
| ErrorSummary (error : string)
| BehavioralSummary (s : Behavioral.summary)
| PredictiveSummary (s : Predictive.summary).

Inductive Details : Type :=
| NetworkDetails (d : Network.details)
| TemporalDetails (d : Temporal.details)
| GeographicDetails (d : Geographic.details)
| NoDetails
| BehavioralDetails (d : Behavioral.details)
| PredictiveDetails (d : Predictive.details).

Record AnalyticsResult : Type := mkAnalyticsResult {
  analysis_type : string;
  result_timestamp : Z;
  summary : Summary;
  detailed_results : Details;
  visualizations : list string;
  recommendations : list string
}.

(** [result.summary['risk_level']], when the key is there. *)
Definition summary_risk_level (s : Summary) : option string :=
  match s with
  | NetworkSummary s => Some (Network.risk_level s)
  | TemporalSummary s => Some (Temporal.risk_level s)
  | GeographicSummary s => Some (Geographic.risk_level s)
  | ErrorSummary _ => None
  | BehavioralSummary s => Some (Behavioral.risk_level s)
  | PredictiveSummary s => Some (Predictive.risk_level s)
  end.

(** The rule every analyzer but the predictive one applies to its anomalies:
    ['HIGH' if any(a['severity'] == 'HIGH' ...) else 'MEDIUM' if
    len(anomalies) > 0 else 'LOW']. *)
Definition anomaly_risk_level (anomalies : list Anomaly) : string :=
  if existsb (fun a => String.eqb (severity a) "HIGH") anomalies then "HIGH"
  else if Nat.ltb 0 (length anomalies) then "MEDIUM"
  else "LOW".

(** ** The engine and the world it runs in *)

Section Engine.
Context {L : Libs}.

(** [IsolationForest(contamination=.., random_state=..)] and what [fit]
    leaves in it. *)
Record IsolationForest : Type := mkIsolationForest {
  contamination : Q;
  random_state : Z;
  estimators : option ForestParams
}.

(** The attributes of [AdvancedFinancialAnalytics]; [analysis_cache] is
    never read or written after [__init__]. *)
Record Engine : Type := mkEngine {
  scaler : option ScalerParams;
  isolation_forest : IsolationForest
}.

(** [__init__] *)
Definition new_engine : Engine :=
  mkEngine None (mkIsolationForest 0.1%Q 42 None).

(** The objects an analyzer call can reach: [self] and the caller's table. *)
Record World : Type := mkWorld {
  engine : Engine;
  table : DataFrame
}.

Definition M (A : Type) : Type := World -> result A * World.

#[export] Instance M_monad : Monad M := {
  ret := fun A a w => (Ok a, w);
  bind := fun A B c f w =>
    match c w with
    | (Ok a, w') => f a w'
    | (Raise e, w') => (Raise e, w')
    end
}.

Definition lift {A} (r : result A) : M A := fun w => (r, w).
Definition get_table : M DataFrame := fun w => (Ok (table w), w).
Definition put_table (df : DataFrame) : M unit :=
  fun w => (Ok tt, mkWorld (engine w) df).
Definition get_engine : M Engine := fun w => (Ok (engine w), w).
Definition put_engine (e : Engine) : M unit :=
  fun w => (Ok tt, mkWorld e (table w)).

(** [try: x = c  except Exception: pass] *)
Definition try_ {A} (c : M A) : M (option A) :=
  fun w => match c w with
           | (Ok a, w') => (Ok (Some a), w')
           | (Raise _, w') => (Ok None, w')
           end.

(** [self.scaler.fit_transform(X)] *)
Definition scaler_fit_transform (X : list (list Q)) : M (list (list Q)) :=
  e <- get_engine ;;
  let p := scaler_fit X in
  put_engine (mkEngine (Some p) (isolation_forest e)) ;;
  ret (scaler_transform p X).

(** [self.isolation_forest.fit_predict(X)] *)
Definition forest_fit_predict (X : list (list Q)) : M (list Z) :=
  e <- get_engine ;;
  let f := isolation_forest e in
  let p := forest_fit (contamination f) (random_state f) X in
  put_engine (mkEngine (scaler e)
                (mkIsolationForest (contamination f) (random_state f) (Some p))) ;;
  ret (forest_predict p X).
End Engine.

(** ** Network analysis *)

Section NetworkAnalysis.
Context {L : Libs}.

(** [transaction.get('customer_id', f"CUST_{hash(str(..account_number..))}")] *)
Definition source_key (df : DataFrame) (r : Row) : option string :=
  row_get df r "customer_id" customer_id
    (Some ("CUST_" ++
           str_of_Z (py_hash (row_get df r "account_number" account_number "")))%string).

(** [transaction.get('merchant_name', f"MERCH_{hash(str(..merchant_category..))}")] *)
Definition target_key (df : DataFrame) (r : Row) : option string :=
  row_get df r "merchant_name" merchant_name
    (Some ("MERCH_" ++
           str_of_Z (py_hash (row_get df r "merchant_category" merchant_category "")))%string).

Definition edge_amount (df : DataFrame) (r : Row) : Q :=
  row_get df r "amount" amount 0%Q.

(** [transaction.get('timestamp', datetime.now())] *)
Definition edge_timestamp (now : Z) (df : DataFrame) (r : Row) : Z :=
  row_get df r "timestamp" timestamp now.

(** The body of the loop over [iterrows()]. *)
Definition add_transaction (now : Z) (df : DataFrame) (G : DiGraph) (r : Row)
  : result DiGraph :=
  let source := source_key df r in
  let target := target_key df r in
  let amount := edge_amount df r in
  let ts := edge_timestamp now df r in
  if has_edge G source target
  then Ok (accumulate_edge G source target amount ts)
  else add_edge G source target (mkEdgeData amount 1 [ts]).

Fixpoint add_transactions (now : Z) (df : DataFrame) (G : DiGraph)
  (rs : list Row) : result DiGraph :=
  match rs with
  | [] => Ok G
  | r :: rs' =>
      G' <- add_transaction now df G r ;; add_transactions now df G' rs'
  end.

Definition build_graph (now : Z) (df : DataFrame) : result DiGraph :=
  add_transactions now df empty_graph (rows df).

Definition suspicious_entry (G : DiGraph) (pagerank : string -> Q)
  (node : string) : Network.suspicious_node :=
  Network.mkSuspicious node (nx_degree_centrality G node)
    (nx_betweenness_centrality G node) (pagerank node) (degree G node).

Definition is_suspicious (x : Network.suspicious_node) : bool :=
  orb (Qlt_bool 0.1 (Network.degree_centrality x))
      (orb (Qlt_bool 0.1 (Network.betweenness_centrality x))
           (Qlt_bool 0.05 (Network.pagerank x))).

Definition combined_score (x : Network.suspicious_node) : Q :=
  (Network.degree_centrality x + Network.betweenness_centrality x +
   Network.pagerank x)%Q.

(** [suspicious_nodes.sort(key=.., reverse=True)] *)
Definition sort_suspicious (l : list Network.suspicious_node)
  : list Network.suspicious_node :=
  sort (fun x y => Qle_bool (combined_score y) (combined_score x)) l.

Definition large_communities_of (G : DiGraph) : list (list string) :=
  filter (fun comm => Nat.ltb 3 (length comm)) (nx_connected_components G).

(** [_serialize_graph] *)
Definition _serialize_graph (G : DiGraph) : Network.serialized :=
  Network.mkSerialized
    (map (fun node => (node, degree G node)) (nodes G))
    (map (fun e => (edge_source e, edge_target e, weight (edge_data e))) (edges G))
    (number_of_nodes G) (number_of_edges G) (nx_density G).

Definition network_risk_level (suspicious : nat) : string :=
  if Nat.ltb 10 suspicious then "HIGH"
  else if Nat.ltb 5 suspicious then "MEDIUM"
  else "LOW".

Definition network_recommendations (suspicious communities : nat) (d : Q)
  : list string :=
  (if Nat.ltb 0 suspicious
   then ["Investigate top " ++ str_of_nat (Nat.min 5 suspicious) ++
         " high-centrality entities"]%string
   else []) ++
  (if Nat.ltb 0 communities
   then ["Analyze " ++ str_of_nat communities ++
         " large transaction communities"]%string
   else []) ++
  (if Qlt_bool 0.3 d
   then ["High network density indicates potential organized activity"]
   else []).

Definition network_analysis_on (now : Z) (df : DataFrame)
  : result AnalyticsResult :=
  G <- build_graph now df ;;
  let network_metrics :=
    Network.mkMetrics (number_of_nodes G) (number_of_edges G) (nx_density G)
      (if Nat.ltb 0 (number_of_nodes G) then nx_average_clustering G else 0%Q) in
  found <-
    (if Nat.ltb 0 (number_of_nodes G) then
       pagerank <- nx_pagerank G ;;
       Ok (sort_suspicious
             (filter is_suspicious (map (suspicious_entry G pagerank) (nodes G))),
           large_communities_of G)
     else Ok ([], [])) ;;
  let suspicious_nodes := fst found in
  let large_communities := snd found in
  Ok (mkAnalyticsResult "network_analysis" now
        (NetworkSummary
           (Network.mkSummary network_metrics (length suspicious_nodes)
              (length large_communities)
              (network_risk_level (length suspicious_nodes))))
        (NetworkDetails
           (Network.mkDetails (firstn 10 suspicious_nodes) large_communities
              (_serialize_graph G)))
        ["network_graph"; "centrality_distribution"; "community_detection"]
        (network_recommendations (length suspicious_nodes)
           (length large_communities) (Network.density network_metrics))).

Definition network_analysis (now : Z) : M AnalyticsResult :=
  df <- get_table ;; lift (network_analysis_on now df).
End NetworkAnalysis.

(** ** Grouping and aggregation *)

Section GroupBy.
Context {L : Libs}.
Variable K : Type.
Variable eqb : K -> K -> bool.
Variable leb : K -> K -> bool.

(** [groupby(key)]: the distinct keys in ascending order, each with its
    rows in table order. *)
Definition groupby (key : Row -> K) (rs : list Row) : list (K * list Row) :=
  map (fun k => (k, filter (fun r => eqb (key r) k) rs))
      (sort leb (unique eqb (map key rs))).

(** [{'amount': ['count', 'sum', 'mean']}] followed by [.round(2)]. *)
Definition agg_amount (group : list Row) : AmountStats :=
  let amounts := map amount group in
  mkAmountStats (length amounts) (np_round2 (Qsum amounts))
    (np_round2 (match Qmean amounts with Some m => m | None => 0%Q end)).

Definition amount_stats (key : Row -> K) (rs : list Row)
  : list (K * AmountStats) :=
  map (fun g => (fst g, agg_amount (snd g))) (groupby key rs).

(** The same with [{'customer_id': 'nunique'}]. *)
Definition amount_customer_stats (key : Row -> K) (rs : list Row)
  : list (K * AmountStats * nat) :=
  map (fun g => (fst g, agg_amount (snd g),
                 nunique String.eqb (dropna (map customer_id (snd g)))))
      (groupby key rs).
End GroupBy.

(** [Series.value_counts()]: distinct values with their counts, most frequent
    first; values of equal count stay in order of first appearance. *)
Definition value_counts (l : list string) : list (string * nat) :=
  sort (fun x y => Nat.leb (snd y) (snd x))
       (map (fun k => (k, length (filter (String.eqb k) l)))
            (unique String.eqb l)).

(** ** Temporal pattern analysis *)

Section TemporalAnalysis.
Context {L : Libs}.

Definition unusual_hours : list Z := [0; 1; 2; 3; 4; 5; 22; 23].

(** Lines 166-174: the derived columns are written into the caller's
    table. *)
Definition add_time_features (now : Z) (df : DataFrame) : DataFrame :=
  let df1 := if has_column df "timestamp" then df
             else assign df ["timestamp"] (set_timestamp now) in
  assign df1 ["hour"; "day_of_week"; "day_of_month"; "month"]
         set_time_features.

(** [sort_values('timestamp')]; rows of equal timestamp stay in table
    order. *)
Definition sort_by_timestamp (rs : list Row) : list Row :=
  sort (fun x y => Z.leb (timestamp x) (timestamp y)) rs.

Fixpoint diff_from (previous : Z) (rs : list Row) : list (Row * option Z) :=
  match rs with
  | [] => []
  | r :: rs' => (r, Some (timestamp r - previous)) :: diff_from (timestamp r) rs'
  end.

(** [['timestamp'].diff()]: the first row has no difference (NaT). *)
Definition with_time_diff (rs : list Row) : list (Row * option Z) :=
  match rs with
  | [] => []
  | r :: rs' => (r, None) :: diff_from (timestamp r) rs'
  end.

Definition is_rapid (x : Row * option Z) : bool :=
  match snd x with
  | Some d => andb (Qle_bool (total_seconds d) 300) (Qlt_bool 0 (total_seconds d))
  | None => false
  end.

Definition rapid_rows (df : DataFrame) : list (Row * option Z) :=
  filter is_rapid (with_time_diff (sort_by_timestamp (rows df))).

Definition temporal_recommendation (a : Anomaly) : string :=
  (if String.eqb (severity a) "HIGH"
   then "Immediate investigation required: " ++ description a
   else "Monitor closely: " ++ description a)%string.

(** The analysis proper, on the table that carries the derived columns. *)
Definition temporal_pattern_analysis_on (now : Z) (df : DataFrame)
  : result AnalyticsResult :=
  (* hourly_stats *)
  require df "hour" ;;
  require df "amount" ;;
  require df "transaction_id" ;;
  let hourly_stats :=
    map (fun g => (fst g, agg_amount (snd g), length (snd g)))
        (groupby Z.eqb Z.leb hour (rows df)) in
  let unusual_hour_transactions :=
    select df (fun r => mem_Z (hour r) unusual_hours) in
  unusual_hour_percentage <-
    percentage (len unusual_hour_transactions) (len df) ;;
  require df "day_of_week" ;;
  let daily_stats := amount_stats Z.eqb Z.leb day_of_week (rows df) in
  require df "timestamp" ;;
  let rapid_transactions := rapid_rows df in
  velocity_abuse_percentage <-
    percentage (length rapid_transactions) (len df) ;;
  require df "month" ;;
  let monthly_stats := amount_stats Z.eqb Z.leb month (rows df) in
  let anomalies1 :=
    (if Qlt_bool 15 unusual_hour_percentage
     then [mkAnomaly "unusual_hours" "HIGH"
             (py_format_1f unusual_hour_percentage ++
              "% of transactions occur during unusual hours")%string
             (Count (len unusual_hour_transactions))]
     else []) ++
    (if Qlt_bool 5 velocity_abuse_percentage
     then [mkAnomaly "velocity_abuse" "MEDIUM"
             (py_format_1f velocity_abuse_percentage ++
              "% of transactions show rapid succession patterns")%string
             (Count (length rapid_transactions))]
     else []) in
  let weekend_transactions :=
    select df (fun r => mem_Z (day_of_week r) [5; 6]) in
  weekend_percentage <- percentage (len weekend_transactions) (len df) ;;
  let anomalies :=
    anomalies1 ++
    (if Qlt_bool 40 weekend_percentage
     then [mkAnomaly "weekend_activity" "MEDIUM"
             ("High weekend activity: " ++ py_format_1f weekend_percentage ++
              "% of transactions")%string
             (Count (len weekend_transactions))]
     else []) in
  let recommendations :=
    map temporal_recommendation anomalies ++
    (if Nat.eqb (length anomalies) 0
     then ["Temporal patterns appear normal - continue routine monitoring"]
     else []) in
  Ok (mkAnalyticsResult "temporal_pattern_analysis" now
        (TemporalSummary
           (Temporal.mkSummary (len df) unusual_hour_percentage
              velocity_abuse_percentage weekend_percentage (length anomalies)
              (anomaly_risk_level anomalies)))
        (TemporalDetails
           (Temporal.mkDetails hourly_stats daily_stats monthly_stats anomalies
              (firstn 20
                 (map (fun x => (fst x,
                                 match snd x with
                                 | Some d => total_seconds d
                                 | None => 0%Q
                                 end)) rapid_transactions))))
        ["hourly_heatmap"; "daily_patterns"; "velocity_timeline"]
        recommendations).

Definition temporal_pattern_analysis (now : Z) : M AnalyticsResult :=
  df <- get_table ;;
  let df' := add_time_features now df in
  put_table df' ;;
  lift (temporal_pattern_analysis_on now df').
End TemporalAnalysis.

(** ** Geographic clustering analysis *)

Section GeographicAnalysis.
Context {L : Libs}.

Definition geographic_high_risk_locations : list string :=
  ["Border_Area"; "Unknown"; "Offshore"; "Tax_Haven"].

Definition domestic_locations : list string :=
  ["Mumbai"; "Delhi"; "Bangalore"; "Chennai"; "Pune"; "Hyderabad"; "Kolkata";
   "Ahmedabad"].

Definition geographic_recommendation (a : Anomaly) : string :=
  (if String.eqb (severity a) "HIGH"
   then "Priority investigation: " ++ description a
   else "Enhanced monitoring: " ++ description a)%string.

Definition geographic_clustering_analysis_on (now : Z) (df : DataFrame)
  : result AnalyticsResult :=
  if negb (has_column df "location") then
    Ok (mkAnalyticsResult "geographic_clustering" now
          (ErrorSummary "No location data available") NoDetails []
          ["Ensure location data is available for geographic analysis"])
  else
    (* location_stats *)
    require df "amount" ;;
    require df "customer_id" ;;
    let location_stats :=
      amount_customer_stats String.eqb String.leb location (rows df) in
    let high_risk_transactions :=
      select df (fun r => mem_str (location r) geographic_high_risk_locations) in
    high_risk_percentage <-
      percentage (len high_risk_transactions) (len df) ;;
    let location_concentration := value_counts (map location (rows df)) in
    let top_locations := firstn 5 location_concentration in
    let unique_locations := nunique String.eqb (map location (rows df)) in
    let total_transactions := len df in
    let diversity_score :=
      if Nat.ltb 0 total_transactions
      then (Qofnat unique_locations / Qofnat total_transactions)%Q
      else 0%Q in
    let anomalies1 :=
      (if Qlt_bool 10 high_risk_percentage
       then [mkAnomaly "high_risk_locations" "HIGH"
               (py_format_1f high_risk_percentage ++
                "% of transactions from high-risk locations")%string
               (Locations
                  (value_counts (map location (rows high_risk_transactions))))]
       else []) ++
      (match top_locations with
       | (top, n) :: _ =>
           if Qlt_bool 0.5 (Qofnat n / Qofnat total_transactions)
           then [mkAnomaly "location_concentration" "MEDIUM"
                   ("Over 50% of transactions concentrated in " ++ top)%string
                   (ConcentrationPercentage
                      (Qofnat n / Qofnat total_transactions * 100)%Q)]
           else []
       | [] => []
       end) ++
      (if andb (Qlt_bool diversity_score 0.05) (Nat.ltb unique_locations 5)
       then [mkAnomaly "low_diversity" "MEDIUM"
               ("Low geographic diversity: only " ++
                str_of_nat unique_locations ++ " unique locations")%string
               (DiversityScore diversity_score)]
       else []) in
    let cross_border_transactions :=
      select df (fun r => negb (mem_str (location r) domestic_locations)) in
    cross_border_percentage <-
      percentage (len cross_border_transactions) (len df) ;;
    let geographic_anomalies :=
      anomalies1 ++
      (if Qlt_bool 20 cross_border_percentage
       then [mkAnomaly "cross_border_activity" "HIGH"
               ("High cross-border activity: " ++
                py_format_1f cross_border_percentage ++ "% of transactions")%string
               (ForeignLocations
                  (value_counts (map location (rows cross_border_transactions))))]
       else []) in
    let recommendations :=
      map geographic_recommendation geographic_anomalies ++
      (if Nat.eqb (length geographic_anomalies) 0
       then ["Geographic patterns appear normal - maintain standard monitoring"]
       else []) ++
      ["Consider implementing real-time location verification";
       "Cross-reference with known high-risk geographic zones"] in
    Ok (mkAnalyticsResult "geographic_clustering" now
          (GeographicSummary
             (Geographic.mkSummary unique_locations high_risk_percentage
                cross_border_percentage diversity_score
                (length geographic_anomalies)
                (anomaly_risk_level geographic_anomalies)))
          (GeographicDetails
             (Geographic.mkDetails location_stats top_locations
                geographic_anomalies (firstn 50 (rows high_risk_transactions))))
          ["location_heatmap"; "geographic_distribution"; "risk_zones_map"]
          recommendations).

Definition geographic_clustering_analysis (now : Z) : M AnalyticsResult :=
  df <- get_table ;; lift (geographic_clustering_analysis_on now df).
End GeographicAnalysis.

(** ** Behavioral profiling *)

(** [amount % 1000 == 0] *)
Definition is_multiple_of_1000 (q : Q) : bool :=
  Z.eqb (Qnum q mod (1000 * QDen q)) 0.

Definition Zmaximum (x : Z) (l : list Z) : Z := fold_right Z.max x l.
Definition Zminimum (x : Z) (l : list Z) : Z := fold_right Z.min x l.

(** [.fillna(0)] *)
Definition fillna0 (x : option Q) : Q :=
  match x with Some q => q | None => 0%Q end.

Section BehavioralProfiling.
Context {L : Libs}.

(** [(customer_data['timestamp'].max() - customer_data['timestamp'].min()).days] *)
Definition date_range (customer_data : list Row) : Z :=
  match map timestamp customer_data with
  | [] => 0
  | t :: ts => delta_days (Zminimum t ts) (Zmaximum t ts)
  end.

(** [len(customer_data) / max(date_range, 1)] *)
Definition velocity_of (customer_data : list Row) : Q :=
  (Qofnat (length customer_data) /
   inject_Z (Z.max (date_range customer_data) 1))%Q.

(** One pass of the loop over [customer_profiles.index]. *)
Definition profile_of (df : DataFrame) (id : string) : Behavioral.profile :=
  let customer_data :=
    filter (fun r => match customer_id r with
                     | Some c => String.eqb c id
                     | None => false
                     end) (rows df) in
  let amounts := map amount customer_data in
  let mean := match Qmean amounts with Some m => m | None => 0%Q end in
  let amount_cv :=
    if Qlt_bool 0 mean
    then match pd_std amounts with
         | Some s => Some (s / mean)%Q
         | None => None
         end
    else Some 0%Q in
  let round_amounts := filter is_multiple_of_1000 amounts in
  Behavioral.mkProfile id (length customer_data) (Qsum amounts) mean amount_cv
    (velocity_of customer_data)
    (Qofnat (length round_amounts) / Qofnat (length customer_data) * 100)%Q
    (nunique String.eqb (map location customer_data))
    (nunique String.eqb (map payment_method customer_data))
    (pd_std (map (fun r => inject_Z (hour_of (timestamp r))) customer_data)).

(** The keys of [groupby('customer_id')]: distinct, non-null, ascending. *)
Definition customer_index (df : DataFrame) : list string :=
  sort String.leb (unique String.eqb (dropna (map customer_id (rows df)))).

(** The six columns handed to the scaler, nulls replaced by 0. *)
Definition features_for_analysis (p : Behavioral.profile) : list Q :=
  [fillna0 (Behavioral.amount_variance p); Behavioral.velocity p;
   Behavioral.round_amount_percentage p;
   Qofnat (Behavioral.location_diversity p);
   Qofnat (Behavioral.payment_method_diversity p);
   fillna0 (Behavioral.hour_variance p)].

Definition alert (kind sev text : string) (found : list Behavioral.profile)
  : list Anomaly :=
  if Nat.ltb 0 (length found)
  then [mkAnomaly kind sev (str_of_nat (length found) ++ text)%string
          (Customers (firstn 10 (map Behavioral.profile_customer_id found)))]
  else [].

Definition behavioral_alerts_of (behavioral_df : list Behavioral.profile)
  : list Anomaly :=
  if Nat.ltb 0 (length behavioral_df) then
    alert "high_velocity" "HIGH" " customers show high transaction velocity"
      (filter (fun p => Qlt_bool 10 (Behavioral.velocity p)) behavioral_df) ++
    alert "round_amounts" "MEDIUM"
      " customers prefer round amounts (possible structuring)"
      (filter (fun p => Qlt_bool 50 (Behavioral.round_amount_percentage p))
              behavioral_df) ++
    alert "low_diversity" "MEDIUM" " customers show low behavioral diversity"
      (filter (fun p =>
                 andb (Nat.leb (Behavioral.location_diversity p) 1)
                   (andb (Nat.leb (Behavioral.payment_method_diversity p) 1)
                         (Nat.ltb 5 (Behavioral.profile_transaction_count p))))
              behavioral_df)
  else [].

Definition behavioral_recommendation (a : Anomaly) : string :=
  (if String.eqb (severity a) "HIGH"
   then "Immediate review required: " ++ description a
   else "Enhanced monitoring: " ++ description a)%string.

(** Lines 410-476: the profiles and the outliers among them. *)
Definition customer_behavior (df : DataFrame)
  : M (nat * list Behavioral.profile * list (Behavioral.profile * Z)) :=
  if has_column df "customer_id" then
    lift (require df "amount" ;;
          require df "payment_method" ;;
          require df "merchant_category" ;;
          require df "location" ;;
          require df "timestamp") ;;
    let customer_profiles := customer_index df in
    let behavioral_df := map (profile_of df) customer_profiles in
    suspicious_customers <-
      (if Nat.ltb 5 (length behavioral_df) then
         let analysis_data := map features_for_analysis behavioral_df in
         normalized_data <- scaler_fit_transform analysis_data ;;
         anomaly_scores <- forest_fit_predict normalized_data ;;
         ret (filter (fun x => Z.eqb (snd x) (-1))
                     (combine behavioral_df anomaly_scores))
       else ret []) ;;
    ret (length customer_profiles, behavioral_df, suspicious_customers)
  else ret (O, [], []).

(** Lines 478-560: the statistics, the alerts and the result. *)
Definition behavioral_report (now : Z) (df : DataFrame)
  (found : nat * list Behavioral.profile * list (Behavioral.profile * Z))
  : result AnalyticsResult :=
  let total_customers := fst (fst found) in
  let behavioral_df := snd (fst found) in
  let suspicious_customers := snd found in
  require df "payment_method" ;;
  require df "amount" ;;
  require df "customer_id" ;;
  let payment_method_stats :=
    amount_customer_stats String.eqb String.leb payment_method (rows df) in
  require df "merchant_category" ;;
  let merchant_category_stats :=
    amount_customer_stats String.eqb String.leb merchant_category (rows df) in
  let behavioral_alerts := behavioral_alerts_of behavioral_df in
  let recommendations :=
    map behavioral_recommendation behavioral_alerts ++
    (if Nat.eqb (length behavioral_alerts) 0
     then ["Behavioral patterns appear normal"] else []) ++
    ["Implement continuous behavioral monitoring";
     "Consider machine learning-based behavior prediction"] in
  Ok (mkAnalyticsResult "behavioral_profiling" now
        (BehavioralSummary
           (Behavioral.mkSummary total_customers
              (length suspicious_customers) (length behavioral_alerts)
              (anomaly_risk_level behavioral_alerts)))
        (BehavioralDetails
           (Behavioral.mkDetails suspicious_customers payment_method_stats
              merchant_category_stats behavioral_alerts))
        ["behavior_clusters"; "velocity_distribution"; "diversity_matrix"]
        recommendations).

Definition behavioral_profiling (now : Z) : M AnalyticsResult :=
  df <- get_table ;;
  found <- customer_behavior df ;;
  lift (behavioral_report now df found).
End BehavioralProfiling.

(** ** Predictive risk modeling *)

Definition payment_risk_scores : list (string * Q) :=
  [("UPI", 0.1); ("Card", 0.2); ("Net_Banking", 0.3); ("IMPS", 0.4);
   ("NEFT", 0.6); ("RTGS", 0.8); ("Cash_Deposit", 0.9)]%Q.

Definition merchant_risk_scores : list (string * Q) :=
  [("Grocery", 0.1); ("Food", 0.1); ("Transport", 0.2); ("Retail", 0.2);
   ("Healthcare", 0.3); ("Education", 0.3); ("Entertainment", 0.4);
   ("Investment", 0.7); ("Real_Estate", 0.8); ("Gold_Jewelry", 0.9)]%Q.

(** [.map(scores).fillna(0.5)] on one cell. *)
Fixpoint risk_lookup (scores : list (string * Q)) (k : string) : Q :=
  match scores with
  | [] => 0.5%Q
  | (k', v) :: scores' => if String.eqb k k' then v else risk_lookup scores' k
  end.

Definition predictive_high_risk_locations : list string :=
  ["Border_Area"; "Unknown"; "Offshore"].

Definition risk_factors : list string :=
  ["is_unusual_hour"; "is_round_amount"; "is_high_amount";
   "is_high_risk_location"; "payment_risk_score"; "merchant_risk_score"].

Definition weights : list Q := [0.15; 0.10; 0.20; 0.25; 0.15; 0.15]%Q.

(** The loop [for factor, weight in zip(risk_factors, weights)] followed by
    the scaling to 0-100. *)
Definition composite_risk_score (factors : list Q) : Q :=
  (fold_left (fun score fw => score + fst fw * snd fw) (combine factors weights) 0
   * 100)%Q.

(** [pd.cut(score, bins=[0, 25, 50, 75, 100], labels=[..])]: right-closed
    bins, NaN outside them. *)
Definition cut_risk_level (score : Q) : option string :=
  if andb (Qlt_bool 0 score) (Qle_bool score 25) then Some "LOW"
  else if andb (Qlt_bool 25 score) (Qle_bool score 50) then Some "MEDIUM"
  else if andb (Qlt_bool 50 score) (Qle_bool score 75) then Some "HIGH"
  else if andb (Qlt_bool 75 score) (Qle_bool score 100) then Some "CRITICAL"
  else None.

(** [Series.quantile(0.9)] with linear interpolation; NaN on no data. *)
Definition quantile_90 (l : list Q) : option Q :=
  match sort Qle_bool l with
  | [] => None
  | (x :: _) as sorted =>
      let h := 9 * (Z.of_nat (length sorted) - 1) in
      let lo := nth (Z.to_nat (h / 10)) sorted x in
      let hi := nth (Z.to_nat (h / 10) + 1) sorted lo in
      Some (lo + (hi - lo) * (inject_Z (h mod 10) / 10))%Q
  end.

Definition Z_of_bool (b : bool) : Z := if b then 1 else 0.

Section PredictiveRiskModeling.
Context {L : Libs}.

Definition score_row (q90 : option Q) (r : Row) : Predictive.scored :=
  let h := hour_of (timestamp r) in
  let dow := dayofweek_of (timestamp r) in
  let is_unusual_hour := Z_of_bool (mem_Z h [0; 1; 2; 3; 22; 23]) in
  let is_round_amount := Z_of_bool (is_multiple_of_1000 (amount r)) in
  let is_high_amount :=
    Z_of_bool (match q90 with
               | Some q => Qlt_bool q (amount r)
               | None => false
               end) in
  let is_high_risk_location :=
    Z_of_bool (mem_str (location r) predictive_high_risk_locations) in
  let payment_risk_score := risk_lookup payment_risk_scores (payment_method r) in
  let merchant_risk_score :=
    risk_lookup merchant_risk_scores (merchant_category r) in
  let predicted_risk_score :=
    composite_risk_score
      [inject_Z is_unusual_hour; inject_Z is_round_amount;
       inject_Z is_high_amount; inject_Z is_high_risk_location;
       payment_risk_score; merchant_risk_score] in
  Predictive.mkScored r h dow (Z_of_bool (mem_Z dow [5; 6])) is_unusual_hour
    is_round_amount is_high_amount is_high_risk_location payment_risk_score
    merchant_risk_score predicted_risk_score
    (cut_risk_level predicted_risk_score).

Definition has_level (levels : list string) (x : Predictive.scored) : bool :=
  match Predictive.predicted_risk_level x with
  | Some l => mem_str l levels
  | None => false
  end.

(** [value_counts()] of the categorical level column: every category is
    listed, most frequent first. *)
Definition risk_distribution_of (feature_df : list Predictive.scored)
  : list (string * nat) :=
  sort (fun x y => Nat.leb (snd y) (snd x))
       (map (fun l => (l, length (filter (has_level [l]) feature_df)))
            ["LOW"; "MEDIUM"; "HIGH"; "CRITICAL"]).

(** [groupby('date')['predicted_risk_score'].mean()], by ascending date. *)
Definition daily_risk_of (feature_df : list Predictive.scored) : list Q :=
  let date := fun x => days_of (timestamp (Predictive.transaction x)) in
  map (fun d =>
         match Qmean (map Predictive.predicted_risk_score
                          (filter (fun x => Z.eqb (date x) d) feature_df)) with
         | Some m => m
         | None => 0%Q
         end)
      (sort Z.leb (unique Z.eqb (map date feature_df))).

Definition tail (n : nat) {A} (l : list A) : list A :=
  skipn (length l - n) l.

(** Lines 634-649: the trend and its direction. *)
Definition risk_trend_of (feature_df : list Predictive.scored) : Q * string :=
  if Nat.ltb 10 (length feature_df) then
    let daily_risk := daily_risk_of feature_df in
    if Nat.ltb 3 (length daily_risk) then
      let recent_trend :=
        (fillna0 (Qmean (tail 3 daily_risk)) -
         fillna0 (Qmean (firstn 3 daily_risk)))%Q in
      (recent_trend,
       if Qlt_bool 5 recent_trend then "INCREASING"
       else if Qlt_bool recent_trend (-5) then "DECREASING"
       else "STABLE")
    else (0%Q, "INSUFFICIENT_DATA")
  else (0%Q, "INSUFFICIENT_DATA").

Definition Qmin (x y : Q) : Q := if Qle_bool x y then x else y.

Definition model_metrics : list (string * Q) :=
  [("accuracy", 0.94); ("precision", 0.89); ("recall", 0.92);
   ("f1_score", 0.90); ("auc_score", 0.96)]%Q.

Definition predictive_risk_modeling_on (now : Z) (df : DataFrame)
  : result AnalyticsResult :=
  (* feature_df = transactions_df.copy(): the columns below are added to
     the copy *)
  require df "timestamp" ;;
  require df "amount" ;;
  require df "location" ;;
  require df "payment_method" ;;
  require df "merchant_category" ;;
  let feature_df :=
    map (score_row (quantile_90 (map amount (rows df)))) (rows df) in
  let risk_distribution := risk_distribution_of feature_df in
  let high_risk_transactions :=
    filter (has_level ["HIGH"; "CRITICAL"]) feature_df in
  let trend := risk_trend_of feature_df in
  let recent_trend := fst trend in
  let trend_direction := snd trend in
  let future_predictions :=
    if String.eqb trend_direction "INCREASING" then
      [Predictive.RiskIncrease (Qmin (recent_trend * 2) 25)
         "Enhanced monitoring recommended"]
    else if String.eqb trend_direction "DECREASING" then
      [Predictive.RiskDecrease (Qmin (Qabs recent_trend * 2) 25)
         "Risk levels improving, maintain current monitoring"]
    else [] in
  let recommendations :=
    (if Nat.ltb 0 (length high_risk_transactions)
     then ["Immediate attention: " ++
           str_of_nat (length high_risk_transactions) ++
           " high/critical risk transactions identified"]%string
     else []) ++
    (if String.eqb trend_direction "INCREASING"
     then ["Risk trend is increasing - consider implementing additional controls"]
     else []) ++
    ["Deploy real-time risk scoring for all incoming transactions";
     "Implement automated alerts for transactions scoring above 75";
     "Regular model retraining recommended every 30 days"] in
  high_risk_share <-
    py_div (length high_risk_transactions) (length feature_df) ;;
  Ok (mkAnalyticsResult "predictive_risk_modeling" now
        (PredictiveSummary
           (Predictive.mkSummary (length feature_df)
              (length high_risk_transactions)
              (Qmean (map Predictive.predicted_risk_score feature_df))
              trend_direction 0.94%Q
              (if Qlt_bool 0.1 high_risk_share then "HIGH"
               else if Nat.ltb 0 (length high_risk_transactions) then "MEDIUM"
               else "LOW")))
        (PredictiveDetails
           (Predictive.mkDetails risk_distribution
              (firstn 50 high_risk_transactions) model_metrics
              future_predictions (combine risk_factors weights)))
        ["risk_distribution"; "trend_analysis"; "feature_importance"]
        recommendations).

Definition predictive_risk_modeling (now : Z) : M AnalyticsResult :=
  df <- get_table ;; lift (predictive_risk_modeling_on now df).
End PredictiveRiskModeling.

(** ** The comprehensive report *)

Record ExecutiveSummary : Type := mkExecutiveSummary {
  total_transactions_analyzed : nat;
  analyses_completed : nat;
  overall_risk_score : Q;
  overall_risk_level : string;
  total_recommendations : nat;
  priority_actions : list string
}.

(** The returned dictionary: the analyses that completed, in insertion
    order, and the entry ['executive_summary']. *)
Record Report : Type := mkReport {
  results : list (string * AnalyticsResult);
  executive_summary : ExecutiveSummary
}.

(** [{'LOW': 25, 'MEDIUM': 50, 'HIGH': 75, 'CRITICAL': 100}.get(level, 50)] *)
Definition risk_score_of_level (level : string) : Z :=
  if String.eqb level "LOW" then 25
  else if String.eqb level "MEDIUM" then 50
  else if String.eqb level "HIGH" then 75
  else if String.eqb level "CRITICAL" then 100
  else 50.

(** The scores appended by the loop over [results.items()]. *)
Fixpoint overall_risk_scores_of (rs : list (string * AnalyticsResult))
  : list Z :=
  match rs with
  | [] => []
  | (_, r) :: rs' =>
      match summary_risk_level (summary r) with
      | Some level => risk_score_of_level level :: overall_risk_scores_of rs'
      | None => overall_risk_scores_of rs'
      end
  end.

Definition Zsum (l : list Z) : Z := fold_right Z.add 0 l.

(** Lines 770-783. *)
Definition overall_risk (scores : list Z) : Q * string :=
  match scores with
  | [] => (0%Q, "UNKNOWN")
  | _ =>
      let overall_risk_score :=
        (inject_Z (Zsum scores) / Qofnat (length scores))%Q in
      (overall_risk_score,
       if Qle_bool 75 overall_risk_score then "CRITICAL"
       else if Qle_bool 50 overall_risk_score then "HIGH"
       else if Qle_bool 25 overall_risk_score then "MEDIUM"
       else "LOW")
  end.

Definition is_priority (rec : string) : bool :=
  orb (contains "immediate" (lower rec)) (contains "priority" (lower rec)).

Definition make_executive_summary (df : DataFrame)
  (rs : list (string * AnalyticsResult)) : ExecutiveSummary :=
  let overall := overall_risk (overall_risk_scores_of rs) in
  let all_recommendations := flat_map (fun kr => recommendations (snd kr)) rs in
  mkExecutiveSummary (len df) (length rs) (fst overall) (snd overall)
    (length all_recommendations)
    (firstn 5 (filter is_priority all_recommendations)).

Section ComprehensiveReport.
Context {L : Libs}.

(** One [try: results[key] = analyzer(df)  except Exception: ..] block. *)
Definition run_module (key : string) (analyzer : M AnalyticsResult)
  (rs : list (string * AnalyticsResult))
  : M (list (string * AnalyticsResult)) :=
  r <- try_ analyzer ;;
  ret (match r with
       | Some a => rs ++ [(key, a)]
       | None => rs
       end).

Definition comprehensive_analysis_report (now : Z) : M Report :=
  rs <- run_module "network" (network_analysis now) [] ;;
  rs <- run_module "temporal" (temporal_pattern_analysis now) rs ;;
  rs <- run_module "geographic" (geographic_clustering_analysis now) rs ;;
  rs <- run_module "behavioral" (behavioral_profiling now) rs ;;
  rs <- run_module "predictive" (predictive_risk_modeling now) rs ;;
  df <- get_table ;;
  ret (mkReport rs (make_executive_summary df rs)).
End ComprehensiveReport.

(** ** Binary64 evaluation of the composite score

    The same accumulation in IEEE 754 double precision, the arithmetic
    numpy performs, for checking concrete scores. *)

Module Binary64.
#[warnings="-inexact-float"]
Definition weights : list float :=
  [0.15; 0.10; 0.20; 0.25; 0.15; 0.15]%float.

Definition composite_risk_score (factors : list float) : float :=
  (fold_left (fun score fw => score + fst fw * snd fw)
             (combine factors weights) 0 * 100)%float.
End Binary64.

(** ** Vocabulary of the statements *)

(** Transaction [r] goes from node [u] to node [v]. *)
Definition connects {L : Libs} (df : DataFrame) (u v : string) (r : Row) : bool :=
  match source_key df r, target_key df r with
  | Some a, Some b => andb (String.eqb u a) (String.eqb v b)
  | _, _ => false
  end.

Definition transactions_between {L : Libs} (df : DataFrame) (u v : string)
  (rs : list Row) : list Row :=
  filter (connects df u v) rs.

(** What the graph holds once the rows [rs] have been added: one edge per
    connected pair, carrying the total, the count and the timestamps of the
    pair's transactions. *)
Definition graph_of {L : Libs} (now : Z) (df : DataFrame) (rs : list Row)
  (G : DiGraph) : Prop :=
  NoDup (map edge_key (edges G)) /\
  (forall u v, In (u, v) (map edge_key (edges G)) <->
               exists r, In r rs /\ connects df u v r = true) /\
  (forall u v d, In (u, v, d) (edges G) ->
     (weight d == Qsum (map (edge_amount df) (transactions_between df u v rs)))%Q /\
     transaction_count d = length (transactions_between df u v rs) /\
     timestamps d = map (edge_timestamp now df) (transactions_between df u v rs)).

(** Every edge joins two nodes of the graph. *)
Definition well_formed (G : DiGraph) : Prop :=
  forall e, In e (edges G) ->
            In (edge_source e) (nodes G) /\ In (edge_target e) (nodes G).

(** [x] can be reached from [v] along edges, taken in either direction. *)
Inductive linked (G : DiGraph) (v : string) : string -> Prop :=
| linked_refl : linked G v v
| linked_step (x y : string) :
    linked G v x -> In y (neighbors G x) -> linked G v y.

(** One round of [reach]. *)
Definition expand (G : DiGraph) (seen : list string) : list string :=
  seen ++ filter (fun x => negb (mem_str x seen)) (flat_map (neighbors G) seen).

(** No neighbour of a member is missing. *)
Definition closed (G : DiGraph) (S : list string) : Prop :=
  forall x y, In x S -> In y (neighbors G x) -> In y S.

Definition closedb (G : DiGraph) (S : list string) : bool :=
  forallb (fun x => forallb (fun y => mem_str y S) (neighbors G x)) S.

(** How many of the nodes [N] are in [S]. *)
Definition covered (N S : list string) : nat :=
  length (filter (fun x => mem_str x S) N).

(** The rows of customer [id], as [profile_of] selects them. *)
Definition customer_data_of (df : DataFrame) (id : string) : list Row :=
  filter (fun r => match customer_id r with
                   | Some c => String.eqb c id
                   | None => false
                   end) (rows df).

Section BehavioralVocabulary.
Context {L : Libs}.

(** The columns the aggregate [customer_profiles] needs. *)
Definition profile_columns (df : DataFrame) : result unit :=
  require df "amount" ;;
  require df "payment_method" ;;
  require df "merchant_category" ;;
  require df "location" ;;
  require df "timestamp".

(** The engine after [fit_transform] and [fit_predict] on [X]. *)
Definition fitted (e : Engine) (X : list (list Q)) : Engine :=
  let f := isolation_forest e in
  mkEngine (Some (scaler_fit X))
    (mkIsolationForest (contamination f) (random_state f)
       (Some (forest_fit (contamination f) (random_state f)
                (scaler_transform (scaler_fit X) X)))).

(** The outliers among the profiles, for a forest's hyperparameters. *)
Definition outliers (f : IsolationForest)
  (behavioral_df : list Behavioral.profile) : list (Behavioral.profile * Z) :=
  let X := map features_for_analysis behavioral_df in
  let normalized := scaler_transform (scaler_fit X) X in
  filter (fun x => Z.eqb (snd x) (-1))
    (combine behavioral_df
       (forest_predict
          (forest_fit (contamination f) (random_state f) normalized)
          normalized)).
End BehavioralVocabulary.

(** The entry a module leaves in the report: none when it raised. *)
Definition completed (key : string) (outcome : result AnalyticsResult)
  : list (string * AnalyticsResult) :=
  match outcome with
  | Ok r => [(key, r)]
  | Raise _ => []
  end.

(** The risk levels the completed analyses report, in report order. *)
Definition reported_risk_levels (rs : list (string * AnalyticsResult))
  : list string :=
  flat_map (fun kr => match summary_risk_level (summary (snd kr)) with
                      | Some level => [level]
                      | None => []
                      end) rs.

(** Two outcomes that differ at most in the result's own timestamp. *)
Definition same_outcome (o1 o2 : result AnalyticsResult) : Prop :=
  match o1, o2 with
  | Ok r1, Ok r2 =>
      analysis_type r1 = analysis_type r2 /\
      summary r1 = summary r2 /\
      detailed_results r1 = detailed_results r2 /\
      visualizations r1 = visualizations r2 /\
      recommendations r1 = recommendations r2
  | Raise e1, Raise e2 => e1 = e2
  | _, _ => False
  end.

Definition is_one_of (levels : list string) (x : option string) : Prop :=
  exists l, x = Some l /\ In l levels.

(** ** An instance for running the model

    Every theorem below holds for all instances of [Libs]; this one serves
    to evaluate the analyzers on concrete tables. *)

Definition sample_libs : Libs := {|
  py_hash := fun _ => 0;
  py_format_1f := fun q => str_of_Z (Qnum q / QDen q);
  nx_betweenness_centrality := fun _ _ => 0%Q;
  nx_pagerank := fun G => Ok (fun _ => (1 / Qofnat (number_of_nodes G))%Q);
  nx_average_clustering := fun _ => 0%Q;
  pd_std := fun l => match l with _ :: _ :: _ => Some 0%Q | _ => None end;
  np_round2 := fun q => q;
  ScalerParams := unit;
  scaler_fit := fun _ => tt;
  scaler_transform := fun _ X => X;
  ForestParams := unit;
  forest_fit := fun _ _ _ => tt;
  forest_predict := fun _ X => map (fun _ => 1) X
|}.

Definition all_columns : list string :=
  ["transaction_id"; "customer_id"; "merchant_name"; "merchant_category";
   "payment_method"; "amount"; "location"; "timestamp"].

(** A row of a table that has not been through [temporal_pattern_analysis]. *)
Definition transaction_row (id customer merchant category method : string)
  (amount : Q) (location : string) (timestamp : Z) : Row :=
  mkRow id (Some customer) "" (Some merchant) category method amount location
        timestamp 0 0 0 0.

(** Three customers paying one merchant. *)
Definition star_table : DataFrame :=
  mkDataFrame all_columns
    [transaction_row "T1" "C1" "M" "Retail" "UPI" 100 "Mumbai" 0;
     transaction_row "T2" "C2" "M" "Retail" "UPI" 200 "Mumbai" 0;
     transaction_row "T3" "C3" "M" "Retail" "UPI" 300 "Mumbai" 0].

(** Two payments over one pair and one over another. *)
Definition repeated_table : DataFrame :=
  mkDataFrame all_columns
    [transaction_row "T1" "C1" "M1" "Retail" "UPI" 100 "Mumbai" 10;
     transaction_row "T2" "C2" "M1" "Food" "Card" 250 "Delhi" 20;
     transaction_row "T3" "C1" "M1" "Retail" "UPI" 50 "Mumbai" 30].

(** 02:00 on 1970-01-01, 100000 paid by RTGS for jewelry at the border,
    next to a small purchase. *)
Definition critical_row : Row :=
  transaction_row "T1" "C1" "M1" "Gold_Jewelry" "RTGS" 100000 "Border_Area"
                  (2 * ns_per_hour).

Definition critical_table : DataFrame :=
  mkDataFrame all_columns
    [critical_row;
     transaction_row "T2" "C2" "M2" "Grocery" "UPI" 120 "Mumbai" (12 * ns_per_hour)].

Definition empty_table : DataFrame := mkDataFrame all_columns [].

(** A table without a [location] column. *)
Definition no_location_table : DataFrame :=
  mkDataFrame ["transaction_id"; "customer_id"; "merchant_name";
               "merchant_category"; "payment_method"; "amount"; "timestamp"]
    [transaction_row "T1" "C1" "M1" "Retail" "UPI" 100 "" 0].

(** One transaction in a table that has only the columns [cols]. *)
Definition one_row_table (cols : list string) : DataFrame :=
  mkDataFrame cols [transaction_row "T1" "C1" "M1" "Retail" "UPI" 100 "Mumbai" 0].

(** A frame built from the single record [{'customer_id': None}]. *)
Definition null_customer_table : DataFrame :=
  mkDataFrame ["customer_id"] [mkRow "" None "" None "" "" 0 "" 0 0 0 0 0].

(** Customer C1 pays on three days, the last payment two and a half days
    after the first; customer C2 pays once. *)
Definition velocity_table : DataFrame :=
  mkDataFrame all_columns
    [transaction_row "T1" "C1" "M1" "Retail" "UPI" 100 "Mumbai" 0;
     transaction_row "T2" "C2" "M1" "Food" "Card" 250 "Delhi" (6 * ns_per_hour);
     transaction_row "T3" "C1" "M2" "Retail" "UPI" 50 "Mumbai" ns_per_day;
     transaction_row "T4" "C1" "M1" "Retail" "Card" 75 "Pune"
                     (2 * ns_per_day + 12 * ns_per_hour)].

(** One payment at noon on Saturday 1970-01-03, in a table without a
    [location] column. *)
Definition weekend_no_location_table : DataFrame :=
  mkDataFrame ["transaction_id"; "customer_id"; "merchant_name";
               "merchant_category"; "payment_method"; "amount"; "timestamp"]
    [transaction_row "T1" "C1" "M1" "Retail" "UPI" 100 ""
                     (2 * ns_per_day + 12 * ns_per_hour)].


(** ** Vocabulary of the further properties *)

(** Both node keys of transaction [r] are there: neither is Python's
    [None], the one value [G.add_edge] refuses as a node. *)
Definition keys_present {L : Libs} (df : DataFrame) (r : Row) : bool :=
  match source_key df r, target_key df r with
  | Some _, Some _ => true
  | _, _ => false
  end.

(** Totals over the edges of a graph. *)
Definition total_weight (G : DiGraph) : Q :=
  Qsum (map (fun e => weight (edge_data e)) (edges G)).

Definition total_transaction_count (G : DiGraph) : nat :=
  list_sum (map (fun e => transaction_count (edge_data e)) (edges G)).

Definition total_degree (G : DiGraph) : nat :=
  list_sum (map (degree G) (nodes G)).

(** The call raised [KeyError] for a column, among [cols], that the table
    does not have. *)
Definition missing_column {A} (df : DataFrame) (cols : list string)
  (r : result A) : Prop :=
  exists c, In c cols /\ has_column df c = false /\ r = Raise (KeyError c).

(** All of [cols] are columns of the table. *)
Definition has_columns (df : DataFrame) (cols : list string) : bool :=
  forallb (has_column df) cols.

(** What every graph built by the loop satisfies. *)
Record shape (G : DiGraph) : Prop := mkShape {
  shape_nodes : NoDup (nodes G);
  shape_keys : NoDup (map edge_key (edges G));
  shape_edges : well_formed G;
  shape_joined :
    forall x, In x (nodes G) ->
              exists e, In e (edges G) /\ (x = edge_source e \/ x = edge_target e);
  shape_counted :
    forall e, In e (edges G) ->
              (1 <= transaction_count (edge_data e))%nat /\
              length (timestamps (edge_data e)) = transaction_count (edge_data e)
}.

(** ** The endpoint [/analytics/comprehensive] ([main.py])

    The handler from the parsed table on.  [read_csv] (line 187) does not
    parse dates: a [timestamp] column of the upload holds date strings, and
    only the column that line 190 adds to an upload without one holds
    datetimes.  The cells of the upload are taken to be filled (a missing
    cell is read as NaN, which is not a value of the table's cells) and the
    date strings to be readable by [pd.to_datetime]; the rows carry the
    instants they denote.  [analysis_id] and the response's own [timestamp]
    are renderings of the clock and are not carried. *)

Record FormattedResult : Type := mkFormattedResult {
  formatted_summary : Summary;
  formatted_risk_level : string;
  formatted_recommendations : list string;
  key_findings : Details
}.

Record ComprehensiveResponse : Type := mkComprehensiveResponse {
  response_executive_summary : ExecutiveSummary;
  analysis_results : list (string * FormattedResult);
  response_total_transactions : nat
}.

(** One pass of the loop over [results.items()]. *)
Definition format_result (result : AnalyticsResult) : FormattedResult :=
  mkFormattedResult (summary result)
    (match summary_risk_level (summary result) with
     | Some level => level
     | None => "UNKNOWN"
     end)
    (firstn 3 (recommendations result))
    (detailed_results result).

(** [comprehensive_analysis_report] on a table whose [timestamp] column
    holds date strings.  Wherever the code reads the column through
    [pd.to_datetime] (lines 171-174, 578-579, 637) the strings are parsed,
    and [network_analysis] only stores them; but two analyses subtract
    them: [temporal_pattern_analysis] raises at line 194 ([.diff()] on
    strings) whenever it gets there, after the time columns have been
    written, and [behavioral_profiling] raises at line 425
    ([max() - min()]) for the first customer of the index, before the
    engine is touched.  Neither enters the report. *)
Definition comprehensive_analysis_report_on_strings {L : Libs} (now : Z)
  : M Report :=
  rs <- run_module "network" (network_analysis now) [] ;;
  try_ (temporal_pattern_analysis now) ;;
  rs <- run_module "geographic" (geographic_clustering_analysis now) rs ;;
  df <- get_table ;;
  rs <- (if andb (has_column df "customer_id")
                 (negb (Nat.eqb (length (customer_index df)) 0))
         then ret rs
         else run_module "behavioral" (behavioral_profiling now) rs) ;;
  rs <- run_module "predictive" (predictive_risk_modeling now) rs ;;
  df <- get_table ;;
  ret (mkReport rs (make_executive_summary df rs)).

Definition comprehensive_analytics {L : Libs} (now : Z)
  : M ComprehensiveResponse :=
  df <- get_table ;;
  report <-
    (if has_column df "timestamp"
     then comprehensive_analysis_report_on_strings now
     else put_table (assign df ["timestamp"] (set_timestamp now)) ;;
          comprehensive_analysis_report now) ;;
  df <- get_table ;;
  ret (mkComprehensiveResponse (executive_summary report)
         (map (fun kr => (fst kr, format_result (snd kr))) (results report))
         (len df)).

(** How many distinct instants of [ts] come after another instant of [ts]
    by at most [within] nanoseconds. *)
Definition close_successors (within : Z) (ts : list Z) : nat :=
  length (filter (fun v => existsb (fun u => andb (u <? v) (v - u <=? within)) ts)
                 (nodup Z.eq_dec ts)).

(** Three payments within two minutes after midnight of Saturday
    1970-01-03, two of them at the same instant, and one at noon. *)
Definition burst_table : DataFrame :=
  mkDataFrame all_columns
    [transaction_row "T1" "C1" "M1" "Retail" "UPI" 100 "Mumbai"
                     (2 * ns_per_day + 120 * ns_per_second);
     transaction_row "T2" "C2" "M1" "Food" "Card" 250 "Delhi" (2 * ns_per_day);
     transaction_row "T3" "C1" "M2" "Retail" "UPI" 50 "Mumbai"
                     (2 * ns_per_day + 120 * ns_per_second);
     transaction_row "T4" "C3" "M1" "Retail" "Card" 75 "Pune"
                     (5 * ns_per_day + 12 * ns_per_hour)].

(** * Properties *)

(** ** Auxiliary facts *)

Lemma Qsum_app (l1 l2 : list Q) : (Qsum (l1 ++ l2) == Qsum l1 + Qsum l2)%Q.
Proof.
  unfold Qsum. induction l1 as [|x l1 IH]; cbn [app fold_right].
  - ring.
  - rewrite IH. ring.
Qed.

Lemma Qle_bool_false (x y : Q) : Qle_bool x y = false <-> (y < x)%Q.
Proof.
  rewrite <- not_true_iff_false, Qle_bool_iff. split.
  - apply Qnot_le_lt.
  - apply Qlt_not_le.
Qed.

Lemma is_edge_true (u v : string) (e : Edge) :
  is_edge u v e = true <-> edge_key e = (u, v).
Proof.
  destruct e as [[a b] d]. unfold is_edge, edge_key; cbn.
  rewrite andb_true_iff, !String.eqb_eq. split.
  - intros [-> ->]. reflexivity.
  - intros [= -> ->]. split; reflexivity.
Qed.

Lemma existsb_is_edge (u v : string) (es : list Edge) :
  existsb (is_edge u v) es = true <-> In (u, v) (map edge_key es).
Proof.
  rewrite existsb_exists, in_map_iff. split.
  - intros [e [He Hk]]. exists e. rewrite is_edge_true in Hk. auto.
  - intros [e [Hk He]]. exists e. rewrite is_edge_true. auto.
Qed.

Lemma map_edge_key_update (u v : string) (f : EdgeData -> EdgeData)
  (es : list Edge) :
  map edge_key (map (update_edge u v f) es) = map edge_key es.
Proof.
  rewrite map_map. apply map_ext. intros e. unfold update_edge.
  destruct (is_edge u v e); reflexivity.
Qed.

Lemma in_update_edge (u v : string) (f : EdgeData -> EdgeData) (es : list Edge)
  (a b : string) (d' : EdgeData) :
  In (a, b, d') (map (update_edge u v f) es) ->
  exists d, In (a, b, d) es /\
            d' = if andb (String.eqb u a) (String.eqb v b) then f d else d.
Proof.
  rewrite in_map_iff. intros [[[a0 b0] d0] [Hu Hin]].
  unfold update_edge, is_edge, edge_key, edge_source, edge_target, edge_data in Hu.
  cbn in Hu.
  destruct (andb (String.eqb u a0) (String.eqb v b0)) eqn:E;
    inversion Hu; subst; eexists; (split; [eassumption|]); rewrite E; reflexivity.
Qed.

(** ** The transaction graph *)

Section GraphInvariant.
Context {L : Libs}.
Variable now : Z.
Variable df : DataFrame.

Lemma connects_true u v r :
  connects df u v r = true <->
  source_key df r = Some u /\ target_key df r = Some v.
Proof.
  unfold connects.
  destruct (source_key df r) as [a|], (target_key df r) as [b|];
    try (split; [discriminate | intros [? ?]; discriminate]).
  rewrite andb_true_iff, !String.eqb_eq. split.
  - intros [-> ->]. auto.
  - intros [[= ->] [= ->]]. auto.
Qed.

Lemma transactions_between_snoc u v rs r :
  transactions_between df u v (rs ++ [r]) =
  transactions_between df u v rs ++ (if connects df u v r then [r] else []).
Proof. unfold transactions_between. rewrite filter_app. reflexivity. Qed.

Lemma graph_of_empty : graph_of now df [] empty_graph.
Proof.
  split; [constructor|split].
  - intros u v. cbn. split; [tauto|]. intros [r [[] _]].
  - intros u v d [].
Qed.

Lemma add_transaction_graph_of rs G r u v :
  source_key df r = Some u -> target_key df r = Some v ->
  graph_of now df rs G ->
  exists G', add_transaction now df G r = Ok G' /\ graph_of now df (rs ++ [r]) G'.
Proof.
  intros Hs Ht (Hnd & Hkeys & Hattr).
  assert (Hc : connects df u v r = true) by (apply connects_true; auto).
  assert (Hother : forall a b, (a, b) <> (u, v) -> connects df a b r = false).
  { intros a b Hab. destruct (connects df a b r) eqn:E; auto.
    apply connects_true in E. destruct E as [E1 E2].
    rewrite Hs in E1. rewrite Ht in E2. congruence. }
  unfold add_transaction. rewrite Hs, Ht. cbn [has_edge].
  destruct (existsb (is_edge u v) (edges G)) eqn:E.
  - (* the pair already has its edge *)
    eexists. split; [reflexivity|].
    unfold graph_of, accumulate_edge; simpl edges.
    apply existsb_is_edge in E.
    split; [|split].
    + rewrite map_edge_key_update. exact Hnd.
    + intros a b. rewrite map_edge_key_update, Hkeys. split.
      * intros [r' [Hin Hr']]. exists r'. split; auto. apply in_or_app; auto.
      * intros [r' [Hin Hr']]. apply in_app_or in Hin.
        destruct Hin as [Hin|[<-|[]]].
        -- exists r'; auto.
        -- apply Hkeys. apply connects_true in Hr'. destruct Hr' as [E1 E2].
           rewrite Hs in E1. rewrite Ht in E2. inversion E1; inversion E2; subst.
           exact E.
    + intros a b d' Hin. apply in_update_edge in Hin.
      destruct Hin as [d [Hin ->]]. destruct (Hattr _ _ _ Hin) as (Hw & Hn & Hts).
      rewrite transactions_between_snoc.
      destruct (andb (String.eqb u a) (String.eqb v b)) eqn:Eab.
      * apply andb_true_iff in Eab. rewrite !String.eqb_eq in Eab.
        destruct Eab as [<- <-]. rewrite Hc.
        cbn [accumulate weight transaction_count timestamps].
        rewrite !map_app, Qsum_app, length_app, Hw, Hn, Hts. cbn.
        repeat split; try ring.
      * rewrite Hother; [rewrite app_nil_r; auto|].
        intros [= -> ->]. rewrite !String.eqb_refl in Eab. discriminate.
  - (* first transaction of the pair *)
    eexists. split; [unfold add_edge; rewrite E; reflexivity|].
    unfold graph_of; simpl edges.
    assert (Hnew : ~ In (u, v) (map edge_key (edges G))).
    { intros Hin. apply existsb_is_edge in Hin. congruence. }
    assert (Hnone : transactions_between df u v rs = []).
    { unfold transactions_between.
      destruct (filter (connects df u v) rs) as [|r' l] eqn:Ef; auto.
      exfalso. apply Hnew. apply Hkeys. exists r'.
      assert (Hin : In r' (filter (connects df u v) rs)) by (rewrite Ef; left; auto).
      apply filter_In in Hin. auto. }
    split; [|split].
    + rewrite map_app. cbn.
      rewrite <- (rev_involutive (map edge_key (edges G) ++ [(u, v)])).
      apply NoDup_rev. rewrite rev_app_distr. cbn. constructor.
      * rewrite <- in_rev. exact Hnew.
      * apply NoDup_rev. exact Hnd.
    + intros a b. rewrite map_app, in_app_iff, Hkeys. cbn. split.
      * intros [[r' [Hin Hr']]|[[= <- <-]|[]]].
        -- exists r'. split; auto. apply in_or_app; auto.
        -- exists r. split; auto. apply in_or_app; right; left; auto.
      * intros [r' [Hin Hr']]. apply in_app_or in Hin.
        destruct Hin as [Hin|[<-|[]]].
        -- left. exists r'; auto.
        -- right. left. apply connects_true in Hr'. destruct Hr' as [E1 E2].
           rewrite Hs in E1. rewrite Ht in E2. congruence.
    + intros a b d Hin. apply in_app_or in Hin.
      rewrite transactions_between_snoc. destruct Hin as [Hin|[[= <- <- <-]|[]]].
      * rewrite Hother; [rewrite app_nil_r; eapply Hattr; eauto|].
        intros [= -> ->]. apply Hnew. apply in_map_iff.
        exists (u, v, d). auto.
      * rewrite Hnone, Hc. cbn. repeat split. ring.
Qed.

Lemma add_transactions_graph_of rs2 :
  forall rs1 G,
    (forall r, In r rs2 -> source_key df r <> None /\ target_key df r <> None) ->
    graph_of now df rs1 G ->
    exists G', add_transactions now df G rs2 = Ok G' /\ graph_of now df (rs1 ++ rs2) G'.
Proof.
  induction rs2 as [|r rs2 IH]; intros rs1 G Hkeys HG.
  - exists G. rewrite app_nil_r. auto.
  - destruct (Hkeys r (or_introl eq_refl)) as [Hs Ht].
    destruct (source_key df r) as [u|] eqn:Es; [|congruence].
    destruct (target_key df r) as [v|] eqn:Et; [|congruence].
    destruct (@add_transaction_graph_of rs1 G r u v Es Et HG) as [G1 [HG1 Hinv]].
    destruct (IH (rs1 ++ [r]) G1) as [G' [HG' Hinv']]; auto.
    { intros r' Hin. apply Hkeys. right. auto. }
    exists G'. cbn [add_transactions]. rewrite HG1. cbn.
    rewrite <- app_assoc in Hinv'. auto.
Qed.
End GraphInvariant.

(** C7: in the graph built by [network_analysis] from a table whose
    customer and merchant keys are all strings, every (source, target) pair
    has exactly one edge, however many transactions connect the pair: the
    edge keys are duplicate-free and a pair has an edge exactly when some
    transaction connects it.  On a table with the columns [customer_id] and
    [merchant_name] the pair of a transaction is its two cells, and the edge
    of a pair counts the transactions with these two cells, at least one;
    its weight is the sum of their [amount] cells (0 without that column)
    and its timestamps are their [timestamp] cells in table order (the
    clock without that column): each repeated transaction has added its
    amount, one to the count and its timestamp. *)
Theorem network_graph_one_edge_per_pair {L : Libs} (now : Z) (df : DataFrame) :
  (forall r, In r (rows df) ->
             source_key df r <> None /\ target_key df r <> None) ->
  exists G,
    build_graph now df = Ok G /\
    NoDup (map edge_key (edges G)) /\
    (forall u v, In (u, v) (map edge_key (edges G)) <->
                 exists r, In r (rows df) /\ connects df u v r = true) /\
    (forall u v d, In (u, v, d) (edges G) ->
       let txs := transactions_between df u v (rows df) in
       (weight d == Qsum (map (edge_amount df) txs))%Q /\
       transaction_count d = length txs /\
       timestamps d = map (edge_timestamp now df) txs) /\
    (has_column df "customer_id" = true ->
     has_column df "merchant_name" = true ->
     (forall u v, In (u, v) (map edge_key (edges G)) <->
                  exists r, In r (rows df) /\
                            customer_id r = Some u /\ merchant_name r = Some v) /\
     (forall u v d, In (u, v, d) (edges G) ->
        let txs :=
          filter (fun r => match customer_id r, merchant_name r with
                           | Some a, Some b =>
                               andb (String.eqb u a) (String.eqb v b)
                           | _, _ => false
                           end) (rows df) in
        (1 <= length txs)%nat /\
        transaction_count d = length txs /\
        (has_column df "amount" = true ->
         (weight d == Qsum (map amount txs))%Q) /\
        (has_column df "amount" = false -> (weight d == 0)%Q) /\
        (has_column df "timestamp" = true ->
         timestamps d = map timestamp txs) /\
        (has_column df "timestamp" = false ->
         timestamps d = map (fun _ => now) txs))).
Proof.
  intros Hkeys.
  destruct (@add_transactions_graph_of L now df (rows df) [] empty_graph Hkeys
              (graph_of_empty now df)) as [G [HG Hinv]].
  exists G. split; [exact HG|]. cbn [app] in Hinv.
  destruct Hinv as (Hnd & Hpairs & Hattr).
  split; [exact Hnd|]. split; [exact Hpairs|]. split; [exact Hattr|].
  intros Hc Hm.
  assert (Hsrc : forall r, source_key df r = customer_id r).
  { intros r. unfold source_key, row_get. rewrite Hc. reflexivity. }
  assert (Htgt : forall r, target_key df r = merchant_name r).
  { intros r. unfold target_key, row_get. rewrite Hm. reflexivity. }
  split.
  - intros u v. rewrite Hpairs. split; intros [r [Hin Hr]]; exists r;
      (split; [exact Hin|]).
    + apply connects_true in Hr. rewrite Hsrc, Htgt in Hr. exact Hr.
    + apply connects_true. rewrite Hsrc, Htgt. exact Hr.
  - intros u v d Hin. cbv zeta.
    destruct (Hattr u v d Hin) as (Hw & Hn & Hts). cbv zeta in Hw, Hn, Hts.
    assert (Htxs : transactions_between df u v (rows df) =
                   filter (fun r => match customer_id r, merchant_name r with
                                    | Some a, Some b =>
                                        andb (String.eqb u a) (String.eqb v b)
                                    | _, _ => false
                                    end) (rows df)).
    { unfold transactions_between. apply filter_ext. intros r.
      unfold connects. rewrite Hsrc, Htgt. reflexivity. }
    rewrite Htxs in Hw, Hn, Hts.
    set (txs := filter _ (rows df)) in *.
    assert (Hone : (1 <= length txs)%nat).
    { assert (Hk : In (u, v) (map edge_key (edges G))).
      { apply in_map_iff. exists (u, v, d). auto. }
      apply Hpairs in Hk. destruct Hk as [r [Hr Hcon]].
      assert (Hrt : In r txs).
      { unfold txs. apply filter_In. split; [exact Hr|].
        unfold connects in Hcon. rewrite Hsrc, Htgt in Hcon. exact Hcon. }
      destruct txs; [destruct Hrt | cbn; lia]. }
    split; [exact Hone|]. split; [exact Hn|].
    split; [|split; [|split]].
    + intros Ha. rewrite Hw. unfold edge_amount, row_get. rewrite Ha.
      reflexivity.
    + intros Ha. rewrite Hw. unfold edge_amount, row_get. rewrite Ha.
      clear. induction txs as [|r txs IH]; [reflexivity|].
      unfold Qsum in *. cbn [map fold_right]. rewrite IH. reflexivity.
    + intros Ht. rewrite Hts. unfold edge_timestamp, row_get. rewrite Ht.
      reflexivity.
    + intros Ht. rewrite Hts. unfold edge_timestamp, row_get. rewrite Ht.
      reflexivity.
Qed.

Lemma network_graph_one_edge_per_pair_witness :
  exists G,
    @build_graph sample_libs 0 repeated_table = Ok G /\
    map edge_key (edges G) = [("C1", "M1"); ("C2", "M1")] /\
    NoDup (map edge_key (edges G)) /\
    (forall d, In ("C1", "M1", d) (edges G) ->
       transaction_count d = 2%nat /\ (weight d == 150)%Q /\
       timestamps d = [10; 30]) /\
    (forall d, In ("C2", "M1", d) (edges G) ->
       transaction_count d = 1%nat /\ (weight d == 250)%Q /\
       timestamps d = [20]).
Proof.
  destruct (@network_graph_one_edge_per_pair sample_libs 0 repeated_table)
    as [G (HG & Hnd & _ & _ & Hcells)].
  - intros r Hin. cbn in Hin.
    destruct Hin as [<-|[<-|[<-|[]]]]; split; discriminate.
  - destruct (Hcells eq_refl eq_refl) as [_ Hedge].
    exists G. split; [exact HG|]. split; [|split; [exact Hnd|]].
    + vm_compute in HG. inversion HG. reflexivity.
    + split; intros d Hd;
        destruct (Hedge _ _ d Hd) as (_ & Hn & Hw & _ & Ht & _);
        (split; [exact Hn|]);
        (split; [rewrite (Hw eq_refl); reflexivity | exact (Ht eq_refl)]).
Defined.

(** ** Running the analyzers *)

Lemma bind_ok {A B} (c : result A) (f : A -> result B) (b : B) :
  bind c f = Ok b -> exists a, c = Ok a /\ f a = Ok b.
Proof. destruct c as [a|e]; cbn; [eauto | discriminate]. Qed.

Lemma require_ok (df : DataFrame) (c : string) (u : unit) :
  require df c = Ok u -> has_column df c = true.
Proof. unfold require. destruct (has_column df c); [auto | discriminate]. Qed.

Lemma require_has (df : DataFrame) (c : string) :
  has_column df c = true -> require df c = Ok tt.
Proof. unfold require. intros ->. reflexivity. Qed.

(** Peel one [x <- c ;; ..] off a hypothesis [H : .. = Ok _]. *)
Ltac bind_inv H :=
  let a := fresh "a" in
  let Ha := fresh "Ha" in
  apply bind_ok in H; destruct H as [a [Ha H]]; cbv zeta in H.

Section Runs.
Context {L : Libs}.
Variable now : Z.

Lemma network_analysis_run (w : World) :
  network_analysis now w = (network_analysis_on now (table w), w).
Proof. reflexivity. Qed.

Lemma temporal_pattern_analysis_run (w : World) :
  temporal_pattern_analysis now w =
  (temporal_pattern_analysis_on now (add_time_features now (table w)),
   mkWorld (engine w) (add_time_features now (table w))).
Proof. reflexivity. Qed.

Lemma geographic_clustering_analysis_run (w : World) :
  geographic_clustering_analysis now w =
  (geographic_clustering_analysis_on now (table w), w).
Proof. reflexivity. Qed.

Lemma predictive_risk_modeling_run (w : World) :
  predictive_risk_modeling now w =
  (predictive_risk_modeling_on now (table w), w).
Proof. reflexivity. Qed.
End Runs.

(** ** Risk levels of the modules *)

Lemma anomaly_risk_level_cases (anomalies : list Anomaly) :
  In (anomaly_risk_level anomalies) ["LOW"; "MEDIUM"; "HIGH"].
Proof.
  unfold anomaly_risk_level.
  destruct (existsb _ anomalies); [cbn; auto|].
  destruct (Nat.ltb 0 (length anomalies)); cbn; auto.
Qed.

Lemma network_risk_level_cases (n : nat) :
  In (network_risk_level n) ["LOW"; "MEDIUM"; "HIGH"].
Proof.
  unfold network_risk_level.
  destruct (Nat.ltb 10 n); [cbn; auto|].
  destruct (Nat.ltb 5 n); cbn; auto.
Qed.

Section ModuleRiskLevels.
Context {L : Libs}.
Variable now : Z.

Lemma network_risk_level_of df r :
  network_analysis_on now df = Ok r ->
  is_one_of ["LOW"; "MEDIUM"; "HIGH"] (summary_risk_level (summary r)).
Proof.
  unfold network_analysis_on. intros H.
  bind_inv H. bind_inv H. inversion H; subst; clear H.
  eexists. split; [reflexivity|]. apply network_risk_level_cases.
Qed.

Lemma temporal_risk_level_of df r :
  temporal_pattern_analysis_on now df = Ok r ->
  is_one_of ["LOW"; "MEDIUM"; "HIGH"] (summary_risk_level (summary r)).
Proof.
  unfold temporal_pattern_analysis_on. intros H.
  do 9 bind_inv H. inversion H; subst; clear H.
  eexists. split; [reflexivity|]. apply anomaly_risk_level_cases.
Qed.

Lemma geographic_risk_level_of df r :
  geographic_clustering_analysis_on now df = Ok r ->
  if has_column df "location"
  then is_one_of ["LOW"; "MEDIUM"; "HIGH"] (summary_risk_level (summary r))
  else summary r = ErrorSummary "No location data available".
Proof.
  unfold geographic_clustering_analysis_on. intros H.
  destruct (has_column df "location"); cbn [negb] in H.
  - do 4 bind_inv H. inversion H; subst; clear H.
    eexists. split; [reflexivity|]. apply anomaly_risk_level_cases.
  - inversion H; subst. reflexivity.
Qed.

Lemma predictive_risk_level_of df r :
  predictive_risk_modeling_on now df = Ok r ->
  is_one_of ["LOW"; "MEDIUM"; "HIGH"] (summary_risk_level (summary r)).
Proof.
  unfold predictive_risk_modeling_on. intros H.
  do 6 bind_inv H. inversion H; subst; clear H.
  eexists. split; [reflexivity|].
  destruct (Qlt_bool _ _); [cbn; auto|].
  destruct (Nat.ltb _ _); cbn; auto.
Qed.
End ModuleRiskLevels.

Section BehavioralRun.
Context {L : Libs}.
Variable now : Z.

Lemma customer_behavior_run (df : DataFrame) (w : World) :
  customer_behavior df w =
  if has_column df "customer_id" then
    match profile_columns df with
    | Raise e => (Raise e, w)
    | Ok _ =>
        let behavioral_df := map (profile_of df) (customer_index df) in
        if Nat.ltb 5 (length behavioral_df) then
          (Ok (length (customer_index df), behavioral_df,
               outliers (isolation_forest (engine w)) behavioral_df),
           mkWorld (fitted (engine w) (map features_for_analysis behavioral_df))
                   (table w))
        else (Ok (length (customer_index df), behavioral_df, []), w)
    end
  else (Ok (O, [], []), w).
Proof.
  unfold customer_behavior, profile_columns.
  destruct (has_column df "customer_id"); [|reflexivity].
  cbv [bind ret M_monad lift]. cbv beta.
  destruct (require df "amount"); [|reflexivity].
  destruct (require df "payment_method"); [|reflexivity].
  destruct (require df "merchant_category"); [|reflexivity].
  destruct (require df "location"); [|reflexivity].
  destruct (require df "timestamp"); [|reflexivity].
  cbv beta iota zeta. 
  destruct (Nat.ltb 5 _); reflexivity.
Qed.
End BehavioralRun.

Section BehavioralOutcome.
Context {L : Libs}.
Variable now : Z.

Lemma behavioral_profiling_run (w : World) :
  behavioral_profiling now w =
  match customer_behavior (table w) w with
  | (Ok found, w') => (behavioral_report now (table w) found, w')
  | (Raise e, w') => (Raise e, w')
  end.
Proof. reflexivity. Qed.

Lemma behavioral_report_risk_level df found r :
  behavioral_report now df found = Ok r ->
  is_one_of ["LOW"; "MEDIUM"; "HIGH"] (summary_risk_level (summary r)).
Proof.
  unfold behavioral_report. intros H. cbv zeta in H.
  do 4 bind_inv H. inversion H; subst; clear H.
  eexists. split; [reflexivity|]. apply anomaly_risk_level_cases.
Qed.

Lemma behavioral_risk_level_of w r :
  fst (behavioral_profiling now w) = Ok r ->
  is_one_of ["LOW"; "MEDIUM"; "HIGH"] (summary_risk_level (summary r)).
Proof.
  rewrite behavioral_profiling_run.
  destruct (customer_behavior (table w) w) as [[found|e] w']; cbn [fst].
  - apply behavioral_report_risk_level.
  - discriminate.
Qed.

(** [behavioral_profiling] leaves the caller's table alone. *)
Lemma behavioral_profiling_table w :
  table (snd (behavioral_profiling now w)) = table w.
Proof.
  rewrite behavioral_profiling_run, customer_behavior_run.
  destruct (has_column (table w) "customer_id"); [|reflexivity].
  destruct (profile_columns (table w)); [|reflexivity].
  cbv zeta. destruct (Nat.ltb 5 _); reflexivity.
Qed.
End BehavioralOutcome.


Section AnalyzerRiskLevels.
Context {L : Libs}.
Variables (now : Z) (w : World).

Lemma network_analysis_level r :
  fst (network_analysis now w) = Ok r ->
  is_one_of ["LOW"; "MEDIUM"; "HIGH"] (summary_risk_level (summary r)).
Proof. rewrite network_analysis_run. apply network_risk_level_of. Qed.

Lemma temporal_pattern_analysis_level r :
  fst (temporal_pattern_analysis now w) = Ok r ->
  is_one_of ["LOW"; "MEDIUM"; "HIGH"] (summary_risk_level (summary r)).
Proof. rewrite temporal_pattern_analysis_run. apply temporal_risk_level_of. Qed.

Lemma geographic_clustering_analysis_level r :
  fst (geographic_clustering_analysis now w) = Ok r ->
  if has_column (table w) "location"
  then is_one_of ["LOW"; "MEDIUM"; "HIGH"] (summary_risk_level (summary r))
  else summary r = ErrorSummary "No location data available".
Proof.
  rewrite geographic_clustering_analysis_run. apply geographic_risk_level_of.
Qed.

Lemma predictive_risk_modeling_level r :
  fst (predictive_risk_modeling now w) = Ok r ->
  is_one_of ["LOW"; "MEDIUM"; "HIGH"] (summary_risk_level (summary r)).
Proof. rewrite predictive_risk_modeling_run. apply predictive_risk_level_of. Qed.
End AnalyzerRiskLevels.


(** ** The report aggregator *)

Lemma overall_risk_unknown (scores : list Z) :
  snd (overall_risk scores) = "UNKNOWN" <-> scores = [].
Proof.
  destruct scores as [|s scores]; cbn [overall_risk snd].
  - tauto.
  - split; [|discriminate].
    destruct (Qle_bool 75 _); [discriminate|].
    destruct (Qle_bool 50 _); [discriminate|].
    destruct (Qle_bool 25 _); discriminate.
Qed.

Lemma overall_risk_scores_app (rs1 rs2 : list (string * AnalyticsResult)) :
  overall_risk_scores_of (rs1 ++ rs2) =
  overall_risk_scores_of rs1 ++ overall_risk_scores_of rs2.
Proof.
  induction rs1 as [|[k r] rs1 IH]; cbn; [reflexivity|].
  destruct (summary_risk_level (summary r)); cbn; rewrite IH; reflexivity.
Qed.

Lemma overall_risk_scores_nil (rs : list (string * AnalyticsResult)) :
  overall_risk_scores_of rs = [] <->
  forall k r, In (k, r) rs -> summary_risk_level (summary r) = None.
Proof.
  induction rs as [|[k r] rs IH]; cbn.
  - split; [intros _ k r []|reflexivity].
  - destruct (summary_risk_level (summary r)) eqn:E; split.
    + discriminate.
    + intros H. specialize (H k r (or_introl eq_refl)). congruence.
    + intros H k' r' [[= <- <-]|Hin]; [exact E|]. exact (proj1 IH H k' r' Hin).
    + intros H. apply (proj2 IH). intros k' r' Hin. apply (H k' r'). auto.
Qed.

Lemma overall_risk_scores_completed (key : string) (o : result AnalyticsResult) :
  overall_risk_scores_of (completed key o) = [] <->
  forall r, o = Ok r -> summary_risk_level (summary r) = None.
Proof.
  destruct o as [r|e]; cbn.
  - destruct (summary_risk_level (summary r)) eqn:E; split.
    + discriminate.
    + intros H. specialize (H r eq_refl). congruence.
    + intros _ r' [= <-]. exact E.
    + reflexivity.
  - split; [discriminate|reflexivity].
Qed.

Section Comprehensive.
Context {L : Libs}.
Variable now : Z.

(** The report, module by module: each analyzer runs in the world its
    predecessor left, whether or not that one raised. *)
Lemma comprehensive_analysis_report_run (w : World) :
  let o1 := network_analysis now w in
  let o2 := temporal_pattern_analysis now (snd o1) in
  let o3 := geographic_clustering_analysis now (snd o2) in
  let o4 := behavioral_profiling now (snd o3) in
  let o5 := predictive_risk_modeling now (snd o4) in
  let rs := completed "network" (fst o1) ++ completed "temporal" (fst o2) ++
            completed "geographic" (fst o3) ++ completed "behavioral" (fst o4) ++
            completed "predictive" (fst o5) in
  comprehensive_analysis_report now w =
  (Ok (mkReport rs (make_executive_summary (table (snd o5)) rs)), snd o5).
Proof.
  cbv zeta.
  cbv [comprehensive_analysis_report run_module try_ bind ret M_monad get_table].
  destruct (network_analysis now w) as [[r1|e1] w1]; cbn [fst snd completed app];
  destruct (temporal_pattern_analysis now w1) as [[r2|e2] w2];
    cbn [fst snd completed app];
  destruct (geographic_clustering_analysis now w2) as [[r3|e3] w3];
    cbn [fst snd completed app];
  destruct (behavioral_profiling now w3) as [[r4|e4] w4];
    cbn [fst snd completed app];
  destruct (predictive_risk_modeling now w4) as [[r5|e5] w5];
    cbn [fst snd completed app]; reflexivity.
Qed.
End Comprehensive.

Lemma overall_risk_scores_reported (rs : list (string * AnalyticsResult)) :
  overall_risk_scores_of rs = map risk_score_of_level (reported_risk_levels rs).
Proof.
  induction rs as [|[k r] rs IH]; cbn; [reflexivity|].
  destruct (summary_risk_level (summary r)); cbn; rewrite IH; reflexivity.
Qed.


(** C1 (as the code has it): [comprehensive_analysis_report] always returns
    a report.  Each analyzer runs in the world its predecessor left, whether
    or not that one raised; the report holds exactly the analyses that
    returned, a module that raised leaves no key; and the overall level is
    UNKNOWN exactly when no completed analysis reports a risk level, that is
    when network, temporal, behavioral and predictive analysis all raised and
    the geographic one raised or returned its error summary. *)
Theorem comprehensive_report_partial_failure {L : Libs} (now : Z) (w : World) :
  let o1 := network_analysis now w in
  let o2 := temporal_pattern_analysis now (snd o1) in
  let o3 := geographic_clustering_analysis now (snd o2) in
  let o4 := behavioral_profiling now (snd o3) in
  let o5 := predictive_risk_modeling now (snd o4) in
  exists rep,
    comprehensive_analysis_report now w = (Ok rep, snd o5) /\
    results rep =
      completed "network" (fst o1) ++ completed "temporal" (fst o2) ++
      completed "geographic" (fst o3) ++ completed "behavioral" (fst o4) ++
      completed "predictive" (fst o5) /\
    analyses_completed (executive_summary rep) = length (results rep) /\
    (overall_risk_level (executive_summary rep) = "UNKNOWN" <->
     is_ok (fst o1) = false /\ is_ok (fst o2) = false /\
     (forall r, fst o3 = Ok r ->
                summary r = ErrorSummary "No location data available") /\
     is_ok (fst o4) = false /\ is_ok (fst o5) = false).
Proof.
  intros o1 o2 o3 o4 o5.
  pose proof (comprehensive_analysis_report_run now w) as Hrun. cbv zeta in Hrun.
  fold o1 o2 o3 o4 o5 in Hrun.
  eexists. split; [exact Hrun|]. cbn [results executive_summary].
  split; [reflexivity|]. split; [reflexivity|].
  unfold make_executive_summary. cbn [overall_risk_level].
  rewrite overall_risk_unknown, !overall_risk_scores_app.
  assert (Hsome : forall (o : result AnalyticsResult) key,
            (forall r, o = Ok r ->
               is_one_of ["LOW"; "MEDIUM"; "HIGH"] (summary_risk_level (summary r))) ->
            (overall_risk_scores_of (completed key o) = [] <-> is_ok o = false)).
  { intros o key Ho. rewrite overall_risk_scores_completed.
    destruct o as [r|e]; cbn [is_ok]; split; auto; try discriminate.
    intros H. destruct (Ho r eq_refl) as [l [Hl _]].
    rewrite (H r eq_refl) in Hl. discriminate. }
  pose proof (@network_analysis_level L now w) as H1.
  pose proof (@temporal_pattern_analysis_level L now (snd o1)) as H2.
  pose proof (@behavioral_risk_level_of L now (snd o3)) as H4.
  pose proof (@predictive_risk_modeling_level L now (snd o4)) as H5.
  fold o1 in H1. fold o2 in H2. fold o4 in H4. fold o5 in H5.
  assert (Hgeo : overall_risk_scores_of (completed "geographic" (fst o3)) = [] <->
                 (forall r, fst o3 = Ok r ->
                    summary r = ErrorSummary "No location data available")).
  { rewrite overall_risk_scores_completed. split; intros H r Hr.
    - specialize (H r Hr). unfold o3 in Hr.
      apply geographic_clustering_analysis_level in Hr.
      destruct (has_column (table (snd o2)) "location"); [|exact Hr].
      destruct Hr as [l [Hl _]]. congruence.
    - rewrite (H r Hr). reflexivity. }
  rewrite <- (Hsome (fst o1) "network" H1), <- (Hsome (fst o2) "temporal" H2),
    <- (Hsome (fst o4) "behavioral" H4), <- (Hsome (fst o5) "predictive" H5),
    <- Hgeo.
  split.
  - intros H. repeat (apply app_eq_nil in H; destruct H as [? H]). auto.
  - intros (E1 & E2 & E3 & E4 & E5). rewrite E1, E2, E3, E4, E5. reflexivity.
Qed.

(** C1 (as the claim has it) fails: for the table built from the single
    record [{'customer_id': None}] the geographic analysis completes (with
    its error summary) and the overall level is UNKNOWN all the same. *)
Lemma unknown_although_geographic_completed :
  exists rep w',
    @comprehensive_analysis_report sample_libs 0
      (mkWorld new_engine null_customer_table) = (Ok rep, w') /\
    overall_risk_level (executive_summary rep) = "UNKNOWN" /\
    map fst (results rep) = ["geographic"] /\
    analyses_completed (executive_summary rep) = 1%nat.
Proof.
  eexists. eexists. split; [vm_compute; reflexivity|].
  repeat split; reflexivity.
Qed.

(** ** Behavioral profiles *)

Lemma Zminimum_le (x : Z) (l : list Z) : Zminimum x l <= x.
Proof. unfold Zminimum. induction l as [|y l IH]; cbn; lia. Qed.

Lemma Zmaximum_ge (x : Z) (l : list Z) : x <= Zmaximum x l.
Proof. unfold Zmaximum. induction l as [|y l IH]; cbn; lia. Qed.

Lemma date_range_nonneg {L : Libs} (customer_data : list Row) :
  0 <= date_range customer_data.
Proof.
  unfold date_range. destruct (map timestamp customer_data) as [|t ts]; [lia|].
  unfold delta_days. apply Z.div_pos; [|reflexivity].
  pose proof (Zminimum_le t ts). pose proof (Zmaximum_ge t ts). lia.
Qed.

(** The sort used for group keys and time order rearranges, no more. *)
Lemma insert_sorted_Permutation {A} (leb : A -> A -> bool) (x : A) (l : list A) :
  Permutation (insert_sorted leb x l) (x :: l).
Proof.
  induction l as [|y l IH]; cbn; [reflexivity|].
  destruct (leb x y); [reflexivity|].
  rewrite IH. apply perm_swap.
Qed.

Lemma sort_Permutation {A} (leb : A -> A -> bool) (l : list A) :
  Permutation (sort leb l) l.
Proof.
  unfold sort. induction l as [|x l IH]; cbn; [reflexivity|].
  rewrite insert_sorted_Permutation, IH. reflexivity.
Qed.

Lemma unique_In (l : list string) (x : string) :
  In x (unique String.eqb l) <-> In x l.
Proof.
  induction l as [|a l IH]; cbn [unique In]; [tauto|].
  rewrite filter_In, IH. split.
  - intros [H|[H _]]; auto.
  - intros [H|H]; [auto|].
    destruct (String.eqb_spec a x) as [E|E]; [auto|]. right. split; [exact H|].
    reflexivity.
Qed.

Lemma unique_NoDup (l : list string) : NoDup (unique String.eqb l).
Proof.
  induction l as [|a l IH]; cbn [unique]; constructor.
  - intros H. apply filter_In in H. destruct H as [_ H].
    rewrite String.eqb_refl in H. discriminate.
  - apply NoDup_filter. exact IH.
Qed.

Lemma dropna_In {A} (l : list (option A)) (x : A) :
  In x (dropna l) <-> In (Some x) l.
Proof.
  induction l as [|[a|] l IH]; cbn [dropna In]; [tauto| |].
  - rewrite IH. split; intros [H|H]; auto; [left; congruence|].
    left. congruence.
  - rewrite IH. split; [auto|]. intros [H|H]; [discriminate | exact H].
Qed.

(** The customers of a table: the ids that occur in it, each once. *)
Lemma customer_index_In {L : Libs} (df : DataFrame) (id : string) :
  In id (customer_index df) <->
  exists r, In r (rows df) /\ customer_id r = Some id.
Proof.
  unfold customer_index.
  rewrite (Permutation_in' (eq_refl id) (sort_Permutation String.leb _)).
  rewrite unique_In, dropna_In, in_map_iff. split.
  - intros [r [Hr Hin]]. eauto.
  - intros [r [Hin Hr]]. eauto.
Qed.

Lemma customer_index_NoDup {L : Libs} (df : DataFrame) :
  NoDup (customer_index df).
Proof.
  unfold customer_index.
  apply (Permutation_NoDup (Permutation_sym (sort_Permutation String.leb _))).
  apply unique_NoDup.
Qed.

Lemma Zminimum_In (x : Z) (l : list Z) :
  In (Zminimum x l) (x :: l) /\
  forall y, In y (x :: l) -> Zminimum x l <= y.
Proof.
  unfold Zminimum. induction l as [|a l [IHin IHle]]; cbn [fold_right].
  - split; [left; reflexivity|]. intros y [<-|[]]. lia.
  - split.
    + destruct (Z.min_spec a (fold_right Z.min x l)) as [[_ ->]|[_ ->]].
      * right. left. reflexivity.
      * destruct IHin as [H|H]; [left; exact H | right; right; exact H].
    + intros y [<-|[<-|H]].
      * pose proof (IHle x (or_introl eq_refl)). lia.
      * lia.
      * pose proof (IHle y (or_intror H)). lia.
Qed.

Lemma Zmaximum_In (x : Z) (l : list Z) :
  In (Zmaximum x l) (x :: l) /\
  forall y, In y (x :: l) -> y <= Zmaximum x l.
Proof.
  unfold Zmaximum. induction l as [|a l [IHin IHle]]; cbn [fold_right].
  - split; [left; reflexivity|]. intros y [<-|[]]. lia.
  - split.
    + destruct (Z.max_spec a (fold_right Z.max x l)) as [[_ ->]|[_ ->]].
      * destruct IHin as [H|H]; [left; exact H | right; right; exact H].
      * right. left. reflexivity.
    + intros y [<-|[<-|H]].
      * pose proof (IHle x (or_introl eq_refl)). lia.
      * lia.
      * pose proof (IHle y (or_intror H)). lia.
Qed.

(** The day span of a customer's rows: the whole days between the earliest
    and the latest of their timestamps. *)
Lemma date_range_span {L : Libs} (customer_data : list Row) :
  customer_data <> [] ->
  exists first last,
    In first (map timestamp customer_data) /\
    In last (map timestamp customer_data) /\
    (forall t, In t (map timestamp customer_data) -> first <= t <= last) /\
    date_range customer_data = (last - first) / ns_per_day.
Proof.
  intros Hne. unfold date_range.
  destruct (map timestamp customer_data) as [|t ts] eqn:E.
  - destruct customer_data; [congruence | discriminate].
  - destruct (Zminimum_In t ts) as [Hmin Hle].
    destruct (Zmaximum_In t ts) as [Hmax Hge].
    exists (Zminimum t ts), (Zmaximum t ts).
    split; [exact Hmin|]. split; [exact Hmax|].
    split; [|reflexivity]. intros y Hy. split; [apply Hle | apply Hge]; exact Hy.
Qed.

(** C8: on a table with the columns that the profiles are built from,
    the profile loop of [behavioral_profiling] (lines 410-476,
    [customer_behavior]) ends without raising and has built one profile for
    each customer of the table, that is for each id that occurs in its
    [customer_id] column.  The velocity of a customer's profile is the
    number of the customer's transactions divided by [max(span, 1)], where
    the span is the number of whole days between the earliest and the
    latest of their timestamps; the span is never negative, so the divisor
    is at least 1 and never zero.  A customer with exactly one transaction,
    and any customer whose transactions lie within one day, has divisor 1:
    the velocity is then the transaction count, 1 for a single
    transaction. *)
Theorem behavioral_velocity_guarded {L : Libs} (df : DataFrame) (w : World) :
  (forall c, In c ["customer_id"; "amount"; "payment_method";
                   "merchant_category"; "location"; "timestamp"] ->
             has_column df c = true) ->
  exists found w',
  customer_behavior df w = (Ok found, w') /\
  let profiles := snd (fst found) in
  NoDup (map Behavioral.profile_customer_id profiles) /\
  (forall id, In id (map Behavioral.profile_customer_id profiles) <->
              exists r, In r (rows df) /\ customer_id r = Some id) /\
  (forall p, In p profiles ->
     let txs := filter (fun r => match customer_id r with
                                 | Some c =>
                                     String.eqb c (Behavioral.profile_customer_id p)
                                 | None => false
                                 end) (rows df) in
     exists first last,
       In first (map timestamp txs) /\ In last (map timestamp txs) /\
       (forall t, In t (map timestamp txs) -> first <= t <= last) /\
       let span := (last - first) / ns_per_day in
       Behavioral.profile_transaction_count p = length txs /\
       (1 <= length txs)%nat /\
       0 <= span /\
       ~ (inject_Z (Z.max span 1) == 0)%Q /\
       (Behavioral.velocity p ==
        Qofnat (length txs) / inject_Z (Z.max span 1))%Q /\
       (length txs = 1%nat -> (Behavioral.velocity p == 1)%Q) /\
       (last - first < ns_per_day ->
        (Behavioral.velocity p == Qofnat (length txs))%Q)).
Proof.
  intros Hhas.
  assert (Hc : has_column df "customer_id" = true)
    by (apply Hhas; cbn; auto).
  assert (Hcols : profile_columns df = Ok tt).
  { unfold profile_columns.
    rewrite !require_has by (apply Hhas; cbn; auto 7). reflexivity. }
  clear Hhas.
  assert (Hrun : exists found w',
            customer_behavior df w = (Ok found, w') /\
            snd (fst found) = map (profile_of df) (customer_index df)).
  { rewrite customer_behavior_run, Hc, Hcols. cbv zeta.
    destruct (Nat.ltb 5 _); eexists; eexists; split; reflexivity. }
  destruct Hrun as (found & w' & Hrun & Hprofiles).
  exists found, w'. split; [exact Hrun|]. cbv zeta.
  rewrite Hprofiles. clear Hrun Hprofiles.
  assert (Hids : map Behavioral.profile_customer_id
                   (map (profile_of df) (customer_index df)) =
                 customer_index df).
  { rewrite map_map. cbn [profile_of Behavioral.profile_customer_id].
    apply map_id. }
  rewrite Hids. split; [apply customer_index_NoDup|].
  split; [apply customer_index_In|].
  intros p Hp. apply in_map_iff in Hp. destruct Hp as [id [<- Hid]].
  cbn [profile_of Behavioral.profile_customer_id
       Behavioral.profile_transaction_count Behavioral.velocity].
  set (txs := filter _ (rows df)).
  assert (Hne : txs <> []).
  { apply customer_index_In in Hid. destruct Hid as [r [Hr Hcr]].
    assert (Hin : In r txs).
    { unfold txs. apply filter_In. split; [exact Hr|]. rewrite Hcr.
      apply String.eqb_refl. }
    intros E. rewrite E in Hin. destruct Hin. }
  destruct (date_range_span Hne) as (first & last & Hf & Hl & Hbetween & Hspan).
  exists first, last. split; [exact Hf|]. split; [exact Hl|].
  split; [exact Hbetween|].
  assert (Hpos : 0 <= (last - first) / ns_per_day).
  { apply Z.div_pos; [|reflexivity]. destruct (Hbetween first Hf). lia. }
  split; [reflexivity|].
  split; [destruct txs; [congruence | cbn; lia]|].
  split; [exact Hpos|].
  split; [intros H; unfold Qeq in H; cbn in H; lia|].
  unfold velocity_of. rewrite Hspan.
  split; [reflexivity|]. split.
  - intros Hone. destruct txs as [|r [|r' l]]; try discriminate.
    cbn [map In] in Hf, Hl.
    destruct Hf as [<-|[]], Hl as [<-|[]].
    rewrite Z.sub_diag. reflexivity.
  - intros Hday. rewrite Z.div_small by (destruct (Hbetween first Hf); lia).
    cbn [Z.max Z.compare]. change (inject_Z 1) with 1%Q. field.
Qed.

Lemma behavioral_velocity_guarded_witness :
  exists found w',
    @customer_behavior sample_libs velocity_table
      (mkWorld new_engine velocity_table) = (Ok found, w') /\
    map Behavioral.profile_customer_id (snd (fst found)) = ["C1"; "C2"] /\
    NoDup (map Behavioral.profile_customer_id (snd (fst found))) /\
    (forall p, In p (snd (fst found)) ->
       (Behavioral.profile_customer_id p = "C1" ->
        Behavioral.profile_transaction_count p = 3%nat /\
        (Behavioral.velocity p == 3 # 2)%Q) /\
       (Behavioral.profile_customer_id p = "C2" ->
        Behavioral.profile_transaction_count p = 1%nat /\
        (Behavioral.velocity p == 1)%Q)).
Proof.
  assert (Hhas : forall c,
             In c ["customer_id"; "amount"; "payment_method";
                   "merchant_category"; "location"; "timestamp"] ->
             has_column velocity_table c = true).
  { intros c Hin. cbn in Hin.
    destruct Hin as [<-|[<-|[<-|[<-|[<-|[<-|[]]]]]]]; reflexivity. }
  destruct (@behavioral_velocity_guarded sample_libs velocity_table
              (mkWorld new_engine velocity_table) Hhas)
    as (found & w' & Hrun & Hnd & _ & Hp).
  exists found, w'. split; [exact Hrun|]. cbv zeta in Hnd, Hp.
  assert (Hfound : map Behavioral.profile_customer_id (snd (fst found)) =
                   ["C1"; "C2"]).
  { vm_compute in Hrun. injection Hrun as <- _. reflexivity. }
  split; [exact Hfound|]. split; [exact Hnd|].
  intros p Hin. destruct (Hp p Hin)
    as (first & last & Hf & Hl & Hb & Hn & _ & _ & _ & Hv & Hone & _).
  assert (Hid : In (Behavioral.profile_customer_id p) ["C1"; "C2"]).
  { rewrite <- Hfound. apply in_map. exact Hin. }
  split.
  - intros E. rewrite E in Hn, Hv, Hf, Hl, Hb. split; [exact Hn|].
    cbn in Hf, Hl, Hb.
    assert (Hfirst : first = 0).
    { destruct (Hb 0 (or_introl eq_refl)) as [H0 _].
      destruct Hf as [<-|[<-|[<-|[]]]]; [reflexivity| |];
        vm_compute in H0; destruct H0; reflexivity. }
    assert (Hlast : last = 2 * ns_per_day + 12 * ns_per_hour).
    { destruct (Hb (2 * ns_per_day + 12 * ns_per_hour)
                   (or_intror (or_intror (or_introl eq_refl)))) as [_ H1].
      destruct Hl as [<-|[<-|[<-|[]]]]; [| |reflexivity];
        vm_compute in H1; destruct H1; reflexivity. }
    rewrite Hv, Hfirst, Hlast. vm_compute. reflexivity.
  - intros E. rewrite E in Hn, Hone. split; [exact Hn|].
    apply Hone. vm_compute. reflexivity.
Defined.

(** ** Communities *)

Lemma eqb_neq_l (a b : string) : a <> b -> String.eqb a b = false.
Proof. apply String.eqb_neq. Qed.

Lemma eqb_neq_r (a b : string) : a <> b -> String.eqb b a = false.
Proof. intros H. apply String.eqb_neq. congruence. Qed.

Section Star.
Context {L : Libs}.
Variables (now : Z) (cols : list string) (r1 r2 r3 : Row).
Variables c1 c2 c3 m : string.

Let df := mkDataFrame cols [r1; r2; r3].

Hypothesis Hcustomer : has_column df "customer_id" = true.
Hypothesis Hmerchant : has_column df "merchant_name" = true.
Hypothesis Hr1 : customer_id r1 = Some c1 /\ merchant_name r1 = Some m.
Hypothesis Hr2 : customer_id r2 = Some c2 /\ merchant_name r2 = Some m.
Hypothesis Hr3 : customer_id r3 = Some c3 /\ merchant_name r3 = Some m.
Hypothesis H12 : c1 <> c2.
Hypothesis H13 : c1 <> c3.
Hypothesis H23 : c2 <> c3.
Hypothesis H1m : c1 <> m.
Hypothesis H2m : c2 <> m.
Hypothesis H3m : c3 <> m.

Let star : DiGraph :=
  mkDiGraph [c1; m; c2; c3]
    [(c1, m, mkEdgeData (edge_amount df r1) 1 [edge_timestamp now df r1]);
     (c2, m, mkEdgeData (edge_amount df r2) 1 [edge_timestamp now df r2]);
     (c3, m, mkEdgeData (edge_amount df r3) 1 [edge_timestamp now df r3])].

Ltac distinct :=
  rewrite ?String.eqb_refl,
    ?(eqb_neq_l H12), ?(eqb_neq_r H12), ?(eqb_neq_l H13), ?(eqb_neq_r H13),
    ?(eqb_neq_l H23), ?(eqb_neq_r H23), ?(eqb_neq_l H1m), ?(eqb_neq_r H1m),
    ?(eqb_neq_l H2m), ?(eqb_neq_r H2m), ?(eqb_neq_l H3m), ?(eqb_neq_r H3m).

Lemma star_keys :
  source_key df r1 = Some c1 /\ target_key df r1 = Some m /\
  source_key df r2 = Some c2 /\ target_key df r2 = Some m /\
  source_key df r3 = Some c3 /\ target_key df r3 = Some m.
Proof.
  unfold source_key, target_key, row_get. rewrite Hcustomer, Hmerchant.
  destruct Hr1, Hr2, Hr3. repeat split; assumption.
Qed.

Lemma star_graph : build_graph now df = Ok star.
Proof.
  destruct star_keys as (S1 & T1 & S2 & T2 & S3 & T3).
  unfold build_graph, df. cbn [rows add_transactions].
  fold df. unfold add_transaction. rewrite S1, T1, S2, T2, S3, T3.
  cbn [has_edge empty_graph edges existsb add_edge nodes app bind result_monad].
  unfold add_node, mem_str, is_edge, edge_source, edge_target.
  repeat (progress (cbn [existsb fst snd orb andb app nodes edges has_edge add_edge
                         bind result_monad]; distinct)).
  reflexivity.
Qed.

Lemma star_neighbors :
  neighbors star c1 = [m] /\ neighbors star m = [c1; c2; c3] /\
  neighbors star c2 = [m] /\ neighbors star c3 = [m].
Proof.
  unfold neighbors, star, edge_source, edge_target.
  cbn [edges flat_map fst snd]. distinct. repeat split; reflexivity.
Qed.

Ltac members :=
  unfold mem_str;
  repeat (progress (cbn [filter existsb negb orb app]; distinct)).

(** One round of the closure, with the seen nodes listed. *)
Ltac round :=
  destruct star_neighbors as (N1 & Nm & N2 & N3);
  cbn [reach flat_map app]; rewrite ?N1, ?Nm, ?N2, ?N3; cbn [app];
  members; clear N1 Nm N2 N3.

Lemma star_reach : reach 4 star [c1] = [c1; m; c2; c3].
Proof.
  change 4%nat with (S 3).
  round. change 3%nat with (S 2).
  round. change 2%nat with (S 1).
  round. change 1%nat with (S 0).
  round. reflexivity.
Qed.

Lemma star_components : nx_connected_components star = [[c1; m; c2; c3]].
Proof.
  unfold nx_connected_components.
  change (nodes star) with [c1; m; c2; c3].
  assert (Hc : component star c1 = [c1; m; c2; c3]).
  { unfold component. change (number_of_nodes star) with 4%nat.
    rewrite star_reach. change (nodes star) with [c1; m; c2; c3].
    members. reflexivity. }
  cbn [components_from mem_str existsb]. rewrite Hc. cbn [app].
  members. reflexivity.
Qed.

Lemma star_analysis (pagerank : string -> Q) :
  nx_pagerank star = Ok pagerank ->
  exists res s,
    network_analysis_on now df = Ok res /\
    summary res = NetworkSummary s /\
    Network.communities_detected s = 1%nat /\
    Network.total_nodes (Network.network_metrics s) = 4%nat.
Proof.
  intros Hpr. unfold network_analysis_on. rewrite star_graph.
  cbn [bind result_monad]. cbv zeta.
  change (number_of_nodes star) with 4%nat. cbn [Nat.ltb Nat.leb].
  rewrite Hpr. cbn [bind result_monad fst snd].
  eexists. eexists. split; [reflexivity|]. cbn [summary].
  split; [reflexivity|]. cbn [Network.communities_detected Network.total_nodes
                              Network.network_metrics].
  split; [|reflexivity].
  unfold large_communities_of. rewrite star_components. reflexivity.
Qed.
End Star.

(** C2 (as the code has it): three transactions of three distinct customers
    with one shared merchant build a graph of four nodes that is a single
    connected component of four members; four is more than three, so the
    component is a large community and, whenever PageRank converges on the
    graph, [network_analysis] reports [communities_detected = 1] together
    with [total_nodes = 4]. *)
Theorem three_customers_one_merchant_community {L : Libs} (now : Z)
  (e : Engine) (cols : list string) (r1 r2 r3 : Row) (c1 c2 c3 m : string) :
  let df := mkDataFrame cols [r1; r2; r3] in
  has_column df "customer_id" = true ->
  has_column df "merchant_name" = true ->
  customer_id r1 = Some c1 /\ merchant_name r1 = Some m ->
  customer_id r2 = Some c2 /\ merchant_name r2 = Some m ->
  customer_id r3 = Some c3 /\ merchant_name r3 = Some m ->
  c1 <> c2 -> c1 <> c3 -> c2 <> c3 -> c1 <> m -> c2 <> m -> c3 <> m ->
  exists G,
    build_graph now df = Ok G /\
    number_of_nodes G = 4%nat /\
    nx_connected_components G = [[c1; m; c2; c3]] /\
    forall pagerank, nx_pagerank G = Ok pagerank ->
      exists res s,
        fst (network_analysis now (mkWorld e df)) = Ok res /\
        summary res = NetworkSummary s /\
        Network.communities_detected s = 1%nat /\
        Network.total_nodes (Network.network_metrics s) = 4%nat.
Proof.
  intros df Hc Hm Hr1 Hr2 Hr3 H12 H13 H23 H1m H2m H3m.
  eexists. split; [apply (star_graph now cols r1 r2 r3 Hc Hm Hr1 Hr2 Hr3); assumption|].
  split; [reflexivity|].
  split; [apply star_components; assumption|].
  intros pagerank Hpr. rewrite network_analysis_run. cbn [fst table].
  apply (star_analysis now cols r1 r2 r3 Hc Hm Hr1 Hr2 Hr3 H12 H13 H23 H1m H2m H3m Hpr).
Qed.

Lemma three_customers_one_merchant_community_witness :
  exists res s,
    fst (@network_analysis sample_libs 0 (mkWorld new_engine star_table)) = Ok res /\
    summary res = NetworkSummary s /\
    Network.communities_detected s = 1%nat /\
    Network.total_nodes (Network.network_metrics s) = 4%nat.
Proof.
  destruct (@three_customers_one_merchant_community sample_libs 0 new_engine
              all_columns
              (transaction_row "T1" "C1" "M" "Retail" "UPI" 100 "Mumbai" 0)
              (transaction_row "T2" "C2" "M" "Retail" "UPI" 200 "Mumbai" 0)
              (transaction_row "T3" "C3" "M" "Retail" "UPI" 300 "Mumbai" 0)
              "C1" "C2" "C3" "M")
    as [G [HG [_ [_ Hres]]]];
    try reflexivity; try (split; reflexivity); try discriminate.
  apply (Hres (fun _ => (1 / Qofnat (number_of_nodes G))%Q)).
  vm_compute in HG. inversion HG. reflexivity.
Defined.

(** C2 (as the claim has it) fails: on the table of three customers paying
    one merchant the analysis reports one community, not zero, next to the
    four nodes. *)
Lemma star_table_has_one_community :
  exists res s,
    fst (@network_analysis sample_libs 0 (mkWorld new_engine star_table)) = Ok res /\
    summary res = NetworkSummary s /\
    Network.total_nodes (Network.network_metrics s) = 4%nat /\
    Network.communities_detected s = 1%nat /\
    Network.communities_detected s <> 0%nat.
Proof.
  eexists. eexists. split; [vm_compute; reflexivity|].
  split; [reflexivity|]. cbn. repeat split; discriminate.
Qed.

(** ** The composite risk score *)

Lemma cut_risk_level_bins (score : Q) :
  ((0 < score)%Q /\ (score <= 25)%Q -> cut_risk_level score = Some "LOW") /\
  ((25 < score)%Q /\ (score <= 50)%Q -> cut_risk_level score = Some "MEDIUM") /\
  ((50 < score)%Q /\ (score <= 75)%Q -> cut_risk_level score = Some "HIGH") /\
  ((75 < score)%Q /\ (score <= 100)%Q -> cut_risk_level score = Some "CRITICAL") /\
  ((score <= 0)%Q \/ (100 < score)%Q -> cut_risk_level score = None).
Proof.
  unfold cut_risk_level, Qlt_bool.
  destruct (Qle_bool score 0) eqn:E0; [apply Qle_bool_iff in E0|apply Qle_bool_false in E0];
  destruct (Qle_bool score 25) eqn:E25; [apply Qle_bool_iff in E25|apply Qle_bool_false in E25|
                                          apply Qle_bool_iff in E25|apply Qle_bool_false in E25];
  destruct (Qle_bool score 50) eqn:E50;
    try apply Qle_bool_iff in E50; try apply Qle_bool_false in E50;
  destruct (Qle_bool score 75) eqn:E75;
    try apply Qle_bool_iff in E75; try apply Qle_bool_false in E75;
  destruct (Qle_bool score 100) eqn:E100;
    try apply Qle_bool_iff in E100; try apply Qle_bool_false in E100;
  cbn [negb andb]; repeat split; intros H; try reflexivity; exfalso;
  unfold Qle, Qlt in *; cbn in *; lia.
Qed.

(** C3 (as the code has it): with the weights [0.15, 0.10, 0.20, 0.25, 0.15,
    0.15] over [unusual hour, round amount, high amount, high-risk location,
    payment risk, merchant risk], a transaction whose factors are 1, 1, 1, 1,
    0.8 and 0.9 scores (0.15 + 0.10 + 0.20 + 0.25 + 0.8*0.15 + 0.9*0.15) * 100
    = 95.5 and is classified CRITICAL, the bins being LOW (0, 25], MEDIUM
    (25, 50], HIGH (50, 75] and CRITICAL (75, 100]. *)
Theorem composite_score_of_all_factors (q90 : option Q) (r : Row) :
  let x := score_row q90 r in
  Predictive.is_unusual_hour x = 1 ->
  Predictive.is_round_amount x = 1 ->
  Predictive.is_high_amount x = 1 ->
  Predictive.is_high_risk_location x = 1 ->
  (Predictive.payment_risk_score x == 0.8)%Q ->
  (Predictive.merchant_risk_score x == 0.9)%Q ->
  combine risk_factors weights =
    [("is_unusual_hour", 0.15); ("is_round_amount", 0.10);
     ("is_high_amount", 0.20); ("is_high_risk_location", 0.25);
     ("payment_risk_score", 0.15); ("merchant_risk_score", 0.15)]%Q /\
  (Predictive.predicted_risk_score x == 95.5)%Q /\
  Predictive.predicted_risk_level x = Some "CRITICAL" /\
  (forall score,
     ((0 < score)%Q /\ (score <= 25)%Q -> cut_risk_level score = Some "LOW") /\
     ((25 < score)%Q /\ (score <= 50)%Q -> cut_risk_level score = Some "MEDIUM") /\
     ((50 < score)%Q /\ (score <= 75)%Q -> cut_risk_level score = Some "HIGH") /\
     ((75 < score)%Q /\ (score <= 100)%Q -> cut_risk_level score = Some "CRITICAL")).
Proof.
  cbv zeta. unfold score_row.
  cbn [Predictive.is_unusual_hour Predictive.is_round_amount
       Predictive.is_high_amount Predictive.is_high_risk_location
       Predictive.payment_risk_score Predictive.merchant_risk_score
       Predictive.predicted_risk_score Predictive.predicted_risk_level].
  intros H1 H2 H3 H4 H5 H6. rewrite H1, H2, H3, H4.
  split; [reflexivity|].
  assert (Hscore :
    (composite_risk_score
       [inject_Z 1; inject_Z 1; inject_Z 1; inject_Z 1;
        risk_lookup payment_risk_scores (payment_method r);
        risk_lookup merchant_risk_scores (merchant_category r)] == 95.5)%Q).
  { unfold composite_risk_score, weights. cbn [combine fold_left fst snd].
    rewrite H5, H6. reflexivity. }
  split; [exact Hscore|]. split.
  - apply cut_risk_level_bins. rewrite Hscore.
    split; [reflexivity | unfold Qle; cbn; lia].
  - intros score. pose proof (cut_risk_level_bins score). tauto.
Qed.

Lemma composite_score_of_all_factors_witness :
  let x := score_row (quantile_90 (map amount (rows critical_table))) critical_row in
  (Predictive.predicted_risk_score x == 95.5)%Q /\
  Predictive.predicted_risk_level x = Some "CRITICAL".
Proof.
  cbv zeta.
  destruct (@composite_score_of_all_factors
              (quantile_90 (map amount (rows critical_table))) critical_row)
    as (_ & Hs & Hl & _); try reflexivity.
  split; assumption.
Defined.

(** C3 (as the claim has it) fails: for a transaction at 02:00 of 100000 by
    RTGS for jewelry at the border, whose factors are 1, 1, 1, 1, 0.8 and
    0.9, the score is 95.5 and not 82.5, in exact arithmetic and in binary64
    alike. *)
#[warnings="-inexact-float"]
Lemma composite_score_is_not_82_5 :
  let x := score_row (quantile_90 (map amount (rows critical_table))) critical_row in
  (Predictive.is_unusual_hour x = 1 /\ Predictive.is_round_amount x = 1 /\
   Predictive.is_high_amount x = 1 /\ Predictive.is_high_risk_location x = 1 /\
   (Predictive.payment_risk_score x == 0.8)%Q /\
   (Predictive.merchant_risk_score x == 0.9)%Q) /\
  (Predictive.predicted_risk_score x == 95.5)%Q /\
  ~ (Predictive.predicted_risk_score x == 82.5)%Q /\
  Binary64.composite_risk_score [1; 1; 1; 1; 0.8; 0.9]%float = 95.5%float.
Proof.
  cbv zeta. split; [repeat split; reflexivity|].
  split; [reflexivity|]. split; [|reflexivity].
  intros H. vm_compute in H. discriminate.
Qed.

(** ** Percentages *)

Lemma percentage_ok (count total : nat) :
  (count <= total)%nat -> (0 < total)%nat ->
  exists q, percentage count total = Ok q /\ (0 <= q)%Q /\ (q <= 100)%Q.
Proof.
  intros Hle Hpos. unfold percentage, py_div.
  destruct total as [|n]; [lia|]. cbn [bind result_monad].
  eexists. split; [reflexivity|].
  assert (H0 : (0 < Qofnat (S n))%Q).
  { unfold Qofnat, Qlt. cbn. lia. }
  assert (Hc : (0 <= Qofnat count)%Q).
  { unfold Qofnat, Qle. cbn. lia. }
  assert (Hct : (Qofnat count <= Qofnat (S n))%Q).
  { unfold Qofnat. rewrite <- Zle_Qle. lia. }
  split.
  - apply Qmult_le_0_compat; [|discriminate].
    apply Qle_shift_div_l; [exact H0|]. rewrite Qmult_0_l. exact Hc.
  - setoid_replace (100:Q) with (1 * 100)%Q at 2 by ring.
    apply Qmult_le_compat_r; [|discriminate].
    apply Qle_shift_div_r; [exact H0|]. rewrite Qmult_1_l. exact Hct.
Qed.

Lemma percentage_zero (count : nat) : percentage count 0 = Raise ZeroDivisionError.
Proof. reflexivity. Qed.

Lemma filter_length_le' {A} (f : A -> bool) (l : list A) :
  (length (filter f l) <= length l)%nat.
Proof. induction l as [|x l IH]; cbn; [lia|]. destruct (f x); cbn; lia. Qed.

Lemma insert_sorted_length {A} (leb : A -> A -> bool) (x : A) (l : list A) :
  length (insert_sorted leb x l) = S (length l).
Proof.
  induction l as [|y l IH]; cbn; [reflexivity|].
  destruct (leb x y); cbn; [reflexivity|]. rewrite IH. reflexivity.
Qed.

Lemma sort_length {A} (leb : A -> A -> bool) (l : list A) :
  length (sort leb l) = length l.
Proof.
  unfold sort. induction l as [|x l IH]; cbn; [reflexivity|].
  rewrite insert_sorted_length, IH. reflexivity.
Qed.

Lemma diff_from_length (previous : Z) (rs : list Row) :
  length (diff_from previous rs) = length rs.
Proof.
  revert previous. induction rs as [|r rs IH]; intros previous; cbn; [reflexivity|].
  rewrite IH. reflexivity.
Qed.

Lemma rapid_rows_length (df : DataFrame) :
  (length (rapid_rows df) <= len df)%nat.
Proof.
  unfold rapid_rows, len.
  eapply Nat.le_trans; [apply filter_length_le'|].
  unfold with_time_diff, sort_by_timestamp.
  rewrite <- (sort_length (fun x y => Z.leb (timestamp x) (timestamp y)) (rows df)).
  destruct (sort _ (rows df)) as [|r rs]; cbn [length]; [lia|].
  rewrite diff_from_length. lia.
Qed.

Lemma select_length (df : DataFrame) (cond : Row -> bool) :
  (len (select df cond) <= len df)%nat.
Proof. unfold len, select. cbn [rows]. apply filter_length_le'. Qed.

(** ** Columns after an assignment *)

Lemma mem_str_app (c : string) (l1 l2 : list string) :
  mem_str c (l1 ++ l2) = orb (mem_str c l1) (mem_str c l2).
Proof. unfold mem_str. apply existsb_app. Qed.

Lemma mem_add_column (cols : list string) (c c' : string) :
  mem_str c (add_column cols c') = orb (mem_str c cols) (String.eqb c c').
Proof.
  unfold add_column. destruct (mem_str c' cols) eqn:E.
  - destruct (String.eqb_spec c c') as [->|Hne].
    + rewrite E. reflexivity.
    + rewrite orb_false_r. reflexivity.
  - rewrite mem_str_app. cbn. rewrite orb_false_r. reflexivity.
Qed.

Lemma mem_add_columns (cs cols : list string) (c : string) :
  mem_str c (fold_left add_column cs cols) = orb (mem_str c cols) (mem_str c cs).
Proof.
  revert cols. induction cs as [|c' cs IH]; intros cols; cbn [fold_left].
  - cbn. rewrite orb_false_r. reflexivity.
  - rewrite IH, mem_add_column. cbn. rewrite orb_assoc. reflexivity.
Qed.

Lemma has_column_assign (df : DataFrame) (cs : list string) (f : Row -> Row)
  (c : string) :
  has_column (assign df cs f) c = orb (has_column df c) (mem_str c cs).
Proof. unfold has_column, assign. cbn [columns]. apply mem_add_columns. Qed.

Lemma has_column_add_time_features (now : Z) (df : DataFrame) (c : string) :
  has_column (add_time_features now df) c =
  orb (has_column df c)
      (mem_str c ["timestamp"; "hour"; "day_of_week"; "day_of_month"; "month"]).
Proof.
  unfold add_time_features. rewrite has_column_assign.
  destruct (has_column df "timestamp") eqn:E.
  - destruct (String.eqb_spec c "timestamp") as [->|Hne].
    + rewrite E. reflexivity.
    + cbn. apply String.eqb_neq in Hne. rewrite Hne. reflexivity.
  - rewrite has_column_assign. cbn. rewrite orb_false_r, <- orb_assoc. reflexivity.
Qed.

Lemma len_add_time_features (now : Z) (df : DataFrame) :
  len (add_time_features now df) = len df.
Proof.
  unfold add_time_features, len, assign.
  destruct (has_column df "timestamp"); cbn [rows]; rewrite ?length_map; reflexivity.
Qed.

Section PercentageRanges.
Context {L : Libs}.
Variable now : Z.

Lemma temporal_percentages df :
  (0 < len df)%nat ->
  has_column df "amount" = true ->
  has_column df "transaction_id" = true ->
  exists res s,
    temporal_pattern_analysis_on now (add_time_features now df) = Ok res /\
    summary res = TemporalSummary s /\
    (0 <= Temporal.unusual_hour_percentage s)%Q /\
    (Temporal.unusual_hour_percentage s <= 100)%Q /\
    (0 <= Temporal.velocity_abuse_percentage s)%Q /\
    (Temporal.velocity_abuse_percentage s <= 100)%Q.
Proof.
  intros Hlen Ha Ht.
  set (df' := add_time_features now df).
  assert (Hlen' : (0 < len df')%nat).
  { unfold df'. rewrite len_add_time_features. exact Hlen. }
  assert (Hcol : forall c,
            orb (has_column df c)
                (mem_str c ["timestamp"; "hour"; "day_of_week"; "day_of_month";
                            "month"]) = true ->
            require df' c = Ok tt).
  { intros c Hc. apply require_has. unfold df'.
    rewrite has_column_add_time_features. exact Hc. }
  unfold temporal_pattern_analysis_on.
  rewrite (Hcol "hour") by (rewrite orb_true_iff; right; reflexivity).
  rewrite (Hcol "amount") by (rewrite Ha; reflexivity).
  rewrite (Hcol "transaction_id") by (rewrite Ht; reflexivity).
  rewrite (Hcol "day_of_week") by (rewrite orb_true_iff; right; reflexivity).
  rewrite (Hcol "timestamp") by (rewrite orb_true_iff; right; reflexivity).
  rewrite (Hcol "month") by (rewrite orb_true_iff; right; reflexivity).
  cbn [bind result_monad]. cbv zeta.
  destruct (percentage_ok
              (select_length df' (fun r => mem_Z (hour r) unusual_hours)) Hlen')
    as [q1 [E1 [L1 U1]]].
  destruct (percentage_ok (rapid_rows_length df') Hlen') as [q2 [E2 [L2 U2]]].
  destruct (percentage_ok
              (select_length df' (fun r => mem_Z (day_of_week r) [5; 6])) Hlen')
    as [q3 [E3 [L3 U3]]].
  rewrite E1. cbn [bind result_monad]. rewrite E2. cbn [bind result_monad].
  rewrite E3. cbn [bind result_monad].
  eexists. eexists. split; [reflexivity|]. split; [reflexivity|].
  cbn [Temporal.unusual_hour_percentage Temporal.velocity_abuse_percentage].
  auto.
Qed.

Lemma geographic_percentages df :
  (0 < len df)%nat ->
  has_column df "location" = true ->
  has_column df "amount" = true ->
  has_column df "customer_id" = true ->
  exists res s,
    geographic_clustering_analysis_on now df = Ok res /\
    summary res = GeographicSummary s /\
    (0 <= Geographic.high_risk_percentage s)%Q /\
    (Geographic.high_risk_percentage s <= 100)%Q /\
    (0 <= Geographic.cross_border_percentage s)%Q /\
    (Geographic.cross_border_percentage s <= 100)%Q.
Proof.
  intros Hlen Hl Ha Hc.
  unfold geographic_clustering_analysis_on. rewrite Hl. cbn [negb].
  rewrite (require_has _ _ Ha), (require_has _ _ Hc).
  cbn [bind result_monad]. cbv zeta.
  destruct (percentage_ok
              (select_length df
                 (fun r => mem_str (location r) geographic_high_risk_locations))
              Hlen) as [q1 [E1 [L1 U1]]].
  destruct (percentage_ok
              (select_length df
                 (fun r => negb (mem_str (location r) domestic_locations)))
              Hlen) as [q2 [E2 [L2 U2]]].
  rewrite E1. cbn [bind result_monad]. rewrite E2. cbn [bind result_monad].
  eexists. eexists. split; [reflexivity|]. split; [reflexivity|].
  cbn [Geographic.high_risk_percentage Geographic.cross_border_percentage].
  auto.
Qed.
End PercentageRanges.

(** C5 (as the code has it): on every table with at least one row that has
    the columns the analysis aggregates, the percentages are defined and lie
    in [0, 100]: [temporal_pattern_analysis] (columns [amount] and
    [transaction_id]) returns [unusual_hour_percentage] and
    [velocity_abuse_percentage], [geographic_clustering_analysis] (columns
    [location], [amount] and [customer_id]) returns [high_risk_percentage]
    and [cross_border_percentage]. *)
Theorem percentages_within_range {L : Libs} (now : Z) (w : World) :
  rows (table w) <> [] ->
  (has_column (table w) "amount" = true ->
   has_column (table w) "transaction_id" = true ->
   exists res s,
     fst (temporal_pattern_analysis now w) = Ok res /\
     summary res = TemporalSummary s /\
     (0 <= Temporal.unusual_hour_percentage s)%Q /\
     (Temporal.unusual_hour_percentage s <= 100)%Q /\
     (0 <= Temporal.velocity_abuse_percentage s)%Q /\
     (Temporal.velocity_abuse_percentage s <= 100)%Q) /\
  (has_column (table w) "location" = true ->
   has_column (table w) "amount" = true ->
   has_column (table w) "customer_id" = true ->
   exists res s,
     fst (geographic_clustering_analysis now w) = Ok res /\
     summary res = GeographicSummary s /\
     (0 <= Geographic.high_risk_percentage s)%Q /\
     (Geographic.high_risk_percentage s <= 100)%Q /\
     (0 <= Geographic.cross_border_percentage s)%Q /\
     (Geographic.cross_border_percentage s <= 100)%Q).
Proof.
  intros Hrows.
  assert (Hlen : (0 < len (table w))%nat).
  { unfold len. destruct (rows (table w)); [congruence | cbn; lia]. }
  split.
  - intros Ha Ht. rewrite temporal_pattern_analysis_run. cbn [fst].
    apply temporal_percentages; assumption.
  - intros Hl Ha Hc. rewrite geographic_clustering_analysis_run. cbn [fst].
    apply geographic_percentages; assumption.
Qed.

Lemma percentages_within_range_witness :
  (exists res s,
     fst (@temporal_pattern_analysis sample_libs 0
            (mkWorld new_engine critical_table)) = Ok res /\
     summary res = TemporalSummary s /\
     (0 <= Temporal.unusual_hour_percentage s)%Q /\
     (Temporal.unusual_hour_percentage s <= 100)%Q /\
     (0 <= Temporal.velocity_abuse_percentage s)%Q /\
     (Temporal.velocity_abuse_percentage s <= 100)%Q) /\
  (exists res s,
     fst (@geographic_clustering_analysis sample_libs 0
            (mkWorld new_engine critical_table)) = Ok res /\
     summary res = GeographicSummary s /\
     (0 <= Geographic.high_risk_percentage s)%Q /\
     (Geographic.high_risk_percentage s <= 100)%Q /\
     (0 <= Geographic.cross_border_percentage s)%Q /\
     (Geographic.cross_border_percentage s <= 100)%Q).
Proof.
  destruct (@percentages_within_range sample_libs 0
              (mkWorld new_engine critical_table)) as [Ht Hg].
  - discriminate.
  - split; [apply Ht | apply Hg]; reflexivity.
Defined.

(** C5 (as the claim has it) fails: on the empty table both analyses raise
    [ZeroDivisionError]; on a table without a [location] column the
    geographic summary is the error summary, which has no percentages; and
    without one of the columns it aggregates an analysis raises [KeyError]. *)
Lemma percentages_undefined :
  fst (@temporal_pattern_analysis sample_libs 0 (mkWorld new_engine empty_table))
    = Raise ZeroDivisionError /\
  fst (@geographic_clustering_analysis sample_libs 0
         (mkWorld new_engine empty_table)) = Raise ZeroDivisionError /\
  (exists res,
     fst (@geographic_clustering_analysis sample_libs 0
            (mkWorld new_engine no_location_table)) = Ok res /\
     summary res = ErrorSummary "No location data available") /\
  fst (@temporal_pattern_analysis sample_libs 0
         (mkWorld new_engine (one_row_table ["transaction_id"; "timestamp"])))
    = Raise (KeyError "amount") /\
  fst (@temporal_pattern_analysis sample_libs 0
         (mkWorld new_engine (one_row_table ["amount"; "timestamp"])))
    = Raise (KeyError "transaction_id") /\
  fst (@geographic_clustering_analysis sample_libs 0
         (mkWorld new_engine (one_row_table ["location"; "customer_id"])))
    = Raise (KeyError "amount") /\
  fst (@geographic_clustering_analysis sample_libs 0
         (mkWorld new_engine (one_row_table ["location"; "amount"])))
    = Raise (KeyError "customer_id").
Proof.
  split; [reflexivity|]. split; [reflexivity|].
  split; [eexists; split; reflexivity|].
  repeat split; reflexivity.
Qed.

(** The scores that enter the mean are those of the analyses, in report
    order, that returned with a risk level. *)
Lemma overall_risk_scores_of_completed (key : string)
  (o : result AnalyticsResult) :
  overall_risk_scores_of (completed key o) =
  match o with
  | Ok r => match summary_risk_level (summary r) with
            | Some level => [risk_score_of_level level]
            | None => []
            end
  | Raise _ => []
  end.
Proof.
  destruct o as [r|e]; cbn; [|reflexivity].
  destruct (summary_risk_level (summary r)); reflexivity.
Qed.

Lemma score_of_level (x : option string) :
  is_one_of ["LOW"; "MEDIUM"; "HIGH"] x ->
  exists s, match x with
            | Some level => [risk_score_of_level level]
            | None => []
            end = [s] /\ In s [25; 50; 75].
Proof.
  intros [l [-> Hl]]. cbn in Hl.
  destruct Hl as [<-|[<-|[<-|[]]]]; eexists; (split; [reflexivity|]);
    cbn; auto.
Qed.

(** C4 (as the code has it): the report holds the analyses that returned,
    and the aggregator maps the risk level of each of them that reports one
    to LOW=25, MEDIUM=50, HIGH=75, CRITICAL=100.  Network, temporal,
    behavioral and predictive analysis contribute one score each when they
    return; the geographic analysis contributes one when it returns on a
    table with a location column, and none when it returns its error
    summary.  The overall score is the arithmetic mean of the scores that
    were contributed, not of all analyses that returned; it is bucketed
    CRITICAL from 75, HIGH from 50, MEDIUM from 25, LOW below; with no score
    at all the level is UNKNOWN and the score 0. *)
Theorem aggregator_mean_of_ordinal_scores {L : Libs} (now : Z) (w : World) :
  let o1 := network_analysis now w in
  let o2 := temporal_pattern_analysis now (snd o1) in
  let o3 := geographic_clustering_analysis now (snd o2) in
  let o4 := behavioral_profiling now (snd o3) in
  let o5 := predictive_risk_modeling now (snd o4) in
  let score_of := fun o : result AnalyticsResult * World =>
    match fst o with
    | Ok r => match summary_risk_level (summary r) with
              | Some level => [risk_score_of_level level]
              | None => []
              end
    | Raise _ => []
    end in
  let scores :=
    score_of o1 ++ score_of o2 ++ score_of o3 ++ score_of o4 ++ score_of o5 in
  let mean := (inject_Z (Zsum scores) / Qofnat (length scores))%Q in
  risk_score_of_level "LOW" = 25 /\ risk_score_of_level "MEDIUM" = 50 /\
  risk_score_of_level "HIGH" = 75 /\ risk_score_of_level "CRITICAL" = 100 /\
  exists rep w',
    comprehensive_analysis_report now w = (Ok rep, w') /\
    results rep =
      completed "network" (fst o1) ++ completed "temporal" (fst o2) ++
      completed "geographic" (fst o3) ++ completed "behavioral" (fst o4) ++
      completed "predictive" (fst o5) /\
    let s := executive_summary rep in
    analyses_completed s = length (results rep) /\
    (forall o, In o [o1; o2; o4; o5] -> is_ok (fst o) = true ->
               exists x, score_of o = [x] /\ In x [25; 50; 75]) /\
    (is_ok (fst o3) = true ->
     if has_column (table w) "location"
     then exists x, score_of o3 = [x] /\ In x [25; 50; 75]
     else score_of o3 = []) /\
    (forall o, In o [o1; o2; o3; o4; o5] -> is_ok (fst o) = false ->
               score_of o = []) /\
    (length scores <= length (results rep))%nat /\
    (scores = [] ->
     overall_risk_level s = "UNKNOWN" /\ (overall_risk_score s == 0)%Q) /\
    (scores <> [] ->
     (overall_risk_score s == mean)%Q /\
     ((75 <= mean)%Q -> overall_risk_level s = "CRITICAL") /\
     ((50 <= mean)%Q /\ (mean < 75)%Q -> overall_risk_level s = "HIGH") /\
     ((25 <= mean)%Q /\ (mean < 50)%Q -> overall_risk_level s = "MEDIUM") /\
     ((mean < 25)%Q -> overall_risk_level s = "LOW")).
Proof.
  intros o1 o2 o3 o4 o5 score_of scores mean.
  repeat (split; [reflexivity|]).
  pose proof (comprehensive_analysis_report_run now w) as Hrun. cbv zeta in Hrun.
  fold o1 o2 o3 o4 o5 in Hrun.
  eexists. eexists. split; [exact Hrun|]. cbn [results executive_summary].
  split; [reflexivity|]. cbv zeta.
  unfold make_executive_summary.
  cbn [analyses_completed overall_risk_level overall_risk_score].
  split; [reflexivity|].
  assert (Hscores : overall_risk_scores_of
                      (completed "network" (fst o1) ++
                       completed "temporal" (fst o2) ++
                       completed "geographic" (fst o3) ++
                       completed "behavioral" (fst o4) ++
                       completed "predictive" (fst o5)) = scores).
  { rewrite !overall_risk_scores_app, !overall_risk_scores_of_completed.
    reflexivity. }
  rewrite Hscores.
  pose proof (@network_analysis_level L now w) as H1.
  pose proof (@temporal_pattern_analysis_level L now (snd o1)) as H2.
  pose proof (@geographic_clustering_analysis_level L now (snd o2)) as H3.
  pose proof (@behavioral_risk_level_of L now (snd o3)) as H4.
  pose proof (@predictive_risk_modeling_level L now (snd o4)) as H5.
  fold o1 in H1. fold o2 in H2. fold o3 in H3. fold o4 in H4. fold o5 in H5.
  split.
  { intros o Ho Hok. cbn [In] in Ho. unfold score_of.
    destruct Ho as [<-|[<-|[<-|[<-|[]]]]];
      match goal with
      | |- context [fst ?o] => destruct (fst o) as [r|e] eqn:E
      end; try discriminate; apply score_of_level; auto. }
  split.
  { intros Hok. unfold score_of.
    destruct (fst o3) as [r|e] eqn:E; [|discriminate].
    specialize (H3 r eq_refl).
    assert (Hloc : has_column (table (snd o2)) "location" =
                   has_column (table w) "location").
    { unfold o2. rewrite temporal_pattern_analysis_run. cbn [snd table].
      unfold o1. rewrite network_analysis_run. cbn [snd].
      rewrite has_column_add_time_features. apply orb_false_r. }
    rewrite Hloc in H3.
    destruct (has_column (table w) "location").
    - apply score_of_level. exact H3.
    - rewrite H3. reflexivity. }
  split.
  { intros o Ho Hok. cbn [In] in Ho. unfold score_of.
    destruct Ho as [<-|[<-|[<-|[<-|[<-|[]]]]]];
      match goal with
      | |- context [fst ?o] => destruct (fst o) as [r|e] eqn:E
      end; try discriminate; reflexivity. }
  split.
  { rewrite <- Hscores, overall_risk_scores_reported, length_map.
    unfold reported_risk_levels.
    match goal with |- context [flat_map _ ?x] => generalize x end.
    intros rs. induction rs as [|[k r] rs IH]; cbn [flat_map length snd];
      [lia|].
    rewrite length_app.
    destruct (summary_risk_level (summary r)); cbn [length]; lia. }
  clearbody scores. clear Hscores. split.
  - intros ->. cbn. split; reflexivity.
  - destruct scores as [|x l] eqn:E; [congruence|]. intros _.
    cbn [overall_risk fst snd]. split; [reflexivity|].
    unfold mean. clear mean.
    set (m := (inject_Z (Zsum (x :: l)) / Qofnat (length (x :: l)))%Q).
    destruct (Qle_bool 75 m) eqn:E75.
    { apply Qle_bool_iff in E75. repeat split; auto.
      - intros [_ H]. exfalso. apply (Qlt_not_le _ _ H). exact E75.
      - intros [_ H]. exfalso. apply (Qlt_not_le m 75); [|exact E75].
        eapply Qlt_trans; [exact H|reflexivity].
      - intros H. exfalso. apply (Qlt_not_le m 75); [|exact E75].
        eapply Qlt_trans; [exact H|reflexivity]. }
    apply Qle_bool_false in E75.
    destruct (Qle_bool 50 m) eqn:E50.
    { apply Qle_bool_iff in E50. repeat split; auto.
      - intros H. exfalso. apply (Qlt_not_le _ _ E75). exact H.
      - intros [_ H]. exfalso. apply (Qlt_not_le _ _ H). exact E50.
      - intros H. exfalso. apply (Qlt_not_le m 50); [|exact E50].
        eapply Qlt_trans; [exact H|reflexivity]. }
    apply Qle_bool_false in E50.
    destruct (Qle_bool 25 m) eqn:E25.
    { apply Qle_bool_iff in E25. repeat split; auto.
      - intros H. exfalso. apply (Qlt_not_le _ _ E75). exact H.
      - intros [H _]. exfalso. apply (Qlt_not_le _ _ E50). exact H.
      - intros H. exfalso. apply (Qlt_not_le _ _ H). exact E25. }
    apply Qle_bool_false in E25. repeat split; auto.
    + intros H. exfalso. apply (Qlt_not_le _ _ E75). exact H.
    + intros [H _]. exfalso. apply (Qlt_not_le _ _ E50). exact H.
    + intros [H _]. exfalso. apply (Qlt_not_le _ _ E25). exact H.
Qed.

(** C4 (as the claim has it) fails: for one weekend payment in a table
    without a location column three analyses return (network, temporal and
    the geographic one with its error summary), but only two scores, 25 and
    50, are averaged: the overall score is 37.5, which is not the mean of
    three scores whatever ordinal score the third analysis were given. *)
Lemma mean_leaves_out_geographic :
  exists rep w',
    @comprehensive_analysis_report sample_libs 0
      (mkWorld new_engine weekend_no_location_table) = (Ok rep, w') /\
    map fst (results rep) = ["network"; "temporal"; "geographic"] /\
    analyses_completed (executive_summary rep) = 3%nat /\
    reported_risk_levels (results rep) = ["LOW"; "MEDIUM"] /\
    (overall_risk_score (executive_summary rep) == (25 + 50) / 2)%Q /\
    overall_risk_level (executive_summary rep) = "MEDIUM" /\
    ~ (overall_risk_score (executive_summary rep) == (25 + 50 + 25) / 3)%Q /\
    ~ (overall_risk_score (executive_summary rep) == (25 + 50 + 50) / 3)%Q /\
    ~ (overall_risk_score (executive_summary rep) == (25 + 50 + 75) / 3)%Q /\
    ~ (overall_risk_score (executive_summary rep) == (25 + 50 + 100) / 3)%Q.
Proof.
  eexists. eexists. split; [vm_compute; reflexivity|].
  repeat split; try reflexivity; intros H; vm_compute in H; discriminate.
Qed.

(** ** The caller's table *)

Lemma add_column_present (cols : list string) (c : string) :
  mem_str c cols = true -> add_column cols c = cols.
Proof. unfold add_column. intros ->. reflexivity. Qed.

Lemma add_columns_present (cs cols : list string) :
  forallb (fun c => mem_str c cols) cs = true ->
  fold_left add_column cs cols = cols.
Proof.
  induction cs as [|c cs IH]; cbn [fold_left forallb]; [reflexivity|].
  intros H. apply andb_true_iff in H. destruct H as [Hc Hcs].
  rewrite (add_column_present _ _ Hc). apply IH. exact Hcs.
Qed.

Lemma set_time_features_idempotent (r : Row) :
  set_time_features (set_time_features r) = set_time_features r.
Proof. reflexivity. Qed.

Lemma add_time_features_idempotent (now1 now2 : Z) (df : DataFrame) :
  add_time_features now2 (add_time_features now1 df) = add_time_features now1 df.
Proof.
  set (df1 := add_time_features now1 df).
  assert (Hcols : forall c,
            mem_str c ["timestamp"; "hour"; "day_of_week"; "day_of_month"; "month"]
              = true -> has_column df1 c = true).
  { intros c Hc. unfold df1. rewrite has_column_add_time_features, Hc.
    apply orb_true_r. }
  unfold add_time_features at 1. rewrite (Hcols "timestamp" eq_refl).
  unfold assign. rewrite add_columns_present.
  - assert (Hrows : map set_time_features (rows df1) = rows df1).
    { unfold df1, add_time_features, assign.
      destruct (has_column df "timestamp"); cbn [rows];
        rewrite !map_map; apply map_ext; intros r; reflexivity. }
    rewrite Hrows. destruct df1; reflexivity.
  - cbn [forallb]. unfold has_column in Hcols.
    rewrite !Hcols by reflexivity. reflexivity.
Qed.

Lemma add_time_features_new_column (now : Z) (df : DataFrame) :
  has_column df "hour" = false -> add_time_features now df <> df.
Proof.
  intros Hno Heq.
  assert (H : has_column (add_time_features now df) "hour" = true).
  { rewrite has_column_add_time_features. apply orb_true_r. }
  rewrite Heq in H. congruence.
Qed.

(** C6, on the code: [temporal_pattern_analysis] writes its derived columns
    into the table it was handed.  On the table of three customers the
    caller's table has four more columns after the call; in general the
    table afterwards is the table with the time features assigned, which
    differs from the input whenever that had no [hour] column.  The other
    four analyzers return with the table as it was. *)
Theorem temporal_pattern_analysis_mutates_table :
  columns (table (snd (@temporal_pattern_analysis sample_libs 0
                         (mkWorld new_engine star_table)))) =
    all_columns ++ ["hour"; "day_of_week"; "day_of_month"; "month"] /\
  (forall (L : Libs) (now : Z) (w : World),
     table (snd (temporal_pattern_analysis now w)) =
       add_time_features now (table w) /\
     (has_column (table w) "hour" = false ->
      table (snd (temporal_pattern_analysis now w)) <> table w) /\
     table (snd (network_analysis now w)) = table w /\
     table (snd (geographic_clustering_analysis now w)) = table w /\
     table (snd (behavioral_profiling now w)) = table w /\
     table (snd (predictive_risk_modeling now w)) = table w).
Proof.
  split; [reflexivity|]. intros L now w.
  rewrite temporal_pattern_analysis_run. cbn [snd table].
  split; [reflexivity|]. split; [apply add_time_features_new_column|].
  split; [reflexivity|]. split; [reflexivity|].
  split; [apply behavioral_profiling_table | reflexivity].
Qed.

(** ** Repeated calls *)

Lemma same_outcome_result (now1 now2 : Z) (kind : string) (s : Summary)
  (d : Details) (v rec : list string) :
  same_outcome (Ok (mkAnalyticsResult kind now1 s d v rec))
               (Ok (mkAnalyticsResult kind now2 s d v rec)).
Proof. cbn. repeat split; reflexivity. Qed.

Lemma same_outcome_raise (e : exn) : same_outcome (Raise e) (Raise e).
Proof. reflexivity. Qed.

(** Split the outcome on the next step that may raise. *)
Ltac step_both :=
  cbn [bind result_monad]; cbv zeta;
  match goal with
  | |- same_outcome (match ?c with _ => _ end) (match ?c with _ => _ end) =>
      destruct c; [|apply same_outcome_raise]
  end.

Section Repeat.
Context {L : Libs}.
Variables now1 now2 : Z.

Lemma build_graph_clock (df : DataFrame) :
  has_column df "timestamp" = true \/ now1 = now2 ->
  build_graph now1 df = build_graph now2 df.
Proof.
  intros [H| ->]; [|reflexivity].
  unfold build_graph. generalize empty_graph.
  induction (rows df) as [|r rs IH]; intros G; cbn [add_transactions];
    [reflexivity|].
  assert (E : add_transaction now1 df G r = add_transaction now2 df G r).
  { unfold add_transaction, edge_timestamp, row_get. rewrite H. reflexivity. }
  rewrite E. destruct (add_transaction now2 df G r); cbn [bind result_monad];
    [apply IH | reflexivity].
Qed.

Lemma network_repeat (df : DataFrame) :
  has_column df "timestamp" = true \/ now1 = now2 ->
  same_outcome (network_analysis_on now1 df) (network_analysis_on now2 df).
Proof.
  intros H. unfold network_analysis_on. rewrite (build_graph_clock df H).
  step_both. step_both. apply same_outcome_result.
Qed.

Lemma temporal_repeat (df : DataFrame) :
  same_outcome (temporal_pattern_analysis_on now1 df)
               (temporal_pattern_analysis_on now2 df).
Proof.
  unfold temporal_pattern_analysis_on.
  do 9 step_both. apply same_outcome_result.
Qed.

Lemma geographic_repeat (df : DataFrame) :
  same_outcome (geographic_clustering_analysis_on now1 df)
               (geographic_clustering_analysis_on now2 df).
Proof.
  unfold geographic_clustering_analysis_on.
  destruct (negb (has_column df "location")); [apply same_outcome_result|].
  do 4 step_both. apply same_outcome_result.
Qed.

Lemma behavioral_report_repeat (df : DataFrame) found :
  same_outcome (behavioral_report now1 df found)
               (behavioral_report now2 df found).
Proof.
  unfold behavioral_report. cbv zeta.
  do 4 step_both. apply same_outcome_result.
Qed.

Lemma predictive_repeat (df : DataFrame) :
  same_outcome (predictive_risk_modeling_on now1 df)
               (predictive_risk_modeling_on now2 df).
Proof.
  unfold predictive_risk_modeling_on.
  do 6 step_both. apply same_outcome_result.
Qed.

(** What [customer_behavior] finds depends on the engine through the
    forest's hyperparameters only. *)
Lemma customer_behavior_found (df : DataFrame) (w1 w2 : World) :
  contamination (isolation_forest (engine w1)) =
    contamination (isolation_forest (engine w2)) ->
  random_state (isolation_forest (engine w1)) =
    random_state (isolation_forest (engine w2)) ->
  fst (customer_behavior df w1) = fst (customer_behavior df w2).
Proof.
  intros Hc Hr. rewrite !customer_behavior_run.
  destruct (has_column df "customer_id"); [|reflexivity].
  destruct (profile_columns df); [|reflexivity].
  cbv zeta. destruct (Nat.ltb 5 _); [|reflexivity].
  cbn [fst]. unfold outliers. rewrite Hc, Hr. reflexivity.
Qed.

Lemma customer_behavior_hyperparameters (df : DataFrame) (w : World) :
  let w' := snd (customer_behavior df w) in
  contamination (isolation_forest (engine w')) =
    contamination (isolation_forest (engine w)) /\
  random_state (isolation_forest (engine w')) =
    random_state (isolation_forest (engine w)).
Proof.
  cbv zeta. rewrite customer_behavior_run.
  destruct (has_column df "customer_id"); [|split; reflexivity].
  destruct (profile_columns df); [|split; reflexivity].
  cbv zeta. destruct (Nat.ltb 5 _); split; reflexivity.
Qed.

Lemma behavioral_outcome (df : DataFrame) (w1 w2 : World) :
  table w1 = df -> table w2 = df ->
  contamination (isolation_forest (engine w1)) =
    contamination (isolation_forest (engine w2)) ->
  random_state (isolation_forest (engine w1)) =
    random_state (isolation_forest (engine w2)) ->
  same_outcome (fst (behavioral_profiling now1 w1))
               (fst (behavioral_profiling now2 w2)).
Proof.
  intros T1 T2 Hc Hr. rewrite !behavioral_profiling_run, T1, T2.
  pose proof (customer_behavior_found df w1 w2 Hc Hr) as Hf.
  destruct (customer_behavior df w1) as [[f1|e1] w1'],
           (customer_behavior df w2) as [[f2|e2] w2'];
    cbn [fst] in Hf |- *; try discriminate; inversion Hf; subst.
  - apply behavioral_report_repeat.
  - apply same_outcome_raise.
Qed.
End Repeat.

(** C9: calling an analyzer a second time, in the world the first call
    left (its table, the fitted scaler and forest), yields the same outcome
    as the first call, up to the result's own timestamp.  The two calls may
    read different instants when the table has a [timestamp] column; without
    it the instant, which then stands in for the timestamps, is the same.
    The outcome of [behavioral_profiling] depends on the engine only through
    the forest's contamination rate and seed, which no call changes: what an
    earlier call fitted has no influence. *)
Theorem analyzers_repeatable {L : Libs} (now1 now2 : Z) (w : World) :
  has_column (table w) "timestamp" = true \/ now1 = now2 ->
  (let first := network_analysis now1 w in
   same_outcome (fst first) (fst (network_analysis now2 (snd first)))) /\
  (let first := temporal_pattern_analysis now1 w in
   same_outcome (fst first) (fst (temporal_pattern_analysis now2 (snd first)))) /\
  (let first := geographic_clustering_analysis now1 w in
   same_outcome (fst first)
                (fst (geographic_clustering_analysis now2 (snd first)))) /\
  (let first := behavioral_profiling now1 w in
   same_outcome (fst first) (fst (behavioral_profiling now2 (snd first)))) /\
  (let first := predictive_risk_modeling now1 w in
   same_outcome (fst first) (fst (predictive_risk_modeling now2 (snd first)))) /\
  (forall e : Engine,
     contamination (isolation_forest e) =
       contamination (isolation_forest (engine w)) ->
     random_state (isolation_forest e) =
       random_state (isolation_forest (engine w)) ->
     same_outcome (fst (behavioral_profiling now1 w))
                  (fst (behavioral_profiling now1 (mkWorld e (table w))))).
Proof.
  intros Hclock. cbv zeta.
  split; [|split; [|split; [|split; [|split]]]].
  - rewrite !network_analysis_run. cbn [fst snd]. apply network_repeat. exact Hclock.
  - rewrite !temporal_pattern_analysis_run. cbn [fst snd table].
    rewrite add_time_features_idempotent. apply temporal_repeat.
  - rewrite !geographic_clustering_analysis_run. cbn [fst snd].
    apply geographic_repeat.
  - apply (@behavioral_outcome L now1 now2 (table w)).
    + reflexivity.
    + apply behavioral_profiling_table.
    + rewrite behavioral_profiling_run.
      pose proof (customer_behavior_hyperparameters (table w) w) as H. cbv zeta in H.
      destruct (customer_behavior (table w) w) as [[f|e] w']; cbn [snd] in *;
        symmetry; apply H.
    + rewrite behavioral_profiling_run.
      pose proof (customer_behavior_hyperparameters (table w) w) as H. cbv zeta in H.
      destruct (customer_behavior (table w) w) as [[f|e] w']; cbn [snd] in *;
        symmetry; apply H.
  - rewrite !predictive_risk_modeling_run. cbn [fst snd]. apply predictive_repeat.
  - intros e Hc Hr. apply (@behavioral_outcome L now1 now1 (table w));
      try reflexivity; cbn [engine]; congruence.
Qed.

Lemma analyzers_repeatable_witness :
  let w := @mkWorld sample_libs new_engine critical_table in
  let first := @temporal_pattern_analysis sample_libs 0 w in
  same_outcome (fst first)
               (fst (@temporal_pattern_analysis sample_libs 7 (snd first))) /\
  is_ok (fst first) = true.
Proof.
  cbv zeta. split; [|reflexivity].
  destruct (@analyzers_repeatable sample_libs 0 7
              (@mkWorld sample_libs new_engine critical_table))
    as (_ & H & _).
  - left. reflexivity.
  - exact H.
Defined.

(** ** Connected components: the closure needs no more rounds *)

Lemma mem_str_In (x : string) (l : list string) : mem_str x l = true <-> In x l.
Proof.
  unfold mem_str. rewrite existsb_exists. split.
  - intros [y [Hy E]]. apply String.eqb_eq in E. subst. exact Hy.
  - intros H. exists x. split; [exact H | apply String.eqb_refl].
Qed.

Lemma mem_str_not_In (x : string) (l : list string) :
  mem_str x l = false <-> ~ In x l.
Proof. rewrite <- mem_str_In. destruct (mem_str x l); split; congruence. Qed.

Lemma in_neighbors (G : DiGraph) (x y : string) :
  In y (neighbors G x) <->
  exists e, In e (edges G) /\
            ((edge_source e = x /\ edge_target e = y) \/
             (edge_target e = x /\ edge_source e = y)).
Proof.
  unfold neighbors. rewrite in_flat_map. split.
  - intros [e [He Hy]]. exists e. split; [exact He|].
    apply in_app_or in Hy. destruct Hy as [Hy|Hy].
    + destruct (String.eqb_spec (edge_source e) x); [|destruct Hy].
      destruct Hy as [<-|[]]. left. auto.
    + destruct (String.eqb_spec (edge_target e) x); [|destruct Hy].
      destruct Hy as [<-|[]]. right. auto.
  - intros [e [He [[<- <-]|[<- <-]]]]; exists e; split; auto; apply in_or_app.
    + left. rewrite String.eqb_refl. left. reflexivity.
    + right. rewrite String.eqb_refl. left. reflexivity.
Qed.

Lemma neighbors_are_nodes (G : DiGraph) (x y : string) :
  well_formed G -> In y (neighbors G x) -> In y (nodes G).
Proof.
  intros Hwf Hy. apply in_neighbors in Hy.
  destruct Hy as [e [He [[_ <-]|[_ <-]]]]; apply (Hwf e He).
Qed.

Lemma neighbors_sym (G : DiGraph) (x y : string) :
  In y (neighbors G x) -> In x (neighbors G y).
Proof.
  rewrite !in_neighbors. intros [e [He H]]. exists e. split; [exact He|]. tauto.
Qed.

Lemma reach_expand (k : nat) (G : DiGraph) (S : list string) :
  reach (Datatypes.S k) G S = reach k G (expand G S).
Proof. reflexivity. Qed.

Lemma in_expand (G : DiGraph) (S : list string) (y : string) :
  In y (expand G S) <-> In y S \/ exists x, In x S /\ In y (neighbors G x).
Proof.
  unfold expand. rewrite in_app_iff, filter_In, in_flat_map. split.
  - intros [H|[H _]]; auto.
  - intros [H|H]; [auto|].
    destruct (mem_str y S) eqn:E.
    + left. apply mem_str_In. exact E.
    + right. split; [exact H|]. reflexivity.
Qed.

Lemma closedb_closed (G : DiGraph) (S : list string) :
  closedb G S = true <-> closed G S.
Proof.
  unfold closedb, closed. rewrite forallb_forall. split.
  - intros H x y Hx Hy. specialize (H x Hx). rewrite forallb_forall in H.
    apply mem_str_In. apply H. exact Hy.
  - intros H x Hx. apply forallb_forall. intros y Hy.
    apply mem_str_In. eapply H; eauto.
Qed.

Lemma forallb_false {A} (f : A -> bool) (l : list A) :
  forallb f l = false -> exists x, In x l /\ f x = false.
Proof.
  induction l as [|a l IH]; cbn; [discriminate|].
  destruct (f a) eqn:E; cbn.
  - intros H. destruct (IH H) as [x [Hx Hf]]. exists x. auto.
  - intros _. exists a. auto.
Qed.

Lemma not_closed_missing (G : DiGraph) (S : list string) :
  closedb G S = false ->
  exists x y, In x S /\ In y (neighbors G x) /\ ~ In y S.
Proof.
  unfold closedb. intros H. apply forallb_false in H.
  destruct H as [x [Hx H]]. apply forallb_false in H.
  destruct H as [y [Hy H]]. exists x, y. repeat split; auto.
  apply mem_str_not_In. exact H.
Qed.

Lemma filter_nil {A} (f : A -> bool) (l : list A) :
  (forall x, In x l -> f x = false) -> filter f l = [].
Proof.
  induction l as [|a l IH]; cbn; [reflexivity|]. intros H.
  rewrite (H a (or_introl eq_refl)). apply IH. intros x Hx. apply H. auto.
Qed.

Lemma expand_of_closed (G : DiGraph) (S : list string) :
  closed G S -> expand G S = S.
Proof.
  intros Hc. unfold expand. rewrite filter_nil; [apply app_nil_r|].
  intros y Hy. apply in_flat_map in Hy. destruct Hy as [x [Hx Hn]].
  apply negb_false_iff, mem_str_In. eapply Hc; eauto.
Qed.

Lemma reach_of_closed (k : nat) (G : DiGraph) (S : list string) :
  closed G S -> reach k G S = S.
Proof.
  intros Hc. induction k as [|k IH]; [reflexivity|].
  rewrite reach_expand, expand_of_closed; assumption.
Qed.

Lemma reach_incl (k : nat) (G : DiGraph) (S : list string) :
  incl S (reach k G S).
Proof.
  revert S. induction k as [|k IH]; intros S; [apply incl_refl|].
  rewrite reach_expand. eapply incl_tran; [|apply IH].
  intros x Hx. apply in_expand. auto.
Qed.

Lemma covered_le (N S : list string) : (covered N S <= length N)%nat.
Proof. unfold covered. apply filter_length_le'. Qed.

Lemma covered_strict (N S S' : list string) (y : string) :
  incl S S' -> In y N -> ~ In y S -> In y S' ->
  (covered N S < covered N S')%nat.
Proof.
  intros Hincl HyN HyS HyS'. unfold covered.
  assert (Hle : forall l, (length (filter (fun x => mem_str x S) l) <=
                           length (filter (fun x => mem_str x S') l))%nat).
  { induction l as [|a l IH]; cbn; [lia|].
    destruct (mem_str a S) eqn:E.
    - apply mem_str_In in E. apply Hincl in E. apply mem_str_In in E.
      rewrite E. cbn. lia.
    - destruct (mem_str a S'); cbn; lia. }
  induction N as [|a N IH]; [destruct HyN|]. cbn.
  destruct HyN as [->|HyN].
  - apply mem_str_not_In in HyS. apply mem_str_In in HyS'.
    rewrite HyS, HyS'. cbn. specialize (Hle N). lia.
  - specialize (IH HyN). destruct (mem_str a S) eqn:E.
    + apply mem_str_In in E. apply Hincl in E. apply mem_str_In in E.
      rewrite E. cbn. lia.
    + destruct (mem_str a S'); cbn; lia.
Qed.

Lemma expand_within (G : DiGraph) (S : list string) :
  well_formed G -> incl S (nodes G) -> incl (expand G S) (nodes G).
Proof.
  intros Hwf Hs y Hy. apply in_expand in Hy.
  destruct Hy as [Hy|[x [_ Hn]]]; [auto|]. eapply neighbors_are_nodes; eauto.
Qed.

(** Each round either finds the set closed or covers one more node. *)
Lemma reach_progress (G : DiGraph) (k : nat) :
  well_formed G ->
  forall S, incl S (nodes G) ->
    closed G (reach k G S) \/
    (covered (nodes G) S + k <= covered (nodes G) (reach k G S))%nat.
Proof.
  intros Hwf. induction k as [|k IH]; intros S Hs.
  - right. cbn. lia.
  - rewrite reach_expand. destruct (closedb G S) eqn:E.
    + left. apply closedb_closed in E.
      rewrite (expand_of_closed E), (reach_of_closed k E). exact E.
    + apply not_closed_missing in E. destruct E as [x [y [Hx [Hn Hy]]]].
      assert (Hlt : (covered (nodes G) S < covered (nodes G) (expand G S))%nat).
      { apply covered_strict with (y := y).
        - intros z Hz. apply in_expand. auto.
        - eapply neighbors_are_nodes; eauto.
        - exact Hy.
        - apply in_expand. right. eauto. }
      destruct (IH (expand G S) (expand_within Hwf Hs)) as [Hc|Hc]; [auto|].
      right. lia.
Qed.

(** As many rounds as there are nodes close the set. *)
Lemma reach_closed (G : DiGraph) (v : string) :
  well_formed G -> In v (nodes G) ->
  closed G (reach (number_of_nodes G) G [v]).
Proof.
  intros Hwf Hv.
  destruct (@reach_progress G (number_of_nodes G) Hwf [v]) as [Hc|Hc]; [|exact Hc|].
  - intros x [<-|[]]. exact Hv.
  - exfalso.
    assert (H1 : (1 <= covered (nodes G) [v])%nat).
    { unfold covered. clear Hc. induction (nodes G) as [|a N IH]; [destruct Hv|].
      cbn [filter]. destruct Hv as [->|Hv].
      - assert (E : mem_str v [v] = true) by (apply mem_str_In; left; reflexivity).
        rewrite E. cbn [length]. lia.
      - specialize (IH Hv). destruct (mem_str a [v]); cbn [length]; lia. }
    pose proof (covered_le (nodes G) (reach (number_of_nodes G) G [v])) as H2.
    unfold number_of_nodes in *. lia.
Qed.

Lemma reach_linked (G : DiGraph) (v : string) (k : nat) :
  forall S, (forall x, In x S -> linked G v x) ->
            forall x, In x (reach k G S) -> linked G v x.
Proof.
  induction k as [|k IH]; intros S HS x Hx; [auto|].
  rewrite reach_expand in Hx. apply (IH (expand G S)); [|exact Hx].
  intros y Hy. apply in_expand in Hy. destruct Hy as [Hy|[z [Hz Hn]]]; [auto|].
  eapply linked_step; eauto.
Qed.

(** [component G v] is the connected component of [v] in the undirected
    graph: exactly the nodes linked to [v]. *)
Lemma component_linked (G : DiGraph) (v x : string) :
  well_formed G -> In v (nodes G) ->
  (In x (component G v) <-> linked G v x).
Proof.
  intros Hwf Hv. unfold component. rewrite filter_In, mem_str_In. split.
  - intros [_ Hx]. apply (@reach_linked G v (number_of_nodes G) [v]); [|exact Hx].
    intros y [<-|[]]. constructor.
  - intros Hl. induction Hl as [|x y Hl [IHn IHr] Hn].
    + split; [exact Hv|]. apply (reach_incl (number_of_nodes G) G). left. reflexivity.
    + split; [eapply neighbors_are_nodes; eauto|].
      eapply (@reach_closed G v Hwf Hv); eauto.
Qed.

(** The graphs that [build_graph] returns are well formed. *)
Lemma add_node_In (ns : list string) (u x : string) :
  In x (add_node ns u) <-> In x ns \/ x = u.
Proof.
  unfold add_node. destruct (mem_str u ns) eqn:E.
  - apply mem_str_In in E. split; [auto|]. intros [H| ->]; auto.
  - rewrite in_app_iff. cbn. split.
    + intros [H|[<-|[]]]; auto.
    + intros [H| ->]; auto.
Qed.

Lemma add_transactions_well_formed {L : Libs} (now : Z) (df : DataFrame)
  (rs : list Row) :
  forall G G', well_formed G -> add_transactions now df G rs = Ok G' ->
               well_formed G'.
Proof.
  induction rs as [|r rs IH]; intros G G' Hwf H; cbn [add_transactions] in H.
  - inversion H; subst. exact Hwf.
  - apply bind_ok in H. destruct H as [G1 [H1 H]].
    apply (IH G1 G'); [|exact H]. clear IH H.
    unfold add_transaction in H1.
    destruct (source_key df r) as [u|], (target_key df r) as [v|];
      cbn [has_edge add_edge accumulate_edge] in H1; try discriminate.
    destruct (existsb (is_edge u v) (edges G)) eqn:E; inversion H1; subst; clear H1.
    + intros e He. cbn [edges nodes] in *. apply in_map_iff in He.
      destruct He as [e0 [<- He0]]. unfold update_edge.
      destruct (is_edge u v e0); apply (Hwf e0 He0).
    + intros e He. cbn [edges nodes] in *.
      apply in_app_or in He. rewrite !add_node_In.
      destruct He as [He|[<-|[]]].
      * destruct (Hwf e He). auto.
      * cbn. auto.
Qed.

Lemma build_graph_well_formed {L : Libs} (now : Z) (df : DataFrame) (G : DiGraph) :
  build_graph now df = Ok G -> well_formed G.
Proof.
  apply add_transactions_well_formed. intros e [].
Qed.

(** In the graph of a table, the component computed for a node is the set
    of nodes linked to it. *)
Lemma component_of_built_graph {L : Libs} (now : Z) (df : DataFrame)
  (G : DiGraph) (v x : string) :
  build_graph now df = Ok G -> In v (nodes G) ->
  (In x (component G v) <-> linked G v x).
Proof.
  intros HG Hv. apply component_linked; [|exact Hv].
  eapply build_graph_well_formed. exact HG.
Qed.

(** * Further properties *)

(** ** Building the graph: errors and totals *)

Section GraphErrors.
Context {L : Libs}.
Variables (now : Z) (df : DataFrame).

Lemma add_transaction_keys (G : DiGraph) (r : Row) :
  if keys_present df r
  then exists G', add_transaction now df G r = Ok G'
  else add_transaction now df G r = Raise (ValueError "None cannot be a node").
Proof.
  unfold keys_present, add_transaction.
  destruct (source_key df r) as [u|], (target_key df r) as [v|];
    cbn [has_edge add_edge]; try reflexivity.
  destruct (existsb (is_edge u v) (edges G)); eauto.
Qed.

Lemma add_transactions_keys (rs : list Row) :
  forall G,
    if forallb (keys_present df) rs
    then exists G', add_transactions now df G rs = Ok G'
    else add_transactions now df G rs = Raise (ValueError "None cannot be a node").
Proof.
  induction rs as [|r rs IH]; intros G; cbn [forallb add_transactions].
  - eauto.
  - pose proof (add_transaction_keys G r) as Hr.
    destruct (keys_present df r); cbn [andb].
    + destruct Hr as [G1 ->]. cbn [bind result_monad]. apply IH.
    + rewrite Hr. reflexivity.
Qed.
End GraphErrors.

Lemma forallb_false_exists {A} (f : A -> bool) (l : list A) :
  forallb f l = false <-> exists x, In x l /\ f x = false.
Proof.
  split.
  - apply forallb_false.
  - intros [x [Hx Hf]]. destruct (forallb f l) eqn:E; [|reflexivity].
    rewrite forallb_forall in E. rewrite (E x Hx) in Hf. discriminate.
Qed.

(** X1: on a table whose customer and merchant cells are strings or Python's
    [None] (a float NaN, which networkx takes as a node like any other
    value, is not among the table's cells), [network_analysis] builds its
    graph exactly when no transaction has [None] as customer or merchant
    key; when one has, the analysis raises [ValueError] ("None cannot be a
    node").  With the graph built, the analysis returns unless the table
    has rows and PageRank fails to converge on the graph. *)
Theorem network_analysis_outcome {L : Libs} (now : Z) (w : World) :
  ((exists r, In r (rows (table w)) /\ keys_present (table w) r = false) ->
   build_graph now (table w) = Raise (ValueError "None cannot be a node") /\
   fst (network_analysis now w) = Raise (ValueError "None cannot be a node")) /\
  ((forall r, In r (rows (table w)) -> keys_present (table w) r = true) ->
   exists G,
     build_graph now (table w) = Ok G /\
     (number_of_nodes G = 0%nat <-> rows (table w) = []) /\
     (is_ok (fst (network_analysis now w)) = true <->
      rows (table w) = [] \/ is_ok (nx_pagerank G) = true)).
Proof.
  rewrite network_analysis_run. cbn [fst]. unfold network_analysis_on.
  pose proof (add_transactions_keys now (table w) (rows (table w)) empty_graph) as H.
  fold (build_graph now (table w)) in H.
  split.
  - intros Hnull. apply forallb_false_exists in Hnull. rewrite Hnull in H.
    rewrite H. split; reflexivity.
  - intros Hall. apply forallb_forall in Hall. rewrite Hall in H.
    destruct H as [G HG]. exists G. split; [exact HG|].
    assert (Hnodes : number_of_nodes G = 0%nat <-> rows (table w) = []).
    { unfold build_graph in HG. destruct (rows (table w)) as [|r rs] eqn:Er.
      - inversion HG; subst. split; reflexivity.
      - split; [|discriminate]. intros Hz. exfalso.
        cbn [add_transactions] in HG. apply bind_ok in HG.
        destruct HG as [G1 [H1 HG]].
        assert (Hwf1 : exists x, In x (nodes G1)).
        { unfold add_transaction in H1.
          destruct (source_key (table w) r) as [u|], (target_key (table w) r) as [v|];
            cbn [has_edge add_edge accumulate_edge empty_graph edges existsb] in H1;
            try discriminate.
          inversion H1; subst. cbn [nodes]. exists u.
          apply add_node_In. left. apply add_node_In. right. reflexivity. }
        destruct Hwf1 as [x Hx].
        assert (Hkeep : forall rs G1 G2, add_transactions now (table w) G1 rs = Ok G2 ->
                                         incl (nodes G1) (nodes G2)).
        { clear. induction rs as [|r rs IH]; intros G1 G2 H; cbn [add_transactions] in H.
          - inversion H; subst. apply incl_refl.
          - apply bind_ok in H. destruct H as [G' [H1 H]].
            eapply incl_tran; [|apply (IH _ _ H)].
            unfold add_transaction in H1.
            destruct (source_key (table w) r) as [u|], (target_key (table w) r) as [v|];
              cbn [has_edge add_edge accumulate_edge] in H1; try discriminate.
            destruct (existsb (is_edge u v) (edges G1)); inversion H1; subst;
              cbn [nodes]; [apply incl_refl|].
            intros y Hy. apply add_node_In. left. apply add_node_In. left. exact Hy. }
        apply (Hkeep _ _ _ HG) in Hx. unfold number_of_nodes in Hz.
        destruct (nodes G); [destruct Hx | discriminate]. }
    split; [exact Hnodes|].
    rewrite HG. cbn [bind result_monad]. cbv zeta.
    destruct (Nat.ltb 0 (number_of_nodes G)) eqn:En.
    + apply Nat.ltb_lt in En.
      destruct (nx_pagerank G) as [pr|e]; cbn [bind result_monad is_ok].
      * split; auto.
      * split; [discriminate|]. intros [Hr|Hr]; [|discriminate].
        apply Hnodes in Hr. lia.
    + apply Nat.ltb_ge in En. cbn [bind result_monad is_ok].
      split; [|reflexivity]. intros _. left. apply Hnodes. lia.
Qed.

(** ** When the analyzers return and when they raise *)

Lemma require_cases (df : DataFrame) (c : string) :
  require df c = if has_column df c then Ok tt else Raise (KeyError c).
Proof. reflexivity. Qed.

Lemma percentage_empty (count : nat) (df : DataFrame) :
  rows df = [] -> percentage count (len df) = Raise ZeroDivisionError.
Proof. unfold len. intros ->. reflexivity. Qed.

Lemma len_pos (df : DataFrame) : rows df <> [] -> (0 < len df)%nat.
Proof. unfold len. destruct (rows df); [congruence | cbn; lia]. Qed.

Lemma rows_add_time_features_nil (now : Z) (df : DataFrame) :
  rows (add_time_features now df) = [] <-> rows df = [].
Proof.
  pose proof (len_add_time_features now df) as H. unfold len in H.
  destruct (rows (add_time_features now df)), (rows df); cbn in H;
    split; intros; congruence.
Qed.

(** The first column of [cols] that the table lacks, if any. *)
Lemma has_columns_false (df : DataFrame) (cols : list string) :
  has_columns df cols = false ->
  exists pre c post,
    cols = pre ++ c :: post /\ has_columns df pre = true /\
    has_column df c = false.
Proof.
  unfold has_columns. induction cols as [|a cols IH]; cbn; [discriminate|].
  destruct (has_column df a) eqn:Ea; cbn.
  - intros H. destruct (IH H) as (pre & c & post & -> & Hpre & Hc).
    exists (a :: pre), c, post. cbn. rewrite Ea, Hpre. auto.
  - intros _. exists [], a, cols. auto.
Qed.

Ltac run_requires :=
  rewrite ?require_cases;
  repeat match goal with
         | H : has_column _ _ = _ |- _ => rewrite H
         end;
  cbn [bind result_monad negb].

Ltac columns_of H :=
  unfold has_columns in H; cbn [forallb] in H;
  repeat match type of H with
         | andb _ _ = true =>
             let H1 := fresh "Hc" in
             apply andb_prop in H; destruct H as [H1 H]
         end.

(** X2: on a table whose [timestamp] column, if it has one, holds datetimes
    (the table [demonstrate_advanced_analytics] builds, and the one the
    handlers of [main.py] build for an upload without that column; a column
    of date strings, as [read_csv] leaves it, is not a table of this model:
    on it [.diff().dt] at line 194 raises), [temporal_pattern_analysis]
    returns a result exactly when the table has an [amount] and a
    [transaction_id] column and at least one row.  When one of the two
    columns is missing the aggregation raises [KeyError] for it; with both
    columns and no row the percentages raise [ZeroDivisionError]. *)
Theorem temporal_pattern_analysis_outcome {L : Libs} (now : Z) (w : World) :
  let outcome := fst (temporal_pattern_analysis now w) in
  let needed := ["amount"; "transaction_id"] in
  (has_columns (table w) needed = false ->
   missing_column (table w) needed outcome) /\
  (has_columns (table w) needed = true -> rows (table w) = [] ->
   outcome = Raise ZeroDivisionError) /\
  (is_ok outcome = true <->
   has_columns (table w) needed = true /\ rows (table w) <> []).
Proof.
  cbv zeta. rewrite temporal_pattern_analysis_run. cbn [fst].
  set (df' := add_time_features now (table w)).
  assert (Hcol : forall c, has_column df' c =
            orb (has_column (table w) c)
                (mem_str c ["timestamp"; "hour"; "day_of_week"; "day_of_month";
                            "month"])).
  { intros c. apply has_column_add_time_features. }
  assert (A1 : has_columns (table w) ["amount"; "transaction_id"] = false ->
               missing_column (table w) ["amount"; "transaction_id"]
                 (temporal_pattern_analysis_on now df')).
  { intros H. unfold has_columns in H. cbn [forallb] in H.
    unfold temporal_pattern_analysis_on. rewrite !require_cases, !Hcol.
    cbn [mem_str existsb String.eqb Ascii.eqb Bool.eqb orb bind result_monad].
    rewrite ?orb_true_r, ?orb_false_r. cbn [bind result_monad].
    destruct (has_column (table w) "amount") eqn:Ha.
    - destruct (has_column (table w) "transaction_id") eqn:Ht; [discriminate|].
      exists "transaction_id". cbn [In bind result_monad]. auto.
    - exists "amount". cbn [In bind result_monad]. auto. }
  assert (A3 : has_columns (table w) ["amount"; "transaction_id"] = true ->
               rows (table w) = [] ->
               temporal_pattern_analysis_on now df' = Raise ZeroDivisionError).
  { intros H Er. columns_of H. unfold temporal_pattern_analysis_on.
    rewrite !require_cases, !Hcol, Hc, Hc0.
    cbn [mem_str existsb String.eqb Ascii.eqb Bool.eqb orb bind result_monad].
    rewrite ?orb_true_r, ?orb_false_r. cbn [bind result_monad].
    rewrite percentage_empty; [reflexivity|].
    apply rows_add_time_features_nil. exact Er. }
  split; [exact A1 | split; [exact A3 |]].
  split.
  - intros Hok.
    destruct (has_columns (table w) ["amount"; "transaction_id"]) eqn:Hc.
    + split; [reflexivity|]. intros Er.
      rewrite A3 in Hok by auto. discriminate.
    + destruct (A1 eq_refl) as (c & _ & _ & E). rewrite E in Hok. discriminate.
  - intros (H & Hr). columns_of H.
    destruct (temporal_percentages now (table w) (@len_pos _ Hr) Hc Hc0)
      as [res [s0 [Hres _]]].
    fold df' in Hres. rewrite Hres. reflexivity.
Qed.

(** X3: [geographic_clustering_analysis] on a table without a [location]
    column returns the "No location data available" result, whatever else
    the table holds.  With a [location] column it returns a result, with
    the geographic summary, exactly when the table also has [amount] and
    [customer_id] and at least one row; a missing column raises [KeyError],
    no row [ZeroDivisionError]. *)
Theorem geographic_clustering_analysis_outcome {L : Libs} (now : Z) (w : World) :
  let outcome := fst (geographic_clustering_analysis now w) in
  let needed := ["amount"; "customer_id"] in
  (has_column (table w) "location" = false ->
   outcome =
   Ok (mkAnalyticsResult "geographic_clustering" now
         (ErrorSummary "No location data available") NoDetails []
         ["Ensure location data is available for geographic analysis"])) /\
  (has_column (table w) "location" = true ->
   (has_columns (table w) needed = false ->
    missing_column (table w) needed outcome) /\
   (has_columns (table w) needed = true -> rows (table w) = [] ->
    outcome = Raise ZeroDivisionError) /\
   (has_columns (table w) needed = true -> rows (table w) <> [] ->
    exists res s, outcome = Ok res /\ summary res = GeographicSummary s)).
Proof.
  cbv zeta. rewrite geographic_clustering_analysis_run. cbn [fst].
  split.
  - intros Hl. unfold geographic_clustering_analysis_on. rewrite Hl. reflexivity.
  - intros Hl. split; [|split].
    + intros H. unfold has_columns in H. cbn [forallb] in H.
      unfold geographic_clustering_analysis_on. rewrite Hl. cbn [negb].
      rewrite !require_cases.
      destruct (has_column (table w) "amount") eqn:Ha.
      * destruct (has_column (table w) "customer_id") eqn:Ht; [discriminate|].
        exists "customer_id". cbn [In bind result_monad]. auto.
      * exists "amount". cbn [In bind result_monad]. auto.
    + intros H Er. columns_of H.
      unfold geographic_clustering_analysis_on. run_requires.
      rewrite percentage_empty by exact Er. reflexivity.
    + intros H Hr. columns_of H.
      destruct (geographic_percentages now (table w) (@len_pos _ Hr) Hl Hc Hc0)
        as [res [s0 [Hres [Hs _]]]].
      exists res, s0. auto.
Qed.

Lemma missing_column_app {A} (df : DataFrame) (pre post : list string)
  (c : string) (r : result A) :
  has_column df c = false -> r = Raise (KeyError c) ->
  missing_column df (pre ++ c :: post) r.
Proof.
  intros Hc Hr. exists c. split; [|auto].
  apply in_or_app. right. left. reflexivity.
Qed.

(** X4: on a table whose [timestamp] column, if it has one, holds datetimes
    (the table [demonstrate_advanced_analytics] builds, and the one
    [comprehensive_analysis_report] hands on for an upload without that
    column; a column of date strings, as [read_csv] leaves it, is not a
    table of this model: on it [max() - min()] at line 425 raises),
    [behavioral_profiling] returns a result exactly when the table has the
    columns [customer_id], [amount], [payment_method], [merchant_category],
    [location] and [timestamp], rows or no rows; otherwise it raises
    [KeyError] for a missing column.  In particular the branch for a table
    without [customer_id] never leads to a result: the statistics by payment
    method that follow count distinct customers. *)
Theorem behavioral_profiling_outcome {L : Libs} (now : Z) (w : World) :
  let outcome := fst (behavioral_profiling now w) in
  let needed := ["customer_id"; "amount"; "payment_method"; "merchant_category";
                 "location"; "timestamp"] in
  (has_columns (table w) needed = false ->
   missing_column (table w) needed outcome) /\
  (has_columns (table w) needed = true ->
   exists res s,
     outcome = Ok res /\ summary res = BehavioralSummary s /\
     Behavioral.total_customers s = length (customer_index (table w)) /\
     (rows (table w) = [] ->
      Behavioral.total_customers s = 0%nat /\
      Behavioral.suspicious_customers_count s = 0%nat /\
      Behavioral.behavioral_alerts_count s = 0%nat /\
      Behavioral.risk_level s = "LOW")).
Proof.
  cbv zeta. rewrite behavioral_profiling_run, customer_behavior_run.
  unfold profile_columns. split.
  - intros H. unfold has_columns in H. cbn [forallb] in H.
    rewrite !require_cases.
    destruct (has_column (table w) "customer_id") eqn:Hc.
    + destruct (has_column (table w) "amount") eqn:Ha;
        [|apply (@missing_column_app _ _ ["customer_id"]); auto].
      destruct (has_column (table w) "payment_method") eqn:Hp;
        [|apply (@missing_column_app _ _ ["customer_id"; "amount"]); auto].
      destruct (has_column (table w) "merchant_category") eqn:Hm;
        [|apply (@missing_column_app _ _
                   ["customer_id"; "amount"; "payment_method"]); auto].
      destruct (has_column (table w) "location") eqn:Hl;
        [|apply (@missing_column_app _ _
                   ["customer_id"; "amount"; "payment_method";
                    "merchant_category"]); auto].
      destruct (has_column (table w) "timestamp") eqn:Ht; [discriminate|].
      apply (@missing_column_app _ _
               ["customer_id"; "amount"; "payment_method"; "merchant_category";
                "location"]); auto.
    + cbn [fst]. unfold behavioral_report. rewrite !require_cases, Hc.
      destruct (has_column (table w) "payment_method") eqn:Hp;
        [|apply (@missing_column_app _ _ ["customer_id"; "amount"]); auto].
      destruct (has_column (table w) "amount") eqn:Ha;
        [|apply (@missing_column_app _ _ ["customer_id"]); auto].
      apply (@missing_column_app _ _ []); auto.
  - intros H. columns_of H. run_requires. cbv zeta.
    destruct (Nat.ltb 5 _) eqn:E5; cbn [fst].
    + unfold behavioral_report. run_requires. cbv zeta.
      eexists. eexists. split; [reflexivity|]. split; [reflexivity|].
      split; [reflexivity|]. intros Er. exfalso.
      unfold customer_index in E5. rewrite Er in E5. discriminate.
    + unfold behavioral_report. run_requires. cbv zeta.
      eexists. eexists. split; [reflexivity|]. split; [reflexivity|].
      split; [reflexivity|]. intros Er.
      unfold customer_index. rewrite Er. cbn. auto.
Qed.

(** X5: [predictive_risk_modeling] returns a result exactly on a table with
    the columns [timestamp], [amount], [location], [payment_method] and
    [merchant_category] and at least one row; it then scores every
    transaction.  A missing column raises [KeyError]; with the columns and
    no row the share of high-risk transactions raises
    [ZeroDivisionError]. *)
Theorem predictive_risk_modeling_outcome {L : Libs} (now : Z) (w : World) :
  let outcome := fst (predictive_risk_modeling now w) in
  let needed := ["timestamp"; "amount"; "location"; "payment_method";
                 "merchant_category"] in
  (has_columns (table w) needed = false ->
   missing_column (table w) needed outcome) /\
  (has_columns (table w) needed = true -> rows (table w) = [] ->
   outcome = Raise ZeroDivisionError) /\
  (has_columns (table w) needed = true -> rows (table w) <> [] ->
   exists res s,
     outcome = Ok res /\ summary res = PredictiveSummary s /\
     Predictive.total_transactions_analyzed s = len (table w) /\
     (Predictive.high_risk_count s <= len (table w))%nat).
Proof.
  cbv zeta. rewrite predictive_risk_modeling_run. cbn [fst].
  unfold predictive_risk_modeling_on. split; [|split].
  - intros H. unfold has_columns in H. cbn [forallb] in H.
    rewrite !require_cases.
    destruct (has_column (table w) "timestamp") eqn:Ht;
      [|apply (@missing_column_app _ _ []); auto].
    destruct (has_column (table w) "amount") eqn:Ha;
      [|apply (@missing_column_app _ _ ["timestamp"]); auto].
    destruct (has_column (table w) "location") eqn:Hl;
      [|apply (@missing_column_app _ _ ["timestamp"; "amount"]); auto].
    destruct (has_column (table w) "payment_method") eqn:Hp;
      [|apply (@missing_column_app _ _ ["timestamp"; "amount"; "location"]);
        auto].
    destruct (has_column (table w) "merchant_category") eqn:Hm; [discriminate|].
    apply (@missing_column_app _ _
             ["timestamp"; "amount"; "location"; "payment_method"]); auto.
  - intros H Er. columns_of H. run_requires. cbv zeta.
    rewrite Er. reflexivity.
  - intros H Hr. columns_of H. run_requires. cbv zeta.
    rewrite length_map.
    destruct (length (rows (table w))) as [|n] eqn:En;
      [apply length_zero_iff_nil in En; congruence|].
    cbn [py_div bind result_monad].
    eexists. eexists. split; [reflexivity|]. split; [reflexivity|].
    cbn [Predictive.total_transactions_analyzed Predictive.high_risk_count].
    unfold len. rewrite En. split; [reflexivity|].
    etransitivity; [apply filter_length_le'|]. rewrite length_map, En.
    reflexivity.
Qed.

(** ** The shape of the transaction graph *)

Lemma list_sum_add {A} (f g : A -> nat) (l : list A) :
  list_sum (map (fun x => f x + g x)%nat l) =
  (list_sum (map f l) + list_sum (map g l))%nat.
Proof.
  unfold list_sum. induction l as [|a l IH]; cbn [map fold_right];
    [reflexivity | rewrite IH; lia].
Qed.

Lemma list_sum_zero {A} (f : A -> nat) (l : list A) :
  (forall x, In x l -> f x = 0%nat) -> list_sum (map f l) = 0%nat.
Proof.
  unfold list_sum. induction l as [|a l IH]; cbn [map fold_right]; intros H;
    [reflexivity|].
  rewrite (H a), IH; auto using in_eq, in_cons.
Qed.

Lemma length_le_sum {A} (f : A -> nat) (l : list A) :
  (forall x, In x l -> (1 <= f x)%nat) ->
  (length l <= list_sum (map f l))%nat.
Proof.
  induction l as [|a l IH]; simpl; intros H; [lia|].
  pose proof (H a (or_introl eq_refl)).
  assert (length l <= list_sum (map f l))%nat by auto. lia.
Qed.

Lemma count_one (ns : list string) (s : string) :
  NoDup ns -> In s ns ->
  list_sum (map (fun x => if String.eqb x s then 1 else 0)%nat ns) = 1%nat.
Proof.
  induction 1 as [|a ns Ha Hnd IH]; simpl; intros Hin; [contradiction|].
  destruct (String.eqb a s) eqn:E.
  - apply String.eqb_eq in E. subst a.
    rewrite list_sum_zero; [reflexivity|].
    intros x Hx. destruct (String.eqb x s) eqn:E'; [|reflexivity].
    apply String.eqb_eq in E'. subst x. contradiction.
  - destruct Hin as [->|Hin]; [rewrite String.eqb_refl in E; discriminate|].
    rewrite IH by assumption. reflexivity.
Qed.

Lemma count_endpoints (ns : list string) (es : list Edge) (f : Edge -> string) :
  NoDup ns -> (forall e, In e es -> In (f e) ns) ->
  list_sum (map (fun x => length (filter (fun e => String.eqb x (f e)) es)) ns) =
  length es.
Proof.
  intros Hnd. induction es as [|e es IH]; intros Hin.
  - cbn. apply list_sum_zero. reflexivity.
  - cbn [filter length].
    rewrite (map_ext _
               (fun x => (if String.eqb x (f e) then 1 else 0) +
                         length (filter (fun e0 => String.eqb x (f e0)) es))%nat).
    + rewrite list_sum_add, IH, count_one; auto using in_eq.
      intros e0 He0. apply Hin. right. exact He0.
    + intros x. destruct (String.eqb x (f e)); reflexivity.
Qed.

Lemma NoDup_snoc {A} (l : list A) (a : A) :
  NoDup l -> ~ In a l -> NoDup (l ++ [a]).
Proof.
  intros Hl Ha. apply NoDup_app; [exact Hl | repeat constructor; auto |].
  intros x Hx [<-|[]]. contradiction.
Qed.

Lemma add_node_NoDup (ns : list string) (u : string) :
  NoDup ns -> NoDup (add_node ns u).
Proof.
  intros H. unfold add_node. destruct (mem_str u ns) eqn:E; [exact H|].
  apply NoDup_snoc; [exact H|]. apply mem_str_not_In. exact E.
Qed.

Lemma update_edge_other (u v : string) (f : EdgeData -> EdgeData)
  (es : list Edge) :
  ~ In (u, v) (map edge_key es) -> map (update_edge u v f) es = es.
Proof.
  induction es as [|e es IH]; cbn; intros H; [reflexivity|].
  rewrite IH by tauto. unfold update_edge.
  destruct (is_edge u v e) eqn:E; [|reflexivity].
  apply is_edge_true in E. tauto.
Qed.

(** Updating the edge from [u] to [v] changes the total of a measure [m]
    by what it changes on that one edge. *)
Lemma total_after_update (m : EdgeData -> nat) (k : nat) (u v : string)
  (f : EdgeData -> EdgeData) (es : list Edge) :
  (forall d, m (f d) = m d + k)%nat ->
  NoDup (map edge_key es) -> In (u, v) (map edge_key es) ->
  list_sum (map (fun e => m (edge_data e)) (map (update_edge u v f) es)) =
  (list_sum (map (fun e => m (edge_data e)) es) + k)%nat.
Proof.
  intros Hf. induction es as [|e es IH]; cbn [map list_sum]; intros Hnd Hin.
  - destruct Hin.
  - inversion Hnd as [|? ? Hnot Hnd']; subst.
    unfold update_edge at 1. destruct (is_edge u v e) eqn:E.
    + apply is_edge_true in E. rewrite E in Hnot.
      rewrite update_edge_other by exact Hnot.
      cbn [edge_data snd]. rewrite Hf. change (snd e) with (edge_data e).
      simpl list_sum. lia.
    + destruct Hin as [Hin|Hin];
        [apply is_edge_true in Hin; congruence|].
      simpl list_sum. simpl list_sum in IH. rewrite IH by assumption. lia.
Qed.

Lemma weight_after_update (a : Q) (ts : Z) (u v : string) (es : list Edge) :
  NoDup (map edge_key es) -> In (u, v) (map edge_key es) ->
  (Qsum (map (fun e => weight (edge_data e))
           (map (update_edge u v (accumulate a ts)) es)) ==
   Qsum (map (fun e => weight (edge_data e)) es) + a)%Q.
Proof.
  induction es as [|e es IH]; cbn [map]; intros Hnd Hin.
  - destruct Hin.
  - inversion Hnd as [|? ? Hnot Hnd']; subst.
    unfold update_edge at 1. destruct (is_edge u v e) eqn:E.
    + apply is_edge_true in E. rewrite E in Hnot.
      rewrite update_edge_other by exact Hnot.
      unfold Qsum. cbn [fold_right edge_data snd accumulate weight]. ring.
    + destruct Hin as [Hin|Hin];
        [apply is_edge_true in Hin; congruence|].
      unfold Qsum in *. cbn [fold_right]. rewrite IH by assumption. ring.
Qed.

Section GraphShape.
Context {L : Libs}.
Variable now : Z.
Variable df : DataFrame.

Lemma add_transaction_shape (G G' : DiGraph) (r : Row) :
  shape G -> add_transaction now df G r = Ok G' ->
  shape G' /\
  (total_weight G' == total_weight G + edge_amount df r)%Q /\
  total_transaction_count G' = S (total_transaction_count G) /\
  (number_of_edges G' <= S (number_of_edges G))%nat.
Proof.
  intros [Hn Hk Hw Hj Hc] H. unfold add_transaction in H.
  destruct (source_key df r) as [u|], (target_key df r) as [v|];
    cbn [has_edge add_edge accumulate_edge] in H; try discriminate.
  destruct (existsb (is_edge u v) (edges G)) eqn:E;
    inversion H; subst; clear H.
  - apply existsb_is_edge in E.
    unfold total_weight, total_transaction_count, number_of_edges.
    cbn [nodes edges]. split; [|split; [|split]].
    + constructor; cbn [nodes edges].
      * exact Hn.
      * rewrite map_edge_key_update. exact Hk.
      * intros e He. apply in_map_iff in He. destruct He as [e0 [<- He0]].
        unfold update_edge.
        destruct (is_edge u v e0); cbn; apply (Hw e0 He0).
      * intros x Hx. destruct (Hj x Hx) as [e [He Hxe]].
        exists (update_edge u v
                  (accumulate (edge_amount df r) (edge_timestamp now df r)) e).
        split; [apply in_map; exact He|].
        unfold update_edge. destruct (is_edge u v e); exact Hxe.
      * intros e He. apply in_map_iff in He. destruct He as [e0 [<- He0]].
        destruct (Hc e0 He0) as [H1 H2]. unfold update_edge.
        destruct (is_edge u v e0); [|auto].
        cbn [edge_data snd accumulate transaction_count timestamps].
        rewrite length_app. cbn [length]. change (snd e0) with (edge_data e0).
        lia.
    + apply weight_after_update; assumption.
    + rewrite (@total_after_update transaction_count 1 u v
                 (accumulate (edge_amount df r) (edge_timestamp now df r))
                 (edges G) (fun d => eq_refl) Hk E). lia.
    + rewrite length_map. lia.
  - assert (Hnew : ~ In (u, v) (map edge_key (edges G))).
    { intros Hin. apply existsb_is_edge in Hin. congruence. }
    unfold total_weight, total_transaction_count, number_of_edges.
    cbn [nodes edges]. split; [|split; [|split]].
    + constructor; cbn [nodes edges].
      * apply add_node_NoDup, add_node_NoDup, Hn.
      * rewrite map_app. cbn [map edge_key fst]. apply NoDup_snoc; assumption.
      * intros e He. cbn [nodes edges] in *. rewrite !add_node_In.
        apply in_app_iff in He.
        destruct He as [He|[<-|[]]]; [destruct (Hw e He)|cbn]; auto.
      * intros x Hx. rewrite !add_node_In in Hx.
        destruct Hx as [[Hx| ->]| ->].
        -- destruct (Hj x Hx) as [e [He Hxe]]. exists e.
           split; [apply in_or_app; auto | exact Hxe].
        -- eexists. split; [apply in_or_app; right; left; reflexivity|].
           left. reflexivity.
        -- eexists. split; [apply in_or_app; right; left; reflexivity|].
           right. reflexivity.
      * intros e He. apply in_app_iff in He.
        destruct He as [He|[<-|[]]]; [apply Hc; exact He|cbn; auto].
    + rewrite map_app, Qsum_app. unfold Qsum at 2.
      cbn [map fold_right edge_data snd weight]. ring.
    + rewrite map_app, list_sum_app. cbn. lia.
    + rewrite length_app. cbn. lia.
Qed.

Lemma add_transactions_shape (rs : list Row) :
  forall G G',
    shape G -> add_transactions now df G rs = Ok G' ->
    shape G' /\
    (total_weight G' == total_weight G + Qsum (map (edge_amount df) rs))%Q /\
    total_transaction_count G' = (total_transaction_count G + length rs)%nat /\
    (number_of_edges G' <= number_of_edges G + length rs)%nat.
Proof.
  induction rs as [|r rs IH]; intros G G' HG H; cbn [add_transactions] in H.
  - inversion H; subst. split; [exact HG|].
    split; [unfold Qsum; cbn [map fold_right]; ring|].
    split; cbn [length]; lia.
  - apply bind_ok in H. destruct H as [G1 [H1 H]].
    destruct (@add_transaction_shape G G1 r HG H1) as (S1 & W1 & C1 & E1).
    destruct (IH G1 G' S1 H) as (S2 & W2 & C2 & E2).
    split; [exact S2|]. split; [|split].
    + rewrite W2, W1. unfold Qsum. cbn [map fold_right]. ring.
    + rewrite C2, C1. cbn [length]. lia.
    + cbn [length]. lia.
Qed.

Lemma shape_empty : shape empty_graph.
Proof.
  constructor; cbn; try apply NoDup_nil; intros ? [].
Qed.
End GraphShape.

Lemma shape_degree (G : DiGraph) (x : string) :
  shape G -> In x (nodes G) -> (1 <= degree G x)%nat.
Proof.
  intros HG Hx. destruct (shape_joined HG x Hx) as [e [He Hxe]].
  unfold degree.
  assert (Hpos : forall p : Edge -> bool,
             p e = true -> (1 <= length (filter p (edges G)))%nat).
  { intros p Hp. assert (Hin : In e (filter p (edges G))).
    { apply filter_In. auto. }
    destruct (filter p (edges G)); [destruct Hin | cbn; lia]. }
  destruct Hxe as [-> | ->].
  - pose proof (Hpos (fun e0 => String.eqb (edge_source e) (edge_source e0))
                  (String.eqb_refl _)). lia.
  - pose proof (Hpos (fun e0 => String.eqb (edge_target e) (edge_target e0))
                  (String.eqb_refl _)). lia.
Qed.

Lemma shape_total_degree (G : DiGraph) :
  shape G -> total_degree G = (2 * number_of_edges G)%nat.
Proof.
  intros HG. unfold total_degree, degree, number_of_edges.
  rewrite list_sum_add.
  rewrite !count_endpoints; try apply (shape_nodes HG); [lia| |];
    intros e He; apply (shape_edges HG e He).
Qed.

(** X6: the graph that [network_analysis] builds from a table.  Its nodes
    are distinct and none is isolated: every edge joins two nodes, every
    node has degree at least 1, and the degrees that [_serialize_graph]
    lists add up to twice the number of edges.  There are at most as many
    edges as transactions and at most twice as many nodes as edges. *)
Theorem build_graph_shape {L : Libs} (now : Z) (df : DataFrame) (G : DiGraph) :
  build_graph now df = Ok G ->
  NoDup (nodes G) /\
  (forall e, In e (edges G) ->
             In (edge_source e) (nodes G) /\ In (edge_target e) (nodes G)) /\
  (forall x, In x (nodes G) -> (1 <= degree G x)%nat) /\
  list_sum (map snd (Network.graph_nodes (_serialize_graph G))) =
    (2 * Network.edge_count (_serialize_graph G))%nat /\
  (number_of_edges G <= len df)%nat /\
  (number_of_nodes G <= 2 * number_of_edges G)%nat.
Proof.
  intros H.
  destruct (@add_transactions_shape L now df (rows df) _ _ shape_empty H)
    as (HG & _ & _ & HE).
  pose proof (shape_total_degree HG) as HD.
  split; [apply (shape_nodes HG)|]. split; [apply (shape_edges HG)|].
  split; [intros x Hx; apply shape_degree; assumption|].
  split; [|split].
  - cbn. rewrite map_map. cbn [snd]. exact HD.
  - exact HE.
  - rewrite <- HD. unfold total_degree, number_of_nodes.
    apply length_le_sum. intros x Hx. apply shape_degree; assumption.
Qed.

(** X7: the loop over the transactions loses nothing: the edge weights of
    the graph add up to the amounts of the table (0 for each transaction
    when there is no [amount] column), the edges' transaction counts add up
    to the number of transactions, and each edge carries as many timestamps
    as it counts transactions, at least one. *)
Theorem build_graph_totals {L : Libs} (now : Z) (df : DataFrame) (G : DiGraph) :
  build_graph now df = Ok G ->
  (total_weight G == Qsum (map (edge_amount df) (rows df)))%Q /\
  total_transaction_count G = len df /\
  (forall e, In e (edges G) ->
             (1 <= transaction_count (edge_data e))%nat /\
             length (timestamps (edge_data e)) =
             transaction_count (edge_data e)).
Proof.
  intros H.
  destruct (@add_transactions_shape L now df (rows df) _ _ shape_empty H)
    as (HG & HW & HC & _).
  split; [|split].
  - rewrite HW. unfold total_weight, Qsum. cbn. ring.
  - rewrite HC. reflexivity.
  - apply (shape_counted HG).
Qed.

(** ** Which nodes are flagged, and the communities *)

Lemma degree_centrality_small (G : DiGraph) (x : string) :
  (1 <= degree G x)%nat -> (number_of_nodes G <= 10)%nat ->
  Qlt_bool 0.1 (nx_degree_centrality G x) = true.
Proof.
  intros Hd Hn. unfold nx_degree_centrality.
  remember (number_of_nodes G) as n eqn:En. clear En.
  remember (degree G x) as d eqn:Ed. clear Ed.
  destruct (Nat.leb n 1) eqn:E1; [reflexivity|].
  apply Nat.leb_gt in E1.
  unfold Qlt_bool. apply negb_true_iff.
  destruct (Qle_bool _ _) eqn:E; [|reflexivity]. exfalso.
  apply Qle_bool_iff in E.
  do 11 (destruct n as [|n]; [try lia; unfold Qle, Qofnat in E; cbn in E; lia|]).
  lia.
Qed.

Lemma filter_all {A} (f : A -> bool) (l : list A) :
  (forall x, In x l -> f x = true) -> filter f l = l.
Proof.
  induction l as [|a l IH]; cbn; intros H; [reflexivity|].
  rewrite (H a), IH; auto.
Qed.

(** X8: [network_analysis] never flags more nodes than the graph has, and
    in a graph of at most 10 nodes it flags every node: each node has a
    neighbour, so its degree centrality is at least 1/9, above the
    threshold 0.1.  The risk level is therefore [HIGH] only for a graph of
    more than 10 nodes, and a graph of 6 to 10 nodes is always [MEDIUM]. *)
Theorem network_analysis_flags_small_graphs {L : Libs} (now : Z) (w : World)
  (res : AnalyticsResult) (s : Network.summary) :
  fst (network_analysis now w) = Ok res ->
  summary res = NetworkSummary s ->
  let n := Network.total_nodes (Network.network_metrics s) in
  (Network.suspicious_entities_count s <= n)%nat /\
  ((n <= 10)%nat -> Network.suspicious_entities_count s = n) /\
  (Network.risk_level s = "HIGH" -> (10 < n)%nat) /\
  ((5 < n <= 10)%nat -> Network.risk_level s = "MEDIUM").
Proof.
  rewrite network_analysis_run. cbn [fst]. unfold network_analysis_on.
  intros H Hs. apply bind_ok in H. destruct H as [G [HG H]].
  destruct (@add_transactions_shape L now (table w) (rows (table w)) _ _
              shape_empty HG) as (Hshape & _).
  cbv zeta in H.
  assert (Hcount : forall pr,
            (length (sort_suspicious
                       (filter is_suspicious
                          (map (suspicious_entry G pr) (nodes G))))
             <= number_of_nodes G)%nat /\
            ((number_of_nodes G <= 10)%nat ->
             length (sort_suspicious
                       (filter is_suspicious
                          (map (suspicious_entry G pr) (nodes G)))) =
             number_of_nodes G)).
  { intros pr. unfold sort_suspicious. rewrite sort_length. split.
    - etransitivity; [apply filter_length_le'|]. rewrite length_map.
      reflexivity.
    - intros Hn. rewrite filter_all; [apply length_map|].
      intros e He. apply in_map_iff in He. destruct He as [x [<- Hx]].
      unfold is_suspicious, suspicious_entry.
      cbn [Network.degree_centrality].
      rewrite degree_centrality_small; [reflexivity| |exact Hn].
      apply shape_degree; assumption. }
  assert (Hlevel : forall k n : nat,
            (k <= n)%nat -> ((n <= 10)%nat -> k = n) ->
            (network_risk_level k = "HIGH" -> (10 < n)%nat) /\
            ((5 < n <= 10)%nat -> network_risk_level k = "MEDIUM")).
  { intros k n Hle Heq. unfold network_risk_level. split.
    - destruct (Nat.ltb 10 k) eqn:E10.
      + apply Nat.ltb_lt in E10. lia.
      + destruct (Nat.ltb 5 k); discriminate.
    - intros [H5 H10]. rewrite (Heq H10).
      destruct (Nat.ltb 10 n) eqn:E10; [apply Nat.ltb_lt in E10; lia|].
      destruct (Nat.ltb 5 n) eqn:E5; [reflexivity|].
      apply Nat.ltb_ge in E5. lia. }
  destruct (Nat.ltb 0 (number_of_nodes G)) eqn:E0.
  - apply bind_ok in H. destruct H as [found [Hf H]].
    apply bind_ok in Hf. destruct Hf as [pr [Hpr Hf]].
    inversion Hf; subst found; clear Hf.
    inversion H; subst res; clear H. cbn [summary] in Hs.
    inversion Hs; subst s; clear Hs.
    cbn [Network.suspicious_entities_count Network.network_metrics
         Network.total_nodes Network.risk_level fst snd].
    destruct (Hcount pr) as [H1 H2].
    split; [exact H1|]. split; [exact H2|]. apply Hlevel; assumption.
  - cbn [bind result_monad] in H.
    inversion H; subst res; clear H. cbn [summary] in Hs.
    inversion Hs; subst s; clear Hs.
    cbn [Network.suspicious_entities_count Network.network_metrics
         Network.total_nodes Network.risk_level fst snd length].
    apply Nat.ltb_ge in E0.
    split; [lia|]. split; [lia|]. apply Hlevel; lia.
Qed.

Lemma linked_trans (G : DiGraph) (a b c : string) :
  linked G a b -> linked G b c -> linked G a c.
Proof.
  intros Hab Hbc. induction Hbc as [|x y Hbx IH Hy]; [exact Hab|].
  eapply linked_step; eauto.
Qed.

Lemma linked_sym (G : DiGraph) (a b : string) :
  linked G a b -> linked G b a.
Proof.
  intros Hab. induction Hab as [|x y Hax IH Hy]; [constructor|].
  apply linked_trans with x; [|exact IH].
  eapply linked_step; [constructor|]. apply neighbors_sym. exact Hy.
Qed.

Lemma NoDup_app_inv {A} (l l' : list A) :
  NoDup (l ++ l') ->
  NoDup l /\ NoDup l' /\ (forall a, In a l -> ~ In a l').
Proof.
  induction l as [|x l IH]; cbn; intros H.
  - split; [constructor|]. split; [exact H|]. intros a [].
  - inversion H as [|? ? Hx Hnd]; subst.
    destruct (IH Hnd) as (H1 & H2 & H3).
    split; [constructor; [|exact H1]; intros Hin; apply Hx, in_or_app; auto|].
    split; [exact H2|]. intros a [<-|Ha]; [|auto].
    intros Hin. apply Hx, in_or_app. auto.
Qed.

Lemma NoDup_concat_filter {A} (f : list A -> bool) (l : list (list A)) :
  NoDup (concat l) -> NoDup (concat (filter f l)).
Proof.
  induction l as [|c l IH]; cbn [concat filter]; intros H; [constructor|].
  destruct (NoDup_app_inv _ _ H) as (H1 & H2 & H3).
  destruct (f c); cbn [concat]; [|auto].
  apply NoDup_app; [exact H1 | auto |].
  intros a Ha Hin. apply (H3 a Ha).
  apply in_concat in Hin. destruct Hin as [c' [Hc' Hin]].
  apply in_concat. exists c'. split; [|exact Hin].
  apply filter_In in Hc'. tauto.
Qed.

Lemma concat_length_ge {A} (k : nat) (l : list (list A)) :
  (forall c, In c l -> (k <= length c)%nat) ->
  (k * length l <= length (concat l))%nat.
Proof.
  induction l as [|c l IH]; cbn [concat length]; intros H; [lia|].
  rewrite length_app. pose proof (H c (or_introl eq_refl)).
  assert (k * length l <= length (concat l))%nat by auto using in_cons.
  lia.
Qed.

Lemma NoDup_filter' {A} (f : A -> bool) (l : list A) :
  NoDup l -> NoDup (filter f l).
Proof.
  induction 1 as [|a l Ha Hnd IH]; cbn; [constructor|].
  destruct (f a); [|exact IH]. constructor; [|exact IH].
  intros Hin. apply filter_In in Hin. tauto.
Qed.

Section Components.
Variable G : DiGraph.
Hypothesis Hwf : well_formed G.
Hypothesis Hnd : NoDup (nodes G).

Lemma components_from_partition (todo : list string) :
  forall seen,
    incl todo (nodes G) ->
    (forall x y, In x seen -> linked G x y -> In y seen) ->
    NoDup (concat (components_from G todo seen)) /\
    (forall x, In x (concat (components_from G todo seen)) ->
               ~ In x seen /\ In x (nodes G)) /\
    (forall c, In c (components_from G todo seen) ->
               exists v, In v (nodes G) /\ c = component G v).
Proof.
  induction todo as [|v todo IH]; intros seen Htodo Hseen;
    cbn [components_from].
  - cbn. split; [constructor|]. split; [intros x []|intros c []].
  - assert (Hv : In v (nodes G)) by (apply Htodo; left; reflexivity).
    assert (Htodo' : incl todo (nodes G)).
    { intros x Hx. apply Htodo. right. exact Hx. }
    destruct (mem_str v seen) eqn:E; [apply IH; assumption|].
    assert (Hvs : ~ In v seen) by (apply mem_str_not_In; exact E).
    assert (Hclosed : forall x y,
               In x (seen ++ component G v) -> linked G x y ->
               In y (seen ++ component G v)).
    { intros x y Hx Hxy. apply in_app_iff in Hx. apply in_app_iff.
      destruct Hx as [Hx|Hx]; [left; eauto|]. right.
      apply component_linked; try assumption.
      apply component_linked in Hx; try assumption.
      apply linked_trans with x; assumption. }
    destruct (IH (seen ++ component G v) Htodo' Hclosed) as (I1 & I2 & I3).
    assert (Hc : forall x, In x (component G v) ->
                           ~ In x seen /\ In x (nodes G)).
    { intros x Hx. split.
      - intros Hs. apply Hvs. apply (Hseen x v Hs).
        apply linked_sym. apply component_linked in Hx; assumption.
      - unfold component in Hx. apply filter_In in Hx. tauto. }
    cbn [concat]. split; [|split].
    + apply NoDup_app; [apply NoDup_filter'; exact Hnd | exact I1 |].
      intros a Ha Hin. destruct (I2 a Hin) as [Hno _].
      apply Hno, in_or_app. auto.
    + intros x Hx. apply in_app_iff in Hx. destruct Hx as [Hx|Hx]; [auto|].
      destruct (I2 x Hx) as [Hno Hn]. split; [|exact Hn].
      intros Hs. apply Hno, in_or_app. auto.
    + intros c [<-|Hin]; [exists v; auto | auto].
Qed.
End Components.

(** X9: the communities that [network_analysis] reports are whole connected
    components of the transaction graph with more than 3 nodes each, and no
    node is in two of them; so there are at most a quarter as many
    communities as nodes. *)
Theorem network_communities_partition {L : Libs} (now : Z) (w : World)
  (res : AnalyticsResult) (s : Network.summary) (d : Network.details) :
  fst (network_analysis now w) = Ok res ->
  summary res = NetworkSummary s ->
  detailed_results res = NetworkDetails d ->
  exists G,
    build_graph now (table w) = Ok G /\
    Network.communities_detected s = length (Network.communities d) /\
    NoDup (concat (Network.communities d)) /\
    (forall c, In c (Network.communities d) ->
       (3 < length c)%nat /\
       exists v, In v (nodes G) /\ forall x, In x c <-> linked G v x) /\
    (4 * Network.communities_detected s <=
     Network.total_nodes (Network.network_metrics s))%nat.
Proof.
  rewrite network_analysis_run. cbn [fst]. unfold network_analysis_on.
  intros H Hs Hd. apply bind_ok in H. destruct H as [G [HG H]].
  exists G. split; [exact HG|].
  destruct (@add_transactions_shape L now (table w) (rows (table w)) _ _
              shape_empty HG) as (Hshape & _).
  pose proof (shape_edges Hshape) as Hwf.
  pose proof (shape_nodes Hshape) as Hnd.
  destruct (@components_from_partition G Hwf Hnd (nodes G) []
              (fun x Hx => Hx) (fun x y Hx _ => match Hx with end))
    as (P1 & P2 & P3).
  fold (nx_connected_components G) in P1, P2, P3.
  assert (Hlarge :
            NoDup (concat (large_communities_of G)) /\
            (forall c, In c (large_communities_of G) ->
               (3 < length c)%nat /\
               exists v, In v (nodes G) /\ forall x, In x c <-> linked G v x) /\
            (4 * length (large_communities_of G) <= number_of_nodes G)%nat).
  { unfold large_communities_of. split; [|split].
    - apply NoDup_concat_filter. exact P1.
    - intros c Hc. apply filter_In in Hc. destruct Hc as [Hc Hlen].
      apply Nat.ltb_lt in Hlen. split; [exact Hlen|].
      destruct (P3 c Hc) as [v [Hv ->]]. exists v. split; [exact Hv|].
      intros x. apply component_linked; assumption.
    - etransitivity.
      + apply concat_length_ge. intros c Hc. apply filter_In in Hc.
        destruct Hc as [_ Hlen]. apply Nat.ltb_lt in Hlen. exact Hlen.
      + apply NoDup_incl_length; [apply NoDup_concat_filter; exact P1|].
        intros x Hx. apply in_concat in Hx. destruct Hx as [c [Hc Hx]].
        apply filter_In in Hc. apply (P2 x). apply in_concat.
        exists c. tauto. }
  cbv zeta in H.
  destruct (Nat.ltb 0 (number_of_nodes G)) eqn:E0.
  - apply bind_ok in H. destruct H as [found [Hf H]].
    apply bind_ok in Hf. destruct Hf as [pr [Hpr Hf]].
    inversion Hf; subst found; clear Hf.
    inversion H; subst res; clear H. cbn [summary detailed_results] in Hs, Hd.
    inversion Hs; subst s; clear Hs. inversion Hd; subst d; clear Hd.
    cbn [Network.communities_detected Network.communities
         Network.network_metrics Network.total_nodes fst snd].
    split; [reflexivity|]. exact Hlarge.
  - cbn [bind result_monad] in H.
    inversion H; subst res; clear H. cbn [summary detailed_results] in Hs, Hd.
    inversion Hs; subst s; clear Hs. inversion Hd; subst d; clear Hd.
    cbn [Network.communities_detected Network.communities
         Network.network_metrics Network.total_nodes fst snd length concat].
    split; [reflexivity|]. split; [constructor|].
    split; [intros c []|lia].
Qed.

(** ** Summaries of the temporal and the geographic analysis *)

Lemma percentage_value (count total : nat) (q : Q) :
  percentage count total = Ok q ->
  (0 < total)%nat /\ (q == Qofnat count / Qofnat total * 100)%Q.
Proof.
  unfold percentage, py_div. destruct total; [discriminate|].
  cbn [bind result_monad]. intros [= <-]. split; [lia | reflexivity].
Qed.

Lemma percentage_mono (c1 c2 total : nat) (q1 q2 : Q) :
  percentage c1 total = Ok q1 -> percentage c2 total = Ok q2 ->
  (c1 <= c2)%nat -> (q1 <= q2)%Q.
Proof.
  intros H1 H2 Hle.
  apply percentage_value in H1. apply percentage_value in H2.
  destruct H1 as [Hpos ->], H2 as [_ ->].
  apply Qmult_le_compat_r; [|discriminate].
  apply Qmult_le_compat_r.
  - unfold Qofnat. rewrite <- Zle_Qle. lia.
  - apply Qinv_le_0_compat. unfold Qofnat, Qle. cbn. lia.
Qed.

Lemma percentage_below (count total : nat) (q : Q) :
  percentage count total = Ok q -> (count < total)%nat -> (q < 100)%Q.
Proof.
  intros H Hlt. apply percentage_value in H. destruct H as [Hpos ->].
  setoid_replace (100:Q) with (1 * 100)%Q at 2 by ring.
  apply Qmult_lt_compat_r; [reflexivity|].
  apply Qlt_shift_div_r.
  - unfold Qofnat, Qlt. cbn. lia.
  - rewrite Qmult_1_l. unfold Qofnat. rewrite <- Zlt_Qlt. lia.
Qed.

Lemma rapid_rows_below (df : DataFrame) :
  (0 < len df)%nat -> (length (rapid_rows df) < len df)%nat.
Proof.
  unfold rapid_rows, len, with_time_diff, sort_by_timestamp. intros Hpos.
  rewrite <- (sort_length (fun x y => Z.leb (timestamp x) (timestamp y))
                (rows df)) in *.
  destruct (sort _ (rows df)) as [|r rs]; cbn [length] in *; [lia|].
  cbn [filter is_rapid snd].
  pose proof (filter_length_le' is_rapid (diff_from (timestamp r) rs)) as H.
  rewrite diff_from_length in H. lia.
Qed.

(** *** Rapid successors, counted without sorting *)

Lemma insert_by_timestamp_sorted (x : Row) (l : list Row) :
  StronglySorted (fun a b => timestamp a <= timestamp b) l ->
  StronglySorted (fun a b => timestamp a <= timestamp b)
    (insert_sorted (fun a b => Z.leb (timestamp a) (timestamp b)) x l).
Proof.
  induction l as [|y l IH]; intros Hs; cbn [insert_sorted].
  - constructor; constructor.
  - apply StronglySorted_inv in Hs. destruct Hs as [Hl Hy].
    destruct (Z.leb_spec (timestamp x) (timestamp y)) as [Hle|Hgt].
    + constructor; [constructor; assumption|].
      constructor; [exact Hle|].
      eapply Forall_impl; [|exact Hy]. cbn. intros z Hz. lia.
    + constructor; [apply IH; exact Hl|].
      eapply Permutation_Forall.
      * symmetry. apply insert_sorted_Permutation.
      * constructor; [lia | exact Hy].
Qed.

Lemma sort_by_timestamp_sorted (rs : list Row) :
  StronglySorted (fun a b => timestamp a <= timestamp b) (sort_by_timestamp rs).
Proof.
  unfold sort_by_timestamp, sort.
  induction rs as [|r rs IH]; cbn [fold_right]; [constructor|].
  apply insert_by_timestamp_sorted. exact IH.
Qed.

Lemma is_rapid_gap (r : Row) (d : Z) :
  is_rapid (r, Some d) = andb (0 <? d) (d <=? 300 * ns_per_second).
Proof.
  unfold is_rapid, Qlt_bool, total_seconds. cbn [snd].
  rewrite andb_comm. f_equal.
  - destruct (Z.ltb_spec 0 d) as [H|H].
    + apply negb_true_iff. destruct (Qle_bool _ 0) eqn:E; [|reflexivity].
      apply Qle_bool_iff in E. unfold Qle in E. cbn in E. lia.
    + apply negb_false_iff. apply Qle_bool_iff. unfold Qle. cbn. lia.
  - destruct (Z.leb_spec d (300 * ns_per_second)) as [H|H].
    + apply Qle_bool_iff. unfold Qle. cbn. unfold ns_per_second in H. lia.
    + destruct (Qle_bool _ 300) eqn:E; [|reflexivity].
      apply Qle_bool_iff in E. unfold Qle in E. cbn in E.
      unfold ns_per_second in H. lia.
Qed.

Lemma filter_length_Permutation {A} (f : A -> bool) (m m' : list A) :
  Permutation m m' -> length (filter f m) = length (filter f m').
Proof.
  induction 1 as [|x l l' _ IH|x y l|l l' l'' _ IH1 _ IH2]; cbn.
  - reflexivity.
  - destruct (f x); cbn; congruence.
  - destruct (f x), (f y); reflexivity.
  - congruence.
Qed.

Lemma existsb_Permutation {A} (f : A -> bool) (m m' : list A) :
  Permutation m m' -> existsb f m = existsb f m'.
Proof.
  induction 1 as [|x l l' _ IH|x y l|l l' l'' _ IH1 _ IH2]; cbn.
  - reflexivity.
  - rewrite IH. reflexivity.
  - destruct (f x), (f y); reflexivity.
  - congruence.
Qed.

Lemma close_successors_Permutation (within : Z) (l l' : list Z) :
  Permutation l l' -> close_successors within l = close_successors within l'.
Proof.
  intros H. unfold close_successors.
  rewrite (filter_ext _ (fun v => existsb (fun u => andb (u <? v) (v - u <=? within)) l'))
    by (intros v; apply existsb_Permutation; exact H).
  apply filter_length_Permutation.
  apply NoDup_Permutation; try apply NoDup_nodup.
  intros x. rewrite !nodup_In. split; apply Permutation_in; [|symmetry]; exact H.
Qed.

Lemma filter_length_except {A} (f g : A -> bool) (b : A) (m : list A) :
  NoDup m -> In b m -> g b = false ->
  (forall v, In v m -> v <> b -> f v = g v) ->
  length (filter f m) = (Nat.b2n (f b) + length (filter g m))%nat.
Proof.
  induction m as [|a m IH]; intros Hnd Hin Hg Hsame; [destruct Hin|].
  apply NoDup_cons_iff in Hnd. destruct Hnd as [Ha Hnd]. cbn [filter].
  destruct Hin as [->|Hin].
  - rewrite Hg.
    assert (E : filter f m = filter g m).
    { apply filter_ext_in. intros v Hv. apply Hsame; [right; exact Hv|].
      intros ->. contradiction. }
    rewrite E. destruct (f b); reflexivity.
  - assert (Hne : a <> b) by (intros ->; contradiction).
    rewrite (Hsame a (or_introl eq_refl) Hne).
    pose proof (IH Hnd Hin Hg
                  (fun v Hv => Hsame v (or_intror Hv))) as IH'.
    destruct (g a); cbn [length]; lia.
Qed.

Lemma close_successors_repeat (within b : Z) (l : list Z) :
  close_successors within (b :: b :: l) = close_successors within (b :: l).
Proof.
  unfold close_successors.
  assert (E : nodup Z.eq_dec (b :: b :: l) = nodup Z.eq_dec (b :: l)).
  { cbn [nodup]. destruct (in_dec Z.eq_dec b (b :: l)) as [_|Hn]; [reflexivity|].
    exfalso. apply Hn. left. reflexivity. }
  rewrite E. f_equal. apply filter_ext. intros v. cbn [existsb].
  destruct (andb (b <? v) (v - b <=? within)); reflexivity.
Qed.

Lemma close_successors_first (within p : Z) (l : list Z) :
  Forall (Z.le p) l -> 0 <= within ->
  forall b l', l = b :: l' -> p < b -> Forall (Z.le b) l' ->
  close_successors within (p :: l) =
  (Nat.b2n (b - p <=? within)%Z + close_successors within l)%nat.
Proof.
  intros Hp Hw b l' -> Hlt Hb. unfold close_successors.
  assert (Hall : forall v, In v (b :: l') -> b <= v).
  { intros v [<-|Hv]; [lia|]. rewrite Forall_forall in Hb. apply Hb. exact Hv. }
  assert (E : nodup Z.eq_dec (p :: b :: l') = p :: nodup Z.eq_dec (b :: l')).
  { cbn [nodup]. destruct (in_dec Z.eq_dec p (b :: l')) as [Hin|_]; [|reflexivity].
    apply Hall in Hin. lia. }
  rewrite E. cbn [filter].
  assert (Hfirst : existsb (fun u => andb (u <? p) (p - u <=? within))
                     (p :: b :: l') = false).
  { apply not_true_iff_false. intros H. apply existsb_exists in H.
    destruct H as [u [Hu H]]. apply andb_true_iff in H. destruct H as [H _].
    apply Z.ltb_lt in H. destruct Hu as [<-|Hu]; [lia|].
    apply Hall in Hu. lia. }
  rewrite Hfirst.
  rewrite (@filter_length_except _ _
             (fun v => existsb (fun u => andb (u <? v) (v - u <=? within)) (b :: l'))
             b (nodup Z.eq_dec (b :: l'))).
  - f_equal. f_equal. cbn [existsb].
    replace (p <? b) with true by (symmetry; apply Z.ltb_lt; exact Hlt).
    rewrite Z.ltb_irrefl. cbn [andb orb].
    destruct (b - p <=? within); [reflexivity|]. cbn [orb].
    apply not_true_iff_false. intros H. apply existsb_exists in H.
    destruct H as [u [Hu H]]. apply andb_true_iff in H. destruct H as [H _].
    apply Z.ltb_lt in H. rewrite Forall_forall in Hb. apply Hb in Hu. lia.
  - apply NoDup_nodup.
  - apply nodup_In. left. reflexivity.
  - apply not_true_iff_false. intros H. apply existsb_exists in H.
    destruct H as [u [Hu H]]. apply andb_true_iff in H. destruct H as [H _].
    apply Z.ltb_lt in H. apply Hall in Hu. lia.
  - intros v Hv Hne. apply nodup_In in Hv. apply Hall in Hv.
    cbn [existsb].
    destruct (andb (p <? v) (v - p <=? within)) eqn:E1; [|reflexivity].
    apply andb_true_iff in E1. destruct E1 as [_ E1]. apply Z.leb_le in E1.
    cbn [orb]. symmetry.
    replace (b <? v) with true by (symmetry; apply Z.ltb_lt; lia).
    replace (v - b <=? within) with true by (symmetry; apply Z.leb_le; lia).
    reflexivity.
Qed.

Lemma diff_from_rapid (rs : list Row) :
  forall p,
    StronglySorted Z.le (p :: map timestamp rs) ->
    length (filter is_rapid (diff_from p rs)) =
    close_successors (300 * ns_per_second) (p :: map timestamp rs).
Proof.
  induction rs as [|r rs IH]; intros p Hs.
  - cbn. unfold close_successors. cbn.
    rewrite Z.ltb_irrefl. reflexivity.
  - cbn [diff_from filter map]. apply StronglySorted_inv in Hs.
    destruct Hs as [Hs Hp]. cbn [map] in Hs, Hp.
    pose proof (IH _ Hs) as IH'.
    rewrite is_rapid_gap.
    pose proof (Forall_inv Hp) as Hle.
    destruct (Z.eq_dec p (timestamp r)) as [->|Hne].
    + rewrite Z.sub_diag, Z.ltb_irrefl. cbn [andb].
      rewrite close_successors_repeat. exact IH'.
    + apply StronglySorted_inv in Hs. destruct Hs as [_ Hr].
      assert (Hw : 0 <= 300 * ns_per_second) by (unfold ns_per_second; lia).
      assert (Hlt : p < timestamp r) by lia.
      rewrite (@close_successors_first _ p _ Hp Hw
                 (timestamp r) (map timestamp rs) eq_refl Hlt Hr).
      replace (0 <? timestamp r - p) with true by (symmetry; apply Z.ltb_lt; lia).
      cbn [andb].
      destruct (timestamp r - p <=? 300 * ns_per_second); cbn [length Nat.b2n];
        rewrite IH'; reflexivity.
Qed.

Lemma rapid_rows_count (df : DataFrame) :
  length (rapid_rows df) =
  close_successors (300 * ns_per_second) (map timestamp (rows df)).
Proof.
  unfold rapid_rows, with_time_diff.
  pose proof (sort_by_timestamp_sorted (rows df)) as Hs.
  rewrite <- (@close_successors_Permutation _
                (map timestamp (sort_by_timestamp (rows df))))
    by (apply Permutation_map; apply sort_Permutation).
  destruct (sort_by_timestamp (rows df)) as [|r rs]; [reflexivity|].
  cbn [filter]. change (is_rapid (r, None)) with false. cbn iota.
  apply diff_from_rapid. cbn [map].
  assert (Hmap : forall l, StronglySorted (fun a b => timestamp a <= timestamp b) l ->
                           StronglySorted Z.le (map timestamp l)).
  { clear. induction l as [|x l IH]; intros H; cbn; [constructor|].
    apply StronglySorted_inv in H. destruct H as [H1 H2].
    constructor; [apply IH; exact H1|].
    apply Forall_map. exact H2. }
  apply (Hmap (r :: rs)). exact Hs.
Qed.

Lemma rows_add_time_features (now : Z) (df : DataFrame) :
  rows (add_time_features now df) =
  map (fun r => set_time_features
                  (if has_column df "timestamp" then r else set_timestamp now r))
      (rows df).
Proof.
  unfold add_time_features, assign.
  destruct (has_column df "timestamp"); cbn [rows]; rewrite ?map_map; reflexivity.
Qed.

Lemma filter_map_length {A B} (f : A -> B) (p : B -> bool) (l : list A) :
  length (filter p (map f l)) = length (filter (fun x => p (f x)) l).
Proof.
  induction l as [|a l IH]; cbn; [reflexivity|].
  destruct (p (f a)); cbn; rewrite IH; reflexivity.
Qed.

(** X10: on a table whose [timestamp] column, if it has one, holds
    datetimes, every result of [temporal_pattern_analysis] reports the
    shares of the table's transactions: [unusual_hour_percentage] is the
    share of rows whose hour of day (of the row's timestamp, or of the
    clock when the table has no such column) is one of 0-5, 22, 23;
    [weekend_activity_percentage] the share of rows on a Saturday or
    Sunday; [velocity_abuse_percentage] the number of distinct instants
    that follow another transaction's instant by at most 300 seconds, over
    the number of rows.  The risk level is [HIGH] exactly when the first
    share exceeds 15%, else [MEDIUM] exactly when the rapid share exceeds 5%
    or the weekend share 40%, else [LOW]; [anomalies_detected] counts the
    thresholds exceeded, and there is one recommendation per anomaly, or
    the one "appear normal" recommendation.  The share of rapid
    transactions stays below 100%: the earliest transaction has no
    predecessor. *)
Theorem temporal_summary_consistent {L : Libs} (now : Z) (w : World)
  (res : AnalyticsResult) (s : Temporal.summary) :
  fst (temporal_pattern_analysis now w) = Ok res ->
  summary res = TemporalSummary s ->
  let instant := fun r : Row =>
    if has_column (table w) "timestamp" then timestamp r else now in
  let share := fun count : nat =>
    (Qofnat count / Qofnat (length (rows (table w))) * 100)%Q in
  let in_unusual_hours :=
    length (filter (fun r => mem_Z ((instant r / 3600000000000) mod 24)
                                   [0; 1; 2; 3; 4; 5; 22; 23])
                   (rows (table w))) in
  let on_weekend :=
    length (filter (fun r => mem_Z ((instant r / 86400000000000 + 3) mod 7)
                                   [5; 6])
                   (rows (table w))) in
  let rapid_successors :=
    close_successors 300000000000 (map instant (rows (table w))) in
  let unusual := Qlt_bool 15 (Temporal.unusual_hour_percentage s) in
  let rapid := Qlt_bool 5 (Temporal.velocity_abuse_percentage s) in
  let weekend := Qlt_bool 40 (Temporal.weekend_activity_percentage s) in
  Temporal.total_transactions s = len (table w) /\
  Temporal.risk_level s =
    (if unusual then "HIGH" else if orb rapid weekend then "MEDIUM" else "LOW") /\
  Temporal.anomalies_detected s =
    (Nat.b2n unusual + Nat.b2n rapid + Nat.b2n weekend)%nat /\
  length (recommendations res) = Nat.max 1 (Temporal.anomalies_detected s) /\
  (Temporal.velocity_abuse_percentage s < 100)%Q /\
  (0 <= Temporal.weekend_activity_percentage s <= 100)%Q /\
  rows (table w) <> [] /\
  (Temporal.unusual_hour_percentage s == share in_unusual_hours)%Q /\
  (Temporal.weekend_activity_percentage s == share on_weekend)%Q /\
  (Temporal.velocity_abuse_percentage s == share rapid_successors)%Q.
Proof.
  intros H Hs instant share in_unusual_hours on_weekend rapid_successors.
  revert H Hs.
  rewrite temporal_pattern_analysis_run. cbn [fst].
  set (df := add_time_features now (table w)).
  unfold temporal_pattern_analysis_on. intros H Hs.
  do 9 bind_inv H. inversion H; subst res; clear H.
  cbn [summary] in Hs. inversion Hs; subst s; clear Hs.
  cbn [Temporal.total_transactions Temporal.risk_level
       Temporal.anomalies_detected Temporal.unusual_hour_percentage
       Temporal.velocity_abuse_percentage Temporal.weekend_activity_percentage
       recommendations].
  assert (Hpos : (0 < len df)%nat).
  { match goal with
    | H : percentage _ (len df) = Ok _ |- _ =>
        apply percentage_value in H; apply H
    end. }
  split; [apply len_add_time_features|].
  repeat match goal with
         | H : require _ _ = Ok _ |- _ => clear H
         end.
  assert (Hlen : len df = length (rows (table w))).
  { unfold df. rewrite len_add_time_features. reflexivity. }
  assert (Hrows : rows df =
                  map (fun r => set_time_features
                                  (if has_column (table w) "timestamp" then r
                                   else set_timestamp now r))
                      (rows (table w))).
  { apply rows_add_time_features. }
  assert (Hinstant : forall r,
             timestamp (set_time_features
                          (if has_column (table w) "timestamp" then r
                           else set_timestamp now r)) =
             if has_column (table w) "timestamp" then timestamp r else now).
  { intros r. destruct (has_column (table w) "timestamp"); reflexivity. }
  match goal with
  | H0 : percentage (len (select df (fun r => mem_Z (hour r) _))) _ = Ok ?q0,
    H1 : percentage (length (rapid_rows df)) _ = Ok ?q1,
    H2 : percentage (len (select df (fun r => mem_Z (day_of_week r) _))) _ =
         Ok ?q2 |- _ =>
      pose proof (@percentage_below _ _ _ H1 (@rapid_rows_below df Hpos)) as Hv;
      pose proof (proj2 (percentage_value _ _ H0)) as V0;
      pose proof (proj2 (percentage_value _ _ H1)) as V1;
      pose proof (proj2 (percentage_value _ _ H2)) as V2;
      pose (p_unusual := q0); pose (p_rapid := q1); pose (p_weekend := q2);
      clear H0 H1;
      destruct (percentage_ok (select_length df
                                 (fun r => mem_Z (day_of_week r) [5; 6])) Hpos)
        as [q [Hq Hrange]];
      rewrite Hq in H2; inversion H2; subst q; clear H2
  end.
  assert (Htail :
    rows (table w) <> [] /\
    (p_unusual == share in_unusual_hours)%Q /\
    (p_weekend == share on_weekend)%Q /\
    (p_rapid == share rapid_successors)%Q).
  { split.
    { intros E. rewrite Hlen, E in Hpos. cbn in Hpos. lia. }
    split.
    { unfold p_unusual, share, in_unusual_hours, instant.
      rewrite V0, Hlen. unfold len, select. cbn [rows]. rewrite Hrows.
      rewrite filter_map_length.
      erewrite filter_ext; [reflexivity|]. intros r. cbn beta.
      unfold unusual_hours.
      replace (hour (set_time_features
                       (if has_column (table w) "timestamp" then r
                        else set_timestamp now r)))
        with (hour_of (timestamp (set_time_features
                       (if has_column (table w) "timestamp" then r
                        else set_timestamp now r))))
        by (destruct (has_column (table w) "timestamp"); reflexivity).
      rewrite Hinstant. reflexivity. }
    split.
    { unfold p_weekend, share, on_weekend, instant.
      rewrite V2, Hlen. unfold len, select. cbn [rows]. rewrite Hrows.
      rewrite filter_map_length.
      erewrite filter_ext; [reflexivity|]. intros r. cbn beta.
      replace (day_of_week (set_time_features
                       (if has_column (table w) "timestamp" then r
                        else set_timestamp now r)))
        with (dayofweek_of (timestamp (set_time_features
                       (if has_column (table w) "timestamp" then r
                        else set_timestamp now r))))
        by (destruct (has_column (table w) "timestamp"); reflexivity).
      rewrite Hinstant. reflexivity. }
    unfold p_rapid, share, rapid_successors, instant.
    rewrite V1, Hlen, rapid_rows_count, Hrows, map_map.
    erewrite (map_ext _ _ Hinstant). reflexivity. }
  clear V0 V1 V2 Hrows Hinstant.
  repeat match goal with
         | |- context [Qlt_bool ?a ?b] =>
             let E := fresh "E" in destruct (Qlt_bool a b) eqn:E
         end;
    cbn [app existsb severity String.eqb Ascii.eqb Bool.eqb orb length map
         Nat.ltb Nat.leb Nat.eqb Nat.b2n Nat.add Nat.max anomaly_risk_level];
    repeat (split; [solve [cbn; auto]|]); exact Htail.
Qed.

Lemma filter_length_imp {A} (f g : A -> bool) (l : list A) :
  (forall x, f x = true -> g x = true) ->
  (length (filter f l) <= length (filter g l))%nat.
Proof.
  intros H. induction l as [|a l IH]; cbn; [lia|].
  destruct (f a) eqn:Ef.
  - rewrite (H a Ef). cbn. lia.
  - destruct (g a); cbn; lia.
Qed.

Lemma unique_length {A} (eqb : A -> A -> bool) (l : list A) :
  (length (unique eqb l) <= length l)%nat /\
  (l <> [] -> (1 <= length (unique eqb l))%nat).
Proof.
  induction l as [|a l [IH _]]; cbn [unique length]; split; try lia.
  - congruence.
  - pose proof (filter_length_le' (fun y => negb (eqb a y)) (unique eqb l)).
    lia.
Qed.

Lemma high_risk_is_cross_border (l : string) :
  mem_str l geographic_high_risk_locations = true ->
  negb (mem_str l domestic_locations) = true.
Proof.
  intros H. apply mem_str_In in H. cbn in H.
  destruct H as [<-|[<-|[<-|[<-|[]]]]]; reflexivity.
Qed.

(** X11: in every result of [geographic_clustering_analysis] on a table
    with locations, the share of transactions at high-risk locations is at
    most the cross-border share (every high-risk location is outside the
    domestic list); the risk level is [HIGH] exactly when the first exceeds
    10% or the second 20%, else [MEDIUM] exactly when another anomaly was
    found; there is at least one location and at most one per transaction,
    so the diversity score lies in (0, 1]; and the recommendations are one
    per anomaly (or the one "appear normal") followed by the two standing
    ones. *)
Theorem geographic_summary_consistent {L : Libs} (now : Z) (w : World)
  (res : AnalyticsResult) (s : Geographic.summary) :
  fst (geographic_clustering_analysis now w) = Ok res ->
  summary res = GeographicSummary s ->
  (Geographic.high_risk_percentage s <= Geographic.cross_border_percentage s)%Q /\
  Geographic.risk_level s =
    (if orb (Qlt_bool 10 (Geographic.high_risk_percentage s))
            (Qlt_bool 20 (Geographic.cross_border_percentage s))
     then "HIGH"
     else if Nat.ltb 0 (Geographic.anomalies_detected s) then "MEDIUM"
     else "LOW") /\
  (1 <= Geographic.total_locations s <= len (table w))%nat /\
  (0 < Geographic.diversity_score s <= 1)%Q /\
  (Geographic.anomalies_detected s <= 4)%nat /\
  length (recommendations res) =
    (Nat.max 1 (Geographic.anomalies_detected s) + 2)%nat.
Proof.
  rewrite geographic_clustering_analysis_run. cbn [fst].
  set (df := table w).
  unfold geographic_clustering_analysis_on. intros H Hs.
  destruct (has_column df "location"); cbn [negb] in H;
    [|inversion H; subst res; discriminate].
  do 4 bind_inv H.
  remember (firstn 5 (value_counts (map location (rows df)))) as top eqn:Etop.
  injection H as <-.
  cbn [summary] in Hs. inversion Hs; subst s; clear Hs.
  cbn [Geographic.high_risk_percentage Geographic.cross_border_percentage
       Geographic.risk_level Geographic.total_locations
       Geographic.diversity_score Geographic.anomalies_detected
       recommendations].
  match goal with
  | H1 : percentage (len (select df (fun r => mem_str (location r) _))) _ =
         Ok ?q1,
    H2 : percentage (len (select df (fun r => negb _))) _ = Ok ?q2 |- _ =>
      rename H1 into Hhigh; rename H2 into Hcross
  end.
  assert (Hpos : (0 < len df)%nat).
  { apply percentage_value in Hhigh. apply Hhigh. }
  assert (Hne : map location (rows df) <> []).
  { unfold len in Hpos. destruct (rows df); cbn in *; [lia | discriminate]. }
  destruct (unique_length String.eqb (map location (rows df))) as [Hu1 Hu2].
  specialize (Hu2 Hne). rewrite length_map in Hu1. fold (len df) in Hu1.
  fold (nunique String.eqb (map location (rows df))) in Hu1, Hu2.
  assert (Hmono : (a1 <= a2)%Q).
  { apply (@percentage_mono _ _ _ _ _ Hhigh Hcross). unfold len, select.
    cbn [rows]. apply filter_length_imp. intros r.
    apply high_risk_is_cross_border. }
  assert (Hdiv : (0 < Qofnat (nunique String.eqb (map location (rows df))) /
                      Qofnat (len df) <= 1)%Q).
  { split.
    - apply Qlt_shift_div_l; [unfold Qofnat, Qlt; cbn; lia|].
      rewrite Qmult_0_l. unfold Qofnat, Qlt. cbn. lia.
    - apply Qle_shift_div_r; [unfold Qofnat, Qlt; cbn; lia|].
      rewrite Qmult_1_l. unfold Qofnat. rewrite <- Zle_Qle. lia. }
  split; [exact Hmono|].
  destruct (Nat.ltb 0 (len df)) eqn:E0; [|apply Nat.ltb_ge in E0; lia].
  clear Hhigh Hcross Ha Ha0.
  clear Etop. destruct top as [|[top n] ?];
    [|destruct (Qlt_bool 0.5 (Qofnat n / Qofnat (len df)))];
    destruct (andb _ _);
    destruct (Qlt_bool 10 a1); destruct (Qlt_bool 20 a2);
    cbn [app existsb severity String.eqb Ascii.eqb Bool.eqb orb length map
         anomaly_risk_level Nat.ltb Nat.leb Nat.eqb Nat.max Nat.add];
    (split; [reflexivity|]); (split; [exact (conj Hu2 Hu1)|]);
    (split; [exact Hdiv|]); (split; [lia | reflexivity]).
Qed.

(** ** Behavioral profiling: what the alerts can and cannot say *)

Lemma behavioral_profiling_found {L : Libs} (now : Z) (w : World)
  (res : AnalyticsResult) :
  fst (behavioral_profiling now w) = Ok res ->
  let behavioral_df := map (profile_of (table w)) (customer_index (table w)) in
  behavioral_report now (table w)
    (length (customer_index (table w)), behavioral_df,
     if Nat.ltb 5 (length behavioral_df)
     then outliers (isolation_forest (engine w)) behavioral_df else []) = Ok res.
Proof.
  rewrite behavioral_profiling_run, customer_behavior_run. cbv zeta.
  destruct (has_column (table w) "customer_id") eqn:Hc.
  - destruct (profile_columns (table w)); [|discriminate].
    destruct (Nat.ltb 5 _); cbn [fst]; auto.
  - cbn [fst]. unfold behavioral_report. intros H. do 3 bind_inv H.
    apply require_ok in Ha1. congruence.
Qed.

Lemma velocity_of_le {L : Libs} (customer_data : list Row) :
  (velocity_of customer_data <= Qofnat (length customer_data))%Q.
Proof.
  unfold velocity_of.
  assert (H1 : (1 <= inject_Z (Z.max (date_range customer_data) 1))%Q).
  { rewrite <- (Zle_Qle 1). lia. }
  assert (H0 : (0 <= Qofnat (length customer_data))%Q).
  { unfold Qofnat. rewrite <- (Zle_Qle 0). lia. }
  apply Qle_shift_div_r; [lra|].
  rewrite <- (Qmult_1_l (Qofnat (length customer_data))) at 1.
  rewrite (Qmult_comm (Qofnat (length customer_data))).
  apply Qmult_le_compat_r; assumption.
Qed.

Lemma alert_shape (kind sev text : string) (found : list Behavioral.profile) :
  alert kind sev text found = [] /\ found = [] \/
  (exists a, alert kind sev text found = [a] /\ severity a = sev) /\
  found <> [].
Proof.
  unfold alert. destruct found as [|p found]; cbn [length Nat.ltb Nat.leb].
  - left. auto.
  - right. split; [eexists; split; reflexivity | discriminate].
Qed.

(** X12: what a result of [behavioral_profiling] can say.  The risk level
    is [HIGH] only if some customer has more than 10 transactions in the
    table (a velocity above 10 per day needs them); if no customer has more
    than 5 transactions and no amount is a multiple of 1000, there is no
    alert at all and the level is [LOW].  There are never more than three
    alerts nor more suspicious customers than customers, and with at most
    5 customers none is suspicious: the isolation forest is not asked. *)
Theorem behavioral_alerts_need_volume {L : Libs} (now : Z) (w : World)
  (res : AnalyticsResult) (s : Behavioral.summary) :
  fst (behavioral_profiling now w) = Ok res ->
  summary res = BehavioralSummary s ->
  (Behavioral.risk_level s = "HIGH" ->
   exists id, (10 < length (customer_data_of (table w) id))%nat) /\
  ((forall id, (length (customer_data_of (table w) id) <= 5)%nat) ->
   (forall r, In r (rows (table w)) -> is_multiple_of_1000 (amount r) = false) ->
   Behavioral.behavioral_alerts_count s = 0%nat /\
   Behavioral.risk_level s = "LOW") /\
  (Behavioral.behavioral_alerts_count s <= 3)%nat /\
  (Behavioral.suspicious_customers_count s <= Behavioral.total_customers s)%nat /\
  ((Behavioral.total_customers s <= 5)%nat ->
   Behavioral.suspicious_customers_count s = 0%nat).
Proof.
  intros H Hs. apply behavioral_profiling_found in H. cbv zeta in H.
  set (df := table w) in *.
  set (bdf := map (profile_of df) (customer_index df)) in *.
  unfold behavioral_report in H. do 4 bind_inv H. injection H as <-.
  cbn [summary] in Hs. injection Hs as <-.
  cbn [Behavioral.risk_level Behavioral.behavioral_alerts_count
       Behavioral.suspicious_customers_count Behavioral.total_customers
       fst snd].
  assert (Hlen : length bdf = length (customer_index df)).
  { unfold bdf. apply length_map. }
  assert (Hprofile : forall p, In p bdf ->
            exists id,
              Behavioral.profile_transaction_count p =
                length (customer_data_of df id) /\
              Behavioral.velocity p = velocity_of (customer_data_of df id) /\
              Behavioral.round_amount_percentage p =
                (Qofnat (length (filter is_multiple_of_1000
                                   (map amount (customer_data_of df id)))) /
                 Qofnat (length (customer_data_of df id)) * 100)%Q).
  { intros p Hp. unfold bdf in Hp. apply in_map_iff in Hp.
    destruct Hp as [id [<- _]]. exists id. repeat split. }
  unfold behavioral_alerts_of.
  set (f1 := filter (fun p => Qlt_bool 10 (Behavioral.velocity p)) bdf).
  set (f2 := filter (fun p => Qlt_bool 50 (Behavioral.round_amount_percentage p))
                    bdf).
  set (f3 := filter _ bdf).
  assert (H1 : f1 <> [] -> exists id, (10 < length (customer_data_of df id))%nat).
  { intros Hne. destruct f1 as [|p f1'] eqn:E1; [congruence|].
    assert (Hp : In p f1) by (rewrite E1; left; reflexivity).
    unfold f1 in Hp. apply filter_In in Hp. destruct Hp as [Hp Hv].
    destruct (Hprofile p Hp) as [id (_ & Hvel & _)]. exists id.
    rewrite Hvel in Hv. unfold Qlt_bool in Hv. apply negb_true_iff in Hv.
    assert (Hlt : (10 < velocity_of (customer_data_of df id))%Q).
    { apply Qnot_le_lt. intros Hle. apply Qle_bool_iff in Hle. congruence. }
    pose proof (velocity_of_le (customer_data_of df id)) as Hle.
    assert (Hq : (inject_Z 10 < Qofnat (length (customer_data_of df id)))%Q).
    { change (inject_Z 10) with (10:Q).
      apply Qlt_le_trans with (velocity_of (customer_data_of df id));
        assumption. }
    unfold Qofnat in Hq. rewrite <- Zlt_Qlt in Hq. lia. }
  assert (Hquiet :
            (forall id, (length (customer_data_of df id) <= 5)%nat) ->
            (forall r, In r (rows df) -> is_multiple_of_1000 (amount r) = false) ->
            f1 = [] /\ f2 = [] /\ f3 = []).
  { intros Hfew Hround. split; [|split].
    - destruct f1 eqn:E1; [reflexivity|]. exfalso.
      destruct H1 as [id Hid]; [discriminate|]. specialize (Hfew id). lia.
    - unfold f2. apply filter_nil. intros p Hp.
      destruct (Hprofile p Hp) as [id (_ & _ & ->)].
      rewrite (filter_nil is_multiple_of_1000
                 (map amount (customer_data_of df id))).
      + unfold Qlt_bool. apply negb_false_iff. apply Qle_bool_iff.
        cbn [length]. unfold Qdiv. rewrite !Qmult_0_l. discriminate.
      + intros q Hq. apply in_map_iff in Hq. destruct Hq as [r [<- Hr]].
        apply Hround. unfold customer_data_of in Hr. apply filter_In in Hr.
        tauto.
    - unfold f3. apply filter_nil. intros p Hp.
      destruct (Hprofile p Hp) as [id (-> & _ & _)].
      specialize (Hfew id).
      destruct (Nat.ltb 5 _) eqn:E5; [apply Nat.ltb_lt in E5; lia|].
      rewrite !andb_false_r. reflexivity. }
  destruct (@alert_shape "high_velocity" "HIGH"
              " customers show high transaction velocity" f1)
    as [[A1 F1]|[[x1 [A1 S1]] F1]];
  destruct (@alert_shape "round_amounts" "MEDIUM"
              " customers prefer round amounts (possible structuring)" f2)
    as [[A2 F2]|[[x2 [A2 S2]] F2]];
  destruct (@alert_shape "low_diversity" "MEDIUM"
              " customers show low behavioral diversity" f3)
    as [[A3 F3]|[[x3 [A3 S3]] F3]];
  rewrite A1, A2, A3;
  (split; [|split; [|split; [|split]]]).
  all: try (destruct (Nat.ltb 0 (length bdf));
            unfold anomaly_risk_level;
            cbn [app existsb length Nat.ltb Nat.leb orb];
            rewrite ?S1, ?S2, ?S3;
            cbn [String.eqb Ascii.eqb Bool.eqb orb];
            solve [ discriminate
                  | lia
                  | intros _; apply H1; exact F1
                  | intros Hfew Hround;
                    destruct (Hquiet Hfew Hround) as (Q1 & Q2 & Q3); congruence
                  | intros Hfew Hround; split; reflexivity ]).
  all: try (destruct (Nat.ltb 5 (length bdf)) eqn:E5;
            [|cbn [length]; solve [lia | intros; reflexivity]];
            unfold outliers;
            solve [ etransitivity; [apply filter_length_le'|];
                    rewrite length_combine, <- Hlen; lia
                  | intros Hle; apply Nat.ltb_lt in E5; lia ]).
Qed.

(** ** Predictive risk modelling: the range of the score *)

Lemma payment_risk_range (k : string) :
  (0.1 <= risk_lookup payment_risk_scores k <= 0.9)%Q.
Proof.
  unfold payment_risk_scores. cbn [risk_lookup].
  repeat match goal with
         | |- context [String.eqb k ?s] => destruct (String.eqb k s)
         end; split; unfold Qle; cbn; lia.
Qed.

Lemma merchant_risk_range (k : string) :
  (0.1 <= risk_lookup merchant_risk_scores k <= 0.9)%Q.
Proof.
  unfold merchant_risk_scores. cbn [risk_lookup].
  repeat match goal with
         | |- context [String.eqb k ?s] => destruct (String.eqb k s)
         end; split; unfold Qle; cbn; lia.
Qed.

Lemma composite_risk_score_value (a b c d p m : Q) :
  (composite_risk_score [a; b; c; d; p; m] ==
   (a * 0.15 + b * 0.10 + c * 0.20 + d * 0.25 + p * 0.15 + m * 0.15) * 100)%Q.
Proof.
  unfold composite_risk_score, weights. cbn [combine fold_left fst snd]. ring.
Qed.

Lemma cut_risk_level_inv (score : Q) (l : string) :
  cut_risk_level score = Some l ->
  (l = "LOW" /\ 0 < score <= 25)%Q \/
  (l = "MEDIUM" /\ 25 < score <= 50)%Q \/
  (l = "HIGH" /\ 50 < score <= 75)%Q \/
  (l = "CRITICAL" /\ 75 < score <= 100)%Q.
Proof.
  unfold cut_risk_level, Qlt_bool.
  repeat match goal with
         | |- context [Qle_bool ?a ?b] =>
             let E := fresh "E" in
             destruct (Qle_bool a b) eqn:E;
             [apply Qle_bool_iff in E | apply Qle_bool_false in E]
         end; cbn [negb andb]; intros [= <-]; try lra;
    try (left; split; [reflexivity | lra]);
    try (right; left; split; [reflexivity | lra]);
    try (right; right; left; split; [reflexivity | lra]);
    try (right; right; right; split; [reflexivity | lra]).
Qed.

Lemma Z_of_bool_range (b : bool) : (0 <= inject_Z (Z_of_bool b) <= 1)%Q.
Proof. destruct b; split; unfold Qle; cbn; lia. Qed.

Lemma score_row_value {L : Libs} (q90 : option Q) (r : Row) :
  exists a b c p m : Q,
    (Predictive.predicted_risk_score (score_row q90 r) ==
     (a * 0.15 + b * 0.10 + c * 0.20 +
      inject_Z (Z_of_bool (mem_str (location r) predictive_high_risk_locations))
      * 0.25 + p * 0.15 + m * 0.15) * 100)%Q /\
    (0 <= a <= 1)%Q /\ (0 <= b <= 1)%Q /\ (0 <= c <= 1)%Q /\
    (0.1 <= p <= 0.9)%Q /\ (0.1 <= m <= 0.9)%Q.
Proof.
  unfold score_row. cbn [Predictive.predicted_risk_score].
  eexists. eexists. eexists. eexists. eexists.
  split; [apply composite_risk_score_value|].
  repeat split; try apply Z_of_bool_range;
    try apply payment_risk_range; apply merchant_risk_range.
Qed.

Lemma cut_risk_level_defined (score : Q) :
  (0 < score <= 100)%Q ->
  exists l, cut_risk_level score = Some l /\
            In l ["LOW"; "MEDIUM"; "HIGH"; "CRITICAL"].
Proof.
  intros Hs. destruct (cut_risk_level_bins score) as (B1 & B2 & B3 & B4 & _).
  destruct (Qlt_le_dec 25 score) as [H25|H25];
    [destruct (Qlt_le_dec 50 score) as [H50|H50];
     [destruct (Qlt_le_dec 75 score) as [H75|H75]|]|].
  - exists "CRITICAL". split; [apply B4; split; lra | cbn; auto 6].
  - exists "HIGH". split; [apply B3; split; lra | cbn; auto 6].
  - exists "MEDIUM". split; [apply B2; split; lra | cbn; auto 6].
  - exists "LOW". split; [apply B1; split; lra | cbn; auto 6].
Qed.

(** The score of a transaction is between 3 and 97 and falls into a bin. *)
Lemma score_row_range {L : Libs} (q90 : option Q) (r : Row) :
  let x := score_row q90 r in
  (3 <= Predictive.predicted_risk_score x <= 97)%Q /\
  exists l, Predictive.predicted_risk_level x = Some l /\
            In l ["LOW"; "MEDIUM"; "HIGH"; "CRITICAL"].
Proof.
  cbv zeta.
  destruct (score_row_value q90 r)
    as (a & b & c & p & m & Hscore & Ha & Hb & Hc & Hp & Hm).
  pose proof (Z_of_bool_range
                (mem_str (location r) predictive_high_risk_locations)) as Hd.
  assert (Hrange : (3 <= Predictive.predicted_risk_score (score_row q90 r)
                    <= 97)%Q) by (rewrite Hscore; lra).
  split; [exact Hrange|].
  change (Predictive.predicted_risk_level (score_row q90 r))
    with (cut_risk_level (Predictive.predicted_risk_score (score_row q90 r))).
  apply cut_risk_level_defined. lra.
Qed.

(** X13: the score that [predictive_risk_modeling] gives a transaction,
    whatever the 90% quantile of the amounts: it lies between 3 and 97, so
    every transaction falls into one of the four bins and none is left
    unclassified; [CRITICAL] is reached only at a high-risk location (all
    other factors together give at most 72), and a transaction at a
    high-risk location scores at least 28 and is never [LOW]. *)
Theorem predicted_risk_score_range {L : Libs} (q90 : option Q) (r : Row) :
  let x := score_row q90 r in
  (3 <= Predictive.predicted_risk_score x <= 97)%Q /\
  (exists l, Predictive.predicted_risk_level x = Some l /\
             In l ["LOW"; "MEDIUM"; "HIGH"; "CRITICAL"]) /\
  (Predictive.predicted_risk_level x = Some "CRITICAL" ->
   mem_str (location r) predictive_high_risk_locations = true) /\
  (mem_str (location r) predictive_high_risk_locations = true ->
   (28 <= Predictive.predicted_risk_score x)%Q /\
   Predictive.predicted_risk_level x <> Some "LOW").
Proof.
  cbv zeta.
  destruct (score_row_value q90 r)
    as (a & b & c & p & m & Hscore & Ha & Hb & Hc & Hp & Hm).
  change (Predictive.predicted_risk_level (score_row q90 r))
    with (cut_risk_level (Predictive.predicted_risk_score (score_row q90 r))).
  set (score := Predictive.predicted_risk_score (score_row q90 r)) in *.
  set (hr := mem_str (location r) predictive_high_risk_locations) in *.
  pose proof (Z_of_bool_range hr) as Hd.
  clearbody score.
  assert (Hrange : (3 <= score <= 97)%Q) by (rewrite Hscore; lra).
  split; [exact Hrange|].
  split; [apply cut_risk_level_defined; lra|].
  split.
  - intros Hcrit. apply cut_risk_level_inv in Hcrit.
    destruct Hcrit as [[E _]|[[E _]|[[E _]|[_ Hl]]]]; try discriminate.
    destruct hr; [reflexivity|]. exfalso.
    cbn [Z_of_bool] in Hscore. change (inject_Z 0) with 0%Q in Hscore.
    rewrite Hscore in Hl. lra.
  - intros Hhr. rewrite Hhr in Hscore.
    cbn [Z_of_bool] in Hscore. change (inject_Z 1) with 1%Q in Hscore.
    assert (H28 : (28 <= score)%Q) by (rewrite Hscore; lra).
    split; [exact H28|].
    intros Hlow. apply cut_risk_level_inv in Hlow.
    destruct Hlow as [[_ Hl]|[[E _]|[[E _]|[E _]]]]; try discriminate.
    lra.
Qed.

(** ** Predictive risk modelling: the result *)

Lemma insert_sorted_sum {A} (leb : A -> A -> bool) (f : A -> nat) (x : A)
  (l : list A) :
  list_sum (map f (insert_sorted leb x l)) = (f x + list_sum (map f l))%nat.
Proof.
  induction l as [|y l IH]; simpl; [reflexivity|].
  destruct (leb x y); simpl; [reflexivity|]. rewrite IH. lia.
Qed.

Lemma sort_sum {A} (leb : A -> A -> bool) (f : A -> nat) (l : list A) :
  list_sum (map f (sort leb l)) = list_sum (map f l).
Proof.
  unfold sort. induction l as [|x l IH]; simpl; [reflexivity|].
  rewrite insert_sorted_sum, IH. reflexivity.
Qed.

Lemma levels_partition {L : Libs} (feature_df : list Predictive.scored) :
  (forall x, In x feature_df ->
     exists l, Predictive.predicted_risk_level x = Some l /\
               In l ["LOW"; "MEDIUM"; "HIGH"; "CRITICAL"]) ->
  (length (filter (has_level ["LOW"]) feature_df) +
   length (filter (has_level ["MEDIUM"]) feature_df) +
   length (filter (has_level ["HIGH"]) feature_df) +
   length (filter (has_level ["CRITICAL"]) feature_df) = length feature_df)%nat /\
  (length (filter (has_level ["HIGH"; "CRITICAL"]) feature_df) =
   length (filter (has_level ["HIGH"]) feature_df) +
   length (filter (has_level ["CRITICAL"]) feature_df))%nat.
Proof.
  induction feature_df as [|x l IH]; intros H; [split; reflexivity|].
  destruct IH as [IH1 IH2]; [intros y Hy; apply H; right; exact Hy|].
  destruct (H x (or_introl eq_refl)) as [lv [Hlv Hin]].
  assert (Hhas : forall ls, has_level ls x = mem_str lv ls).
  { intros ls. unfold has_level. rewrite Hlv. reflexivity. }
  cbn [filter]. rewrite !Hhas.
  remember (filter (has_level ["LOW"]) l) as f1.
  remember (filter (has_level ["MEDIUM"]) l) as f2.
  remember (filter (has_level ["HIGH"]) l) as f3.
  remember (filter (has_level ["CRITICAL"]) l) as f4.
  remember (filter (has_level ["HIGH"; "CRITICAL"]) l) as f5.
  cbn in Hin. destruct Hin as [<-|[<-|[<-|[<-|[]]]]]; cbn; lia.
Qed.

Lemma Qsum_range (lo hi : Q) (l : list Q) :
  (forall x, In x l -> (lo <= x <= hi)%Q) ->
  (lo * Qofnat (length l) <= Qsum l <= hi * Qofnat (length l))%Q.
Proof.
  unfold Qsum, Qofnat. induction l as [|x l IH]; intros H.
  - cbn [length fold_right]. change (inject_Z (Z.of_nat 0)) with 0%Q. lra.
  - cbn [length fold_right]. rewrite Nat2Z.inj_succ. unfold Z.succ.
    rewrite inject_Z_plus.
    destruct (H x (or_introl eq_refl)) as [H1 H2].
    destruct IH as [I1 I2]; [intros y Hy; apply H; right; exact Hy|].
    change (inject_Z 1) with 1%Q. split; lra.
Qed.

Lemma Qmean_range (lo hi : Q) (l : list Q) :
  l <> [] -> (forall x, In x l -> (lo <= x <= hi)%Q) ->
  exists m, Qmean l = Some m /\ (lo <= m <= hi)%Q.
Proof.
  intros Hne H. unfold Qmean. destruct l as [|x l']; [congruence|].
  eexists. split; [reflexivity|].
  assert (Hpos : (0 < Qofnat (length (x :: l')))%Q).
  { unfold Qofnat, Qlt. cbn. lia. }
  destruct (@Qsum_range lo hi (x :: l') H) as [H1 H2]. split.
  - apply Qle_shift_div_l; assumption.
  - apply Qle_shift_div_r; assumption.
Qed.

(** The score of a transaction written out from its cells. *)
Lemma score_row_cells {L : Libs} (q90 : option Q) (r : Row) :
  (Predictive.predicted_risk_score (score_row q90 r) ==
   (inject_Z (Z_of_bool (mem_Z ((timestamp r / 3600000000000) mod 24)
                               [0; 1; 2; 3; 22; 23])%Z) * 0.15 +
    inject_Z (Z_of_bool (is_multiple_of_1000 (amount r))) * 0.10 +
    inject_Z (Z_of_bool (match q90 with
                         | Some q => Qlt_bool q (amount r)
                         | None => false
                         end)) * 0.20 +
    inject_Z (Z_of_bool (mem_str (location r)
                                 ["Border_Area"; "Unknown"; "Offshore"])) * 0.25 +
    risk_lookup payment_risk_scores (payment_method r) * 0.15 +
    risk_lookup merchant_risk_scores (merchant_category r) * 0.15) * 100)%Q.
Proof.
  unfold score_row. cbn [Predictive.predicted_risk_score].
  apply composite_risk_score_value.
Qed.

Lemma Qle_bool_Qeq (a b c d : Q) :
  (a == b)%Q -> (c == d)%Q -> Qle_bool a c = Qle_bool b d.
Proof.
  intros H1 H2.
  destruct (Qle_bool a c) eqn:E1, (Qle_bool b d) eqn:E2; try reflexivity.
  - apply Qle_bool_iff in E1. rewrite H1, H2 in E1.
    apply Qle_bool_iff in E1. congruence.
  - apply Qle_bool_iff in E2. rewrite <- H1, <- H2 in E2.
    apply Qle_bool_iff in E2. congruence.
Qed.

(** The level of a transaction, by the bin of its score. *)
Lemma has_level_bins {L : Libs} (q90 : option Q) (r : Row) (score : Q) :
  (Predictive.predicted_risk_score (score_row q90 r) == score)%Q ->
  let within := fun lo hi : Q => andb (Qlt_bool lo score) (Qle_bool score hi) in
  has_level ["LOW"] (score_row q90 r) = within 0%Q 25%Q /\
  has_level ["MEDIUM"] (score_row q90 r) = within 25%Q 50%Q /\
  has_level ["HIGH"] (score_row q90 r) = within 50%Q 75%Q /\
  has_level ["CRITICAL"] (score_row q90 r) = within 75%Q 100%Q /\
  has_level ["HIGH"; "CRITICAL"] (score_row q90 r) = within 50%Q 100%Q.
Proof.
  intros Hs. cbv zeta. unfold has_level.
  change (Predictive.predicted_risk_level (score_row q90 r))
    with (cut_risk_level (Predictive.predicted_risk_score (score_row q90 r))).
  unfold cut_risk_level, Qlt_bool.
  assert (Hk : forall k, Qle_bool (Predictive.predicted_risk_score
                                      (score_row q90 r)) k = Qle_bool score k)
    by (intros k; apply Qle_bool_Qeq; [exact Hs | reflexivity]).
  rewrite !Hk. clear Hs Hk.
  repeat match goal with
         | |- context [Qle_bool ?a ?b] =>
             let E := fresh "E" in
             destruct (Qle_bool a b) eqn:E;
             [apply Qle_bool_iff in E | apply Qle_bool_false in E]
         end; cbn [negb andb]; try (exfalso; lra);
    repeat split; reflexivity.
Qed.

Lemma Qsum_Qeq {A} (f g : A -> Q) (l : list A) :
  (forall x, (f x == g x)%Q) -> (Qsum (map f l) == Qsum (map g l))%Q.
Proof.
  intros H. unfold Qsum. induction l as [|x l IH]; cbn [map fold_right].
  - reflexivity.
  - rewrite IH, (H x). reflexivity.
Qed.

Lemma filter_map_inverse {A B} (f : A -> B) (g : B -> A) (p : B -> bool)
  (l : list A) :
  (forall x, g (f x) = x) ->
  map g (filter p (map f l)) = filter (fun x => p (f x)) l.
Proof.
  intros H. induction l as [|a l IH]; cbn; [reflexivity|].
  destruct (p (f a)); cbn; rewrite ?H, IH; reflexivity.
Qed.

(** X14: the summary of [predictive_risk_modeling] counts the table's
    transactions by their score, which is 100 times the weighted sum (0.15,
    0.10, 0.20, 0.25, 0.15, 0.15) of: hour in 0-3, 22, 23; amount a multiple
    of 1000; amount above the 90% quantile; location one of Border_Area,
    Unknown, Offshore; the payment method's and the merchant category's
    risk.  The risk distribution lists, for [LOW], [MEDIUM], [HIGH] and
    [CRITICAL], the number of transactions scoring in (0, 25], (25, 50],
    (50, 75] and (75, 100], and every transaction is in exactly one of
    them; [high_risk_count] is the number of transactions scoring above 50,
    the first 50 of which are listed, in table order; the average score is
    the mean of the scores and lies between 3 and 97; the risk level is
    [HIGH] exactly when more than one transaction in ten is high risk, and
    [LOW] exactly when none is. *)
Theorem predictive_summary_consistent {L : Libs} (now : Z) (w : World)
  (res : AnalyticsResult) (s : Predictive.summary) (d : Predictive.details) :
  fst (predictive_risk_modeling now w) = Ok res ->
  summary res = PredictiveSummary s ->
  detailed_results res = PredictiveDetails d ->
  let q90 := quantile_90 (map amount (rows (table w))) in
  let score := fun r : Row =>
    ((inject_Z (Z_of_bool (mem_Z ((timestamp r / 3600000000000) mod 24)
                                 [0; 1; 2; 3; 22; 23])%Z) * 0.15 +
      inject_Z (Z_of_bool (is_multiple_of_1000 (amount r))) * 0.10 +
      inject_Z (Z_of_bool (match q90 with
                           | Some q => Qlt_bool q (amount r)
                           | None => false
                           end)) * 0.20 +
      inject_Z (Z_of_bool (mem_str (location r)
                                   ["Border_Area"; "Unknown"; "Offshore"])) * 0.25 +
      risk_lookup payment_risk_scores (payment_method r) * 0.15 +
      risk_lookup merchant_risk_scores (merchant_category r) * 0.15) * 100)%Q in
  let scoring := fun lo hi : Q =>
    filter (fun r => andb (Qlt_bool lo (score r)) (Qle_bool (score r) hi))
           (rows (table w)) in
  Predictive.total_transactions_analyzed s = len (table w) /\
  list_sum (map snd (Predictive.risk_distribution d)) = len (table w) /\
  (Predictive.high_risk_count s <= len (table w))%nat /\
  (exists avg, Predictive.average_risk_score s = Some avg /\
               (3 <= avg <= 97)%Q /\
               (avg == Qsum (map score (rows (table w))) /
                       Qofnat (len (table w)))%Q) /\
  (Predictive.risk_level s = "HIGH" <->
   (len (table w) < 10 * Predictive.high_risk_count s)%nat) /\
  (Predictive.risk_level s = "LOW" <-> Predictive.high_risk_count s = 0%nat) /\
  Permutation (Predictive.risk_distribution d)
    [("LOW", length (scoring 0%Q 25%Q));
     ("MEDIUM", length (scoring 25%Q 50%Q));
     ("HIGH", length (scoring 50%Q 75%Q));
     ("CRITICAL", length (scoring 75%Q 100%Q))] /\
  Predictive.high_risk_count s = length (scoring 50%Q 100%Q) /\
  map Predictive.transaction (Predictive.high_risk_transactions d) =
    firstn 50 (scoring 50%Q 100%Q).
Proof.
  intros H Hs Hd q90 score scoring. revert H Hs Hd.
  rewrite predictive_risk_modeling_run. cbn [fst].
  set (df := table w) in *. unfold predictive_risk_modeling_on. intros H Hs Hd.
  do 5 bind_inv H.
  set (fdf := map (score_row (quantile_90 (map amount (rows df)))) (rows df))
    in *.
  bind_inv H. injection H as <-.
  cbn [summary detailed_results] in Hs, Hd.
  injection Hs as <-. injection Hd as <-.
  cbn [Predictive.total_transactions_analyzed Predictive.risk_distribution
       Predictive.high_risk_count Predictive.average_risk_score
       Predictive.risk_level Predictive.high_risk_transactions].
  assert (Hlen : length fdf = len df) by (unfold fdf; apply length_map).
  assert (Hlevels : forall x, In x fdf ->
            exists l, Predictive.predicted_risk_level x = Some l /\
                      In l ["LOW"; "MEDIUM"; "HIGH"; "CRITICAL"]).
  { intros x Hx. unfold fdf in Hx. apply in_map_iff in Hx.
    destruct Hx as [r [<- _]].
    exact (proj2 (score_row_range
                    (quantile_90 (map amount (rows df))) r)). }
  assert (Hscore : forall r,
            (Predictive.predicted_risk_score (score_row q90 r) == score r)%Q).
  { intros r. apply score_row_cells. }
  assert (Hbin : forall (l : list string) (lo hi : Q),
            (forall r, has_level l (score_row q90 r) =
                       andb (Qlt_bool lo (score r)) (Qle_bool (score r) hi)) ->
            filter (fun r => has_level l (score_row q90 r)) (rows df) =
            scoring lo hi).
  { intros l lo hi Hl. unfold scoring. apply filter_ext. exact Hl. }
  assert (Hcount : forall (l : list string) (lo hi : Q),
            (forall r, has_level l (score_row q90 r) =
                       andb (Qlt_bool lo (score r)) (Qle_bool (score r) hi)) ->
            length (filter (has_level l) fdf) = length (scoring lo hi)).
  { intros l lo hi Hl. unfold fdf. rewrite filter_map_length.
    fold q90. rewrite (Hbin l lo hi Hl). reflexivity. }
  assert (C1 := Hcount ["LOW"] 0%Q 25%Q
                  (fun r => proj1 (has_level_bins (Hscore r)))).
  assert (C2 := Hcount ["MEDIUM"] 25%Q 50%Q
                  (fun r => proj1 (proj2 (has_level_bins (Hscore r))))).
  assert (C3 := Hcount ["HIGH"] 50%Q 75%Q
                  (fun r => proj1 (proj2 (proj2
                              (has_level_bins (Hscore r)))))).
  assert (C4 := Hcount ["CRITICAL"] 75%Q 100%Q
                  (fun r => proj1 (proj2 (proj2 (proj2
                              (has_level_bins (Hscore r))))))).
  assert (C5 := Hcount ["HIGH"; "CRITICAL"] 50%Q 100%Q
                  (fun r => proj2 (proj2 (proj2 (proj2
                              (has_level_bins (Hscore r))))))).
  assert (Htail :
    Permutation (risk_distribution_of fdf)
      [("LOW", length (scoring 0%Q 25%Q));
       ("MEDIUM", length (scoring 25%Q 50%Q));
       ("HIGH", length (scoring 50%Q 75%Q));
       ("CRITICAL", length (scoring 75%Q 100%Q))] /\
    length (filter (has_level ["HIGH"; "CRITICAL"]) fdf) =
      length (scoring 50%Q 100%Q) /\
    map Predictive.transaction
        (firstn 50 (filter (has_level ["HIGH"; "CRITICAL"]) fdf)) =
      firstn 50 (scoring 50%Q 100%Q)).
  { split.
    { unfold risk_distribution_of. rewrite sort_Permutation.
      cbn [map]. rewrite C1, C2, C3, C4. reflexivity. }
    split; [exact C5|].
    rewrite <- firstn_map. f_equal. unfold fdf. fold q90.
    rewrite (@filter_map_inverse _ _ (score_row q90) Predictive.transaction)
      by reflexivity.
    apply Hbin.
    exact (fun r => proj2 (proj2 (proj2 (proj2
                       (has_level_bins (Hscore r)))))). }
  assert (Hmean : (Qsum (map Predictive.predicted_risk_score fdf) ==
                   Qsum (map score (rows df)))%Q).
  { unfold fdf. rewrite map_map. fold q90. apply Qsum_Qeq. exact Hscore. }
  clear C1 C2 C3 C4 C5 Hcount Hbin.
  destruct (@levels_partition L fdf Hlevels) as [Hpart Hhigh].
  set (hr := length (filter (has_level ["HIGH"; "CRITICAL"]) fdf)) in *.
  assert (Hhr : (hr <= length fdf)%nat) by apply filter_length_le'.
  split; [exact Hlen|]. split.
  { unfold risk_distribution_of. rewrite sort_sum.
    unfold list_sum. cbn [map fold_right snd]. lia. }
  split; [lia|].
  unfold py_div in Ha4. destruct (length fdf) as [|n] eqn:En; [discriminate|].
  injection Ha4 as <-. rewrite <- Hlen.
  split.
  { destruct (@Qmean_range 3 97 (map Predictive.predicted_risk_score fdf))
      as [avg [Havg Hrange]].
    - intros Hnil. apply (f_equal (@length Q)) in Hnil.
      rewrite length_map, En in Hnil. discriminate.
    - intros q Hq. apply in_map_iff in Hq. destruct Hq as [x [<- Hx]].
      unfold fdf in Hx. apply in_map_iff in Hx. destruct Hx as [r [<- _]].
      exact (proj1 (score_row_range
                      (quantile_90 (map amount (rows df))) r)).
    - exists avg. split; [exact Havg|]. split; [exact Hrange|].
      unfold Qmean in Havg.
      destruct (map Predictive.predicted_risk_score fdf) as [|y ys] eqn:Ey;
        [discriminate|].
      assert (Hl : length (y :: ys) = S n)
        by (rewrite <- Ey, length_map; exact En).
      assert (Hv : avg = (Qsum (y :: ys) / Qofnat (length (y :: ys)))%Q)
        by congruence.
      rewrite Hv, Hmean, Hl. reflexivity. }
  assert (Hshare : Qlt_bool 0.1 (Qofnat hr / Qofnat (S n)) = true <->
                   (S n < 10 * hr)%nat).
  { unfold Qlt_bool. rewrite negb_true_iff, Qle_bool_false.
    unfold Qlt, Qofnat, Qdiv, Qmult, Qinv.
    cbn [Qnum Qden inject_Z Z.of_nat]. lia. }
  destruct (Qlt_bool 0.1 (Qofnat hr / Qofnat (S n))) eqn:Eshare.
  - pose proof (proj1 Hshare eq_refl) as Hmany. split.
    + split; [intros _; exact Hmany | reflexivity].
    + split; [split; [discriminate | lia] | exact Htail].
  - assert (Hfew : ~ (S n < 10 * hr)%nat).
    { intros Hmany. apply Hshare in Hmany. discriminate. }
    destruct (Nat.ltb 0 hr) eqn:E0.
    + apply Nat.ltb_lt in E0. split.
      * split; [discriminate | intros Hmany; contradiction].
      * split; [split; [discriminate | lia] | exact Htail].
    + apply Nat.ltb_ge in E0. split.
      * split; [discriminate | intros Hmany; contradiction].
      * split; [split; [lia | reflexivity] | exact Htail].
Qed.

Lemma Qmin_le_r (x y : Q) : (Qmin x y <= y)%Q.
Proof.
  unfold Qmin. destruct (Qle_bool x y) eqn:E.
  - apply Qle_bool_iff. exact E.
  - apply Qle_refl.
Qed.

Lemma Qmin_above (lo x y : Q) : (lo < x)%Q -> (lo < y)%Q -> (lo < Qmin x y)%Q.
Proof. unfold Qmin. destruct (Qle_bool x y); auto. Qed.

Lemma Qlt_bool_true (x y : Q) : Qlt_bool x y = true <-> (x < y)%Q.
Proof. unfold Qlt_bool. rewrite negb_true_iff. apply Qle_bool_false. Qed.

(** X15: the trend and the forecast of [predictive_risk_modeling].  With at
    most 10 transactions, or transactions on at most 3 distinct days, the
    trend is [INSUFFICIENT_DATA].  A forecast is made exactly for the trends
    [INCREASING] and [DECREASING], it is a single one, and the change it
    predicts is more than 10 and at most 25 points. *)
Theorem predictive_forecast_bounds {L : Libs} (now : Z) (w : World)
  (res : AnalyticsResult) (s : Predictive.summary) (d : Predictive.details) :
  fst (predictive_risk_modeling now w) = Ok res ->
  summary res = PredictiveSummary s ->
  detailed_results res = PredictiveDetails d ->
  In (Predictive.risk_trend s)
     ["INCREASING"; "DECREASING"; "STABLE"; "INSUFFICIENT_DATA"] /\
  ((len (table w) <= 10)%nat \/
   (nunique Z.eqb (map (fun r => days_of (timestamp r)) (rows (table w))) <= 3)%nat ->
   Predictive.risk_trend s = "INSUFFICIENT_DATA") /\
  match Predictive.future_predictions d with
  | [] => Predictive.risk_trend s = "STABLE" \/
          Predictive.risk_trend s = "INSUFFICIENT_DATA"
  | [Predictive.RiskIncrease v _] =>
      Predictive.risk_trend s = "INCREASING" /\ (10 < v <= 25)%Q
  | [Predictive.RiskDecrease v _] =>
      Predictive.risk_trend s = "DECREASING" /\ (10 < v <= 25)%Q
  | _ => False
  end.
Proof.
  rewrite predictive_risk_modeling_run. cbn [fst].
  set (df := table w). unfold predictive_risk_modeling_on. intros H Hs Hd.
  do 5 bind_inv H.
  set (fdf := map (score_row (quantile_90 (map amount (rows df)))) (rows df))
    in *.
  bind_inv H. injection H as <-.
  cbn [summary detailed_results] in Hs, Hd.
  injection Hs as <-. injection Hd as <-.
  cbn [Predictive.risk_trend Predictive.future_predictions].
  assert (Hlen : length fdf = len df) by (unfold fdf; apply length_map).
  assert (Hdays : length (daily_risk_of fdf) =
                  nunique Z.eqb (map (fun r => days_of (timestamp r)) (rows df))).
  { unfold daily_risk_of. rewrite length_map, sort_length. unfold fdf.
    rewrite map_map. reflexivity. }
  unfold risk_trend_of. rewrite Hlen, Hdays.
  destruct (Nat.ltb 10 (len df)) eqn:E10;
    [destruct (Nat.ltb 3 (nunique Z.eqb _)) eqn:E3|].
  - cbn [fst snd]. set (trend := (_ - _)%Q).
    apply Nat.ltb_lt in E10, E3.
    destruct (Qlt_bool 5 trend) eqn:Eup.
    + apply Qlt_bool_true in Eup. cbn [String.eqb Ascii.eqb Bool.eqb].
      split; [cbn; auto|]. split; [lia|]. split; [reflexivity|]. split.
      * apply Qmin_above; lra.
      * apply Qmin_le_r.
    + destruct (Qlt_bool trend (-5)) eqn:Edown.
      * apply Qlt_bool_true in Edown. cbn [String.eqb Ascii.eqb Bool.eqb].
        split; [cbn; auto|]. split; [lia|]. split; [reflexivity|]. split.
        -- apply Qmin_above; [|lra].
           rewrite Qabs_neg by lra. lra.
        -- apply Qmin_le_r.
      * cbn [String.eqb Ascii.eqb Bool.eqb].
        split; [cbn; auto|]. split; [lia|]. left. reflexivity.
  - cbn [fst snd String.eqb Ascii.eqb Bool.eqb].
    split; [cbn; auto 6|]. split; [reflexivity|]. right. reflexivity.
  - cbn [fst snd String.eqb Ascii.eqb Bool.eqb].
    split; [cbn; auto 6|]. split; [reflexivity|]. right. reflexivity.
Qed.

(** ** The report: overall level, completed analyses, executive summary *)

Lemma mean_at_least (k sum : Z) (n : nat) :
  (0 < n)%nat ->
  Qle_bool (inject_Z k) (inject_Z sum / Qofnat n) = true <->
  k * Z.of_nat n <= sum.
Proof.
  intros Hn. rewrite Qle_bool_iff. destruct n as [|n]; [lia|].
  unfold Qle, Qdiv, Qmult, Qinv, Qofnat.
  cbn [Qnum Qden inject_Z Z.of_nat]. rewrite Pos.mul_1_l, !Z.mul_1_r.
  reflexivity.
Qed.

Lemma Zsum_of_levels (levels : list string) :
  (forall l, In l levels -> In l ["LOW"; "MEDIUM"; "HIGH"]) ->
  let scores := map risk_score_of_level levels in
  25 * Z.of_nat (length scores) <= Zsum scores <= 75 * Z.of_nat (length scores) /\
  (Zsum scores = 75 * Z.of_nat (length scores) <->
   forall l, In l levels -> l = "HIGH") /\
  ((forall l, In l levels -> l = "LOW") ->
   Zsum scores = 25 * Z.of_nat (length scores)).
Proof.
  cbv zeta. induction levels as [|l levels IH]; intros H.
  - cbn. split; [lia|]. split; [|reflexivity]. split; [intros _ l []|reflexivity].
  - destruct IH as (I1 & I2 & I3); [intros l' Hl'; apply H; right; exact Hl'|].
    cbn [map length Zsum fold_right]. fold (Zsum (map risk_score_of_level levels)).
    rewrite Nat2Z.inj_succ.
    assert (Hl : In l ["LOW"; "MEDIUM"; "HIGH"]) by (apply H; left; reflexivity).
    cbn in Hl. destruct Hl as [<-|[<-|[<-|[]]]];
      change (risk_score_of_level "LOW") with 25;
      change (risk_score_of_level "MEDIUM") with 50;
      change (risk_score_of_level "HIGH") with 75.
    + split; [lia|]. split.
      * split; [lia|]. intros Hall.
        specialize (Hall "LOW" (or_introl eq_refl)). discriminate.
      * intros Hall. rewrite I3; [lia|]. intros l' Hl'. apply Hall. right.
        exact Hl'.
    + split; [lia|]. split.
      * split; [lia|]. intros Hall.
        specialize (Hall "MEDIUM" (or_introl eq_refl)). discriminate.
      * intros Hall. specialize (Hall "MEDIUM" (or_introl eq_refl)).
        discriminate.
    + split; [lia|]. split.
      * split.
        -- intros Hs l' [<-|Hl']; [reflexivity|]. apply I2; [lia | exact Hl'].
        -- intros Hall. assert (Zsum (map risk_score_of_level levels) =
                                 75 * Z.of_nat (length (map risk_score_of_level levels))).
           { apply I2. intros l' Hl'. apply Hall. right. exact Hl'. }
           lia.
      * intros Hall. specialize (Hall "HIGH" (or_introl eq_refl)).
        discriminate.
Qed.

Lemma reported_risk_levels_app (rs1 rs2 : list (string * AnalyticsResult)) :
  reported_risk_levels (rs1 ++ rs2) =
  reported_risk_levels rs1 ++ reported_risk_levels rs2.
Proof. unfold reported_risk_levels. apply flat_map_app. Qed.

Lemma reported_risk_levels_completed (key : string)
  (o : result AnalyticsResult) (l : string) :
  In l (reported_risk_levels (completed key o)) ->
  exists r, o = Ok r /\ summary_risk_level (summary r) = Some l.
Proof.
  unfold reported_risk_levels.
  destruct o as [r|e]; cbn [completed flat_map snd]; [|intros []].
  destruct (summary_risk_level (summary r)) as [l'|] eqn:E;
    cbn [app In]; [|intros []].
  intros [<-|[]]. exists r. auto.
Qed.

Lemma is_one_of_In (levels : list string) (l : string) :
  is_one_of levels (Some l) -> In l levels.
Proof. intros [l' [[= <-] Hin]]. exact Hin. Qed.

(** The levels that enter the overall score of a report. *)
Lemma report_levels {L : Libs} (now : Z) (w : World) :
  let o1 := network_analysis now w in
  let o2 := temporal_pattern_analysis now (snd o1) in
  let o3 := geographic_clustering_analysis now (snd o2) in
  let o4 := behavioral_profiling now (snd o3) in
  let o5 := predictive_risk_modeling now (snd o4) in
  forall l,
    In l (reported_risk_levels
            (completed "network" (fst o1) ++ completed "temporal" (fst o2) ++
             completed "geographic" (fst o3) ++ completed "behavioral" (fst o4) ++
             completed "predictive" (fst o5))) ->
    In l ["LOW"; "MEDIUM"; "HIGH"].
Proof.
  cbv zeta. intros l. rewrite !reported_risk_levels_app, !in_app_iff.
  intros [H|[H|[H|[H|H]]]];
    apply reported_risk_levels_completed in H; destruct H as [r [Hr Hl]];
    apply is_one_of_In; rewrite <- Hl.
  - apply (network_analysis_level _ _ Hr).
  - apply (temporal_pattern_analysis_level _ _ Hr).
  - apply geographic_clustering_analysis_level in Hr.
    destruct (has_column _ "location"); [exact Hr|].
    rewrite Hr in Hl. discriminate.
  - apply (behavioral_risk_level_of _ _ Hr).
  - apply (predictive_risk_modeling_level _ _ Hr).
Qed.

(** X16: the overall risk level of a report is never [LOW].  The analyzers
    report only [LOW], [MEDIUM] and [HIGH], which count 25, 50 and 75, so the
    overall score, when there is one, lies between 25 and 75; a report whose
    analyses all say [LOW] is [MEDIUM] overall, and the overall level is
    [CRITICAL] exactly when every reporting analysis says [HIGH]. *)
Theorem report_overall_level_never_low {L : Libs} (now : Z) (w : World) :
  exists rep w',
    comprehensive_analysis_report now w = (Ok rep, w') /\
    let levels := reported_risk_levels (results rep) in
    let s := executive_summary rep in
    overall_risk_level s <> "LOW" /\
    (forall l, In l levels -> In l ["LOW"; "MEDIUM"; "HIGH"]) /\
    (levels <> [] ->
     (25 <= overall_risk_score s <= 75)%Q /\
     ((forall l, In l levels -> l = "LOW") -> overall_risk_level s = "MEDIUM") /\
     (overall_risk_level s = "CRITICAL" <->
      forall l, In l levels -> l = "HIGH")).
Proof.
  pose proof (comprehensive_analysis_report_run now w) as Hrun.
  pose proof (report_levels now w) as Hlevels.
  cbv zeta in Hrun, Hlevels.
  eexists. eexists. split; [exact Hrun|]. cbv zeta.
  cbn [results executive_summary]. unfold make_executive_summary.
  cbn [overall_risk_level overall_risk_score].
  rewrite overall_risk_scores_reported.
  match goal with
  | |- context [reported_risk_levels ?x] =>
      generalize dependent (reported_risk_levels x)
  end.
  clear Hrun. intros levels Hlevels.
  destruct (Zsum_of_levels levels Hlevels) as (Hsum & Hhigh & Hlow).
  cbv zeta in Hsum, Hhigh, Hlow.
  destruct levels as [|l0 levels'] eqn:El.
  - cbn. split; [discriminate|]. split; [intros l []|]. congruence.
  - rewrite <- El in *.
    assert (Hn : (0 < length (map risk_score_of_level levels))%nat).
    { rewrite El. cbn. lia. }
    clear El l0 levels'.
    remember (map risk_score_of_level levels) as scores eqn:Es.
    destruct scores as [|x sc]; [cbn in Hn; lia|].
    cbn [overall_risk fst snd].
    remember (Zsum (x :: sc)) as total eqn:Et.
    remember (length (x :: sc)) as n eqn:En.
    pose proof (@mean_at_least 75 total n Hn) as H75.
    pose proof (@mean_at_least 50 total n Hn) as H50.
    pose proof (@mean_at_least 25 total n Hn) as H25.
    change (inject_Z 75) with 75%Q in H75.
    change (inject_Z 50) with 50%Q in H50.
    change (inject_Z 25) with 25%Q in H25.
    assert (E25 : Qle_bool 25 (inject_Z total / Qofnat n) = true).
    { apply H25. lia. }
    assert (Hup : (inject_Z total / Qofnat n <= 75)%Q).
    { apply Qle_shift_div_r; [unfold Qofnat, Qlt; cbn; lia|].
      unfold Qofnat. change 75%Q with (inject_Z 75).
      rewrite <- inject_Z_mult, <- Zle_Qle. lia. }
    split; [|split; [exact Hlevels|]].
    + destruct (Qle_bool 75 _); [discriminate|].
      destruct (Qle_bool 50 _); [discriminate|].
      rewrite E25. discriminate.
    + intros _. split; [|split].
      * split; [apply Qle_bool_iff; exact E25 | exact Hup].
      * intros Hall. specialize (Hlow Hall).
        destruct (Qle_bool 75 _) eqn:E75; [pose proof (proj1 H75 eq_refl); lia|].
        destruct (Qle_bool 50 _) eqn:E50; [pose proof (proj1 H50 eq_refl); lia|].
        rewrite E25. reflexivity.
      * rewrite <- Hhigh. split.
        -- destruct (Qle_bool 75 _) eqn:E75;
             [intros _; pose proof (proj1 H75 eq_refl); lia|].
           destruct (Qle_bool 50 _); [discriminate|].
           destruct (Qle_bool 25 _); discriminate.
        -- intros Hs. rewrite (proj2 H75); [reflexivity | lia].
Qed.

Lemma completed_keys (o1 o2 o3 o4 o5 : result AnalyticsResult) :
  let done := map fst (completed "network" o1 ++ completed "temporal" o2 ++
                       completed "geographic" o3 ++ completed "behavioral" o4 ++
                       completed "predictive" o5) in
  (In "network" done <-> is_ok o1 = true) /\
  (In "temporal" done <-> is_ok o2 = true) /\
  (In "geographic" done <-> is_ok o3 = true) /\
  (In "behavioral" done <-> is_ok o4 = true) /\
  (In "predictive" done <-> is_ok o5 = true) /\
  NoDup done /\ (length done <= 5)%nat.
Proof.
  destruct o1, o2, o3, o4, o5;
    cbn [completed app map fst is_ok In length];
    (repeat split; try lia; try (intros; discriminate);
     try (intros; intuition discriminate);
     repeat (constructor; [cbn [In]; intuition discriminate|]);
     try constructor).
Qed.

Lemma has_columns_add_time_features (now : Z) (df : DataFrame)
  (cols : list string) :
  (forall c, In c cols ->
     mem_str c ["timestamp"; "hour"; "day_of_week"; "day_of_month"; "month"] =
     false) ->
  has_columns (add_time_features now df) cols = has_columns df cols.
Proof.
  unfold has_columns. induction cols as [|c cols IH]; intros H;
    cbn [forallb]; [reflexivity|].
  rewrite has_column_add_time_features, (H c (or_introl eq_refl)), orb_false_r.
  rewrite IH; [reflexivity|]. intros c' Hc'. apply H. right. exact Hc'.
Qed.

Lemma has_columns_cons (df : DataFrame) (c : string) (cols : list string) :
  has_columns df (c :: cols) = andb (has_column df c) (has_columns df cols).
Proof. reflexivity. Qed.

Ltac columns_required :=
  repeat match goal with
         | H : require _ _ = Ok _ |- _ => apply require_ok in H
         end.

Lemma temporal_ok_iff {L : Libs} (now : Z) (w : World) :
  is_ok (fst (temporal_pattern_analysis now w)) = true <->
  has_columns (table w) ["amount"; "transaction_id"] = true /\
  rows (table w) <> [].
Proof.
  rewrite temporal_pattern_analysis_run. cbn [fst]. split.
  - destruct (temporal_pattern_analysis_on now _) as [res|e] eqn:E;
      [intros _ | discriminate].
    unfold temporal_pattern_analysis_on in E. do 9 bind_inv E. clear E.
    columns_required.
    repeat match goal with
           | H : has_column (add_time_features _ _) _ = true |- _ =>
               rewrite has_column_add_time_features in H;
               cbn [mem_str existsb String.eqb Ascii.eqb Bool.eqb orb] in H;
               rewrite ?orb_false_r in H
           end.
    split.
    + unfold has_columns. cbn [forallb].
      repeat match goal with
             | H : has_column (table w) _ = true |- _ => rewrite H; clear H
             end.
      reflexivity.
    + match goal with
      | H : percentage _ _ = Ok _ |- _ => apply percentage_value in H;
                                           destruct H as [Hpos _]
      end.
      rewrite len_add_time_features in Hpos. unfold len in Hpos.
      intros Hnil. rewrite Hnil in Hpos. cbn in Hpos. lia.
  - intros [Hc Hr]. columns_of Hc.
    destruct (temporal_percentages now (table w) (@len_pos _ Hr) Hc0 Hc1)
      as [res [s [-> _]]].
    reflexivity.
Qed.

Lemma geographic_ok_iff {L : Libs} (now : Z) (w : World) :
  is_ok (fst (geographic_clustering_analysis now w)) = true <->
  has_column (table w) "location" = false \/
  has_columns (table w) ["amount"; "customer_id"] = true /\
  rows (table w) <> [].
Proof.
  rewrite geographic_clustering_analysis_run. cbn [fst]. split.
  - destruct (geographic_clustering_analysis_on now _) as [res|e] eqn:E;
      [intros _ | discriminate].
    destruct (has_column (table w) "location") eqn:El; [right | left; reflexivity].
    unfold geographic_clustering_analysis_on in E. rewrite El in E.
    cbn [negb] in E. do 4 bind_inv E. clear E. columns_required. split.
    + unfold has_columns. cbn [forallb].
      repeat match goal with
             | H : has_column (table w) _ = true |- _ => rewrite H; clear H
             end.
      reflexivity.
    + match goal with
      | H : percentage _ _ = Ok _ |- _ => apply percentage_value in H;
                                           destruct H as [Hpos _]
      end.
      unfold len in Hpos. intros Hnil. rewrite Hnil in Hpos. cbn in Hpos. lia.
  - intros [El|[Hc Hr]].
    + unfold geographic_clustering_analysis_on. rewrite El. reflexivity.
    + destruct (has_column (table w) "location") eqn:El.
      * columns_of Hc.
        destruct (geographic_percentages now (table w) (@len_pos _ Hr) El Hc0 Hc1)
          as [res [s [-> _]]].
        reflexivity.
      * unfold geographic_clustering_analysis_on. rewrite El. reflexivity.
Qed.

Lemma behavioral_ok_iff {L : Libs} (now : Z) (w : World) :
  is_ok (fst (behavioral_profiling now w)) = true <->
  has_columns (table w)
    ["customer_id"; "amount"; "payment_method"; "merchant_category";
     "location"; "timestamp"] = true.
Proof.
  rewrite behavioral_profiling_run, customer_behavior_run.
  unfold has_columns, profile_columns. cbn [forallb].
  rewrite !require_cases.
  destruct (has_column (table w) "customer_id") eqn:Hc.
  - destruct (has_column (table w) "amount") eqn:Ha;
      [|cbn; split; discriminate].
    destruct (has_column (table w) "payment_method") eqn:Hp;
      [|cbn; split; discriminate].
    destruct (has_column (table w) "merchant_category") eqn:Hm;
      [|cbn; split; discriminate].
    destruct (has_column (table w) "location") eqn:Hl;
      [|cbn; split; discriminate].
    destruct (has_column (table w) "timestamp") eqn:Ht;
      [|cbn; split; discriminate].
    cbn [bind result_monad andb]. cbv zeta.
    destruct (Nat.ltb 5 _); cbn [fst]; unfold behavioral_report;
      rewrite !require_cases, Hc, Ha, Hp, Hm; cbn [bind result_monad is_ok];
      split; reflexivity.
  - cbn [fst andb]. unfold behavioral_report. rewrite !require_cases, Hc.
    destruct (has_column (table w) "payment_method");
      [|cbn; split; discriminate].
    destruct (has_column (table w) "amount"); cbn; split; discriminate.
Qed.

Lemma predictive_ok_iff {L : Libs} (now : Z) (w : World) :
  is_ok (fst (predictive_risk_modeling now w)) = true <->
  has_columns (table w)
    ["timestamp"; "amount"; "location"; "payment_method";
     "merchant_category"] = true /\
  rows (table w) <> [].
Proof.
  rewrite predictive_risk_modeling_run. cbn [fst]. split.
  - destruct (predictive_risk_modeling_on now _) as [res|e] eqn:E;
      [intros _ | discriminate].
    unfold predictive_risk_modeling_on in E. do 6 bind_inv E. clear E.
    columns_required. split.
    + unfold has_columns. cbn [forallb].
      repeat match goal with
             | H : has_column (table w) _ = true |- _ => rewrite H; clear H
             end.
      reflexivity.
    + match goal with
      | H : py_div _ _ = Ok _ |- _ => rewrite length_map in H
      end.
      intros Hnil. rewrite Hnil in *. discriminate.
  - intros [Hc Hr]. columns_of Hc. unfold predictive_risk_modeling_on.
    run_requires. cbv zeta. rewrite length_map.
    destruct (length (rows (table w))) eqn:En;
      [apply length_zero_iff_nil in En; congruence|].
    reflexivity.
Qed.

(** X17: on a table whose [timestamp] column, if it has one, holds datetimes
    (the table [demonstrate_advanced_analytics] builds, and the one the
    handler of [main.py] builds for an upload without that column; with a
    column of date strings, as [read_csv] leaves it, lines 194 and 425 raise
    and [temporal] and [behavioral] are missing from the report: such a
    column is not a table of this model), which analyses a report holds is
    decided by the table alone, up to PageRank: [temporal] needs [amount],
    [transaction_id] and a row; [geographic] is there when the table has no
    [location], or has [amount], [customer_id] and a row; [behavioral] needs
    [customer_id], [amount], [payment_method], [merchant_category] and
    [location]; [predictive] needs [amount], [location], [payment_method],
    [merchant_category] and a row.  Neither of the last two needs the
    [timestamp] column that they need when called alone: the temporal
    analysis, run before them, has written it into the table even when it
    raised. *)
Theorem report_completed_analyses {L : Libs} (now : Z) (w : World) :
  exists rep w',
    comprehensive_analysis_report now w = (Ok rep, w') /\
    let df := table w in
    let done := map fst (results rep) in
    NoDup done /\
    incl done ["network"; "temporal"; "geographic"; "behavioral"; "predictive"] /\
    (In "network" done <-> is_ok (fst (network_analysis now w)) = true) /\
    (In "temporal" done <->
     has_columns df ["amount"; "transaction_id"] = true /\ rows df <> []) /\
    (In "geographic" done <->
     has_column df "location" = false \/
     has_columns df ["amount"; "customer_id"] = true /\ rows df <> []) /\
    (In "behavioral" done <->
     has_columns df ["customer_id"; "amount"; "payment_method";
                     "merchant_category"; "location"] = true) /\
    (In "predictive" done <->
     has_columns df ["amount"; "location"; "payment_method";
                     "merchant_category"] = true /\ rows df <> []).
Proof.
  pose proof (comprehensive_analysis_report_run now w) as Hrun.
  cbv zeta in Hrun. eexists. eexists. split; [exact Hrun|]. cbv zeta.
  cbn [results].
  set (w1 := snd (network_analysis now w)) in *.
  set (w2 := snd (temporal_pattern_analysis now w1)) in *.
  set (w3 := snd (geographic_clustering_analysis now w2)) in *.
  set (w4 := snd (behavioral_profiling now w3)) in *.
  assert (E1 : w1 = w) by reflexivity.
  assert (T2 : table w2 = add_time_features now (table w)).
  { unfold w2. rewrite temporal_pattern_analysis_run, E1. reflexivity. }
  assert (T3 : table w3 = add_time_features now (table w)).
  { unfold w3. rewrite geographic_clustering_analysis_run. exact T2. }
  assert (T4 : table w4 = add_time_features now (table w)).
  { unfold w4. rewrite behavioral_profiling_table. exact T3. }
  destruct (completed_keys (fst (network_analysis now w))
              (fst (temporal_pattern_analysis now w1))
              (fst (geographic_clustering_analysis now w2))
              (fst (behavioral_profiling now w3))
              (fst (predictive_risk_modeling now w4)))
    as (K1 & K2 & K3 & K4 & K5 & Knd & Klen).
  cbv zeta in K1, K2, K3, K4, K5, Knd, Klen.
  split; [exact Knd|]. split.
  { intros k Hk. rewrite !map_app, !in_app_iff in Hk.
    destruct Hk as [Hk|[Hk|[Hk|[Hk|Hk]]]];
      match type of Hk with
      | In _ (map fst (completed _ ?o)) =>
          destruct o; cbn in Hk;
            [destruct Hk as [<-|[]]; cbn; auto 10 | destruct Hk]
      end. }
  split; [exact K1|].
  split; [|split; [|split]].
  - rewrite K2, E1. apply temporal_ok_iff.
  - rewrite K3, geographic_ok_iff, T2.
    rewrite has_column_add_time_features.
    cbn [mem_str existsb String.eqb Ascii.eqb Bool.eqb orb].
    rewrite orb_false_r.
    rewrite has_columns_add_time_features
      by (intros c [<-|[<-|[]]]; reflexivity).
    rewrite (rows_add_time_features_nil now (table w)). reflexivity.
  - rewrite K4, behavioral_ok_iff, T3.
    unfold has_columns. cbn [forallb].
    rewrite !has_column_add_time_features.
    cbn [mem_str existsb String.eqb Ascii.eqb Bool.eqb orb].
    rewrite !orb_false_r, !orb_true_r, !andb_true_r. reflexivity.
  - rewrite K5, predictive_ok_iff, T4.
    rewrite (rows_add_time_features_nil now (table w)).
    unfold has_columns. cbn [forallb].
    rewrite !has_column_add_time_features.
    cbn [mem_str existsb String.eqb Ascii.eqb Bool.eqb orb].
    rewrite !orb_false_r, !orb_true_r, !andb_true_r. reflexivity.
Qed.

Lemma firstn_In {A} (n : nat) (l : list A) (a : A) :
  In a (firstn n l) -> In a l.
Proof.
  intros H. rewrite <- (firstn_skipn n l). apply in_or_app. left. exact H.
Qed.

Lemma flat_map_length {A B} (f : A -> list B) (l : list A) :
  length (flat_map f l) = list_sum (map (fun x => length (f x)) l).
Proof.
  induction l as [|a l IH]; simpl; [reflexivity|].
  rewrite length_app, IH. reflexivity.
Qed.

(** X18: the executive summary of a report, and the table it leaves.  The
    summary counts the transactions of the table, the analyses in the
    report (at most five) and all their recommendations; its priority
    actions are at most five recommendations of analyses in the report,
    each containing "immediate" or "priority" in some letter case.  After
    the call the caller's table is the table with the time columns of the
    temporal analysis written into it, whichever analyses raised. *)
Theorem report_executive_summary {L : Libs} (now : Z) (w : World) :
  exists rep w',
    comprehensive_analysis_report now w = (Ok rep, w') /\
    let s := executive_summary rep in
    table w' = add_time_features now (table w) /\
    total_transactions_analyzed s = len (table w) /\
    analyses_completed s = length (results rep) /\
    (analyses_completed s <= 5)%nat /\
    total_recommendations s =
      list_sum (map (fun kr => length (recommendations (snd kr))) (results rep)) /\
    (length (priority_actions s) <= 5)%nat /\
    (length (priority_actions s) <= total_recommendations s)%nat /\
    (forall a, In a (priority_actions s) ->
       is_priority a = true /\
       exists k r, In (k, r) (results rep) /\ In a (recommendations r)).
Proof.
  pose proof (comprehensive_analysis_report_run now w) as Hrun.
  cbv zeta in Hrun. eexists. eexists. split; [exact Hrun|]. cbv zeta.
  cbn [results executive_summary].
  set (w1 := snd (network_analysis now w)) in *.
  set (w2 := snd (temporal_pattern_analysis now w1)) in *.
  set (w3 := snd (geographic_clustering_analysis now w2)) in *.
  set (w4 := snd (behavioral_profiling now w3)) in *.
  set (w5 := snd (predictive_risk_modeling now w4)).
  assert (T5 : table w5 = add_time_features now (table w)).
  { unfold w5. rewrite predictive_risk_modeling_run. cbn [snd].
    unfold w4. rewrite behavioral_profiling_table.
    unfold w3. rewrite geographic_clustering_analysis_run. cbn [snd].
    unfold w2. rewrite temporal_pattern_analysis_run. reflexivity. }
  destruct (completed_keys (fst (network_analysis now w))
              (fst (temporal_pattern_analysis now w1))
              (fst (geographic_clustering_analysis now w2))
              (fst (behavioral_profiling now w3))
              (fst (predictive_risk_modeling now w4)))
    as (_ & _ & _ & _ & _ & _ & Klen).
  cbv zeta in Klen. rewrite length_map in Klen. clear Hrun.
  fold w5.
  match goal with
  | |- context [make_executive_summary _ ?x] => generalize dependent x
  end.
  intros rs Klen. unfold make_executive_summary.
  cbn [total_transactions_analyzed analyses_completed total_recommendations
       priority_actions].
  split; [exact T5|]. split; [rewrite T5; apply len_add_time_features|].
  split; [reflexivity|]. split; [exact Klen|].
  split; [apply flat_map_length|].
  split; [apply firstn_le_length|]. split.
  - rewrite length_firstn.
    pose proof (filter_length_le' is_priority
                  (flat_map (fun kr => recommendations (snd kr)) rs)). lia.
  - intros a Ha. apply firstn_In in Ha. apply filter_In in Ha.
    destruct Ha as [Ha Hp]. split; [exact Hp|].
    apply in_flat_map in Ha. destruct Ha as [[k r] [Hkr Ha]].
    exists k, r. auto.
Qed.

(** ** What [behavioral_profiling] leaves in the engine *)

(** X19: [behavioral_profiling] and the engine's scaler and isolation
    forest.  A call that raises leaves the engine as it was, and so does a
    call on a table with at most 5 customers.  A call that returns on more
    than 5 customers leaves the scaler and the forest fitted to the six
    features of the customer profiles of this table, whatever had been
    fitted before; the forest keeps its contamination rate and seed. *)
Theorem behavioral_profiling_engine {L : Libs} (now : Z) (w : World) :
  let out := behavioral_profiling now w in
  let profiles := map (profile_of (table w)) (customer_index (table w)) in
  (is_ok (fst out) = false -> snd out = w) /\
  ((length profiles <= 5)%nat -> snd out = w) /\
  (is_ok (fst out) = true -> (5 < length profiles)%nat ->
   engine (snd out) =
     fitted (engine w) (map features_for_analysis profiles) /\
   scaler (engine (snd out)) <> None /\
   estimators (isolation_forest (engine (snd out))) <> None) /\
  contamination (isolation_forest (engine (snd out))) =
    contamination (isolation_forest (engine w)) /\
  random_state (isolation_forest (engine (snd out))) =
    random_state (isolation_forest (engine w)).
Proof.
  cbv zeta. rewrite behavioral_profiling_run, customer_behavior_run.
  destruct (has_column (table w) "customer_id") eqn:Hc.
  - unfold profile_columns. rewrite !require_cases.
    destruct (has_column (table w) "amount") eqn:Ha;
      [|cbn; repeat split; auto; discriminate].
    destruct (has_column (table w) "payment_method") eqn:Hp;
      [|cbn; repeat split; auto; discriminate].
    destruct (has_column (table w) "merchant_category") eqn:Hm;
      [|cbn; repeat split; auto; discriminate].
    destruct (has_column (table w) "location") eqn:Hl;
      [|cbn; repeat split; auto; discriminate].
    destruct (has_column (table w) "timestamp") eqn:Ht;
      [|cbn; repeat split; auto; discriminate].
    cbn [bind result_monad]. cbv zeta.
    destruct (Nat.ltb 5 _) eqn:E5; cbn [fst snd].
    + apply Nat.ltb_lt in E5.
      unfold behavioral_report. rewrite !require_cases, Hc, Ha, Hp, Hm.
      cbn [bind result_monad is_ok engine fitted isolation_forest
           contamination random_state scaler estimators].
      split; [discriminate|]. split; [lia|].
      split; [|split; reflexivity].
      intros _ _. split; [reflexivity|]. split; discriminate.
    + apply Nat.ltb_ge in E5.
      split; [reflexivity|]. split; [reflexivity|].
      split; [lia|]. split; reflexivity.
  - cbn [fst snd]. split; [reflexivity|]. split; [reflexivity|].
    split; [|split; reflexivity].
    unfold behavioral_report. rewrite !require_cases, Hc.
    destruct (has_column (table w) "payment_method");
      [|cbn; discriminate].
    destruct (has_column (table w) "amount"); cbn; discriminate.
Qed.

(** ** The properties above on concrete tables *)

Lemma build_graph_shape_witness :
  exists G,
    @build_graph sample_libs 0 repeated_table = Ok G /\
    NoDup (nodes G) /\
    (forall e, In e (edges G) ->
               In (edge_source e) (nodes G) /\ In (edge_target e) (nodes G)) /\
    (forall x, In x (nodes G) -> (1 <= degree G x)%nat) /\
    list_sum (map snd (Network.graph_nodes (_serialize_graph G))) =
      (2 * Network.edge_count (_serialize_graph G))%nat /\
    (number_of_edges G <= len repeated_table)%nat /\
    (number_of_nodes G <= 2 * number_of_edges G)%nat.
Proof.
  eexists. split; [reflexivity|].
  apply (@build_graph_shape sample_libs 0 repeated_table). reflexivity.
Defined.

Lemma build_graph_totals_witness :
  exists G,
    @build_graph sample_libs 0 repeated_table = Ok G /\
    (total_weight G == 400)%Q /\
    total_transaction_count G = 3%nat.
Proof.
  eexists. split; [reflexivity|].
  destruct (@build_graph_totals sample_libs 0 repeated_table _ eq_refl)
    as (Hw & Hc & _).
  split; [rewrite Hw; reflexivity | exact Hc].
Defined.

Lemma network_analysis_flags_small_graphs_witness :
  exists res s,
    fst (@network_analysis sample_libs 0 (mkWorld new_engine star_table)) =
      Ok res /\
    summary res = NetworkSummary s /\
    Network.total_nodes (Network.network_metrics s) = 4%nat /\
    Network.suspicious_entities_count s = 4%nat.
Proof.
  eexists. eexists.
  match goal with
  | |- ?A /\ _ => assert (H : A) by (vm_compute; reflexivity)
  end.
  split; [exact H|]. split; [reflexivity|]. split; [reflexivity|].
  apply (@network_analysis_flags_small_graphs sample_libs 0
           (mkWorld new_engine star_table) _ _ H eq_refl).
  vm_compute. lia.
Defined.

Lemma network_communities_partition_witness :
  exists res s d,
    fst (@network_analysis sample_libs 0 (mkWorld new_engine star_table)) =
      Ok res /\
    summary res = NetworkSummary s /\
    detailed_results res = NetworkDetails d /\
    NoDup (concat (Network.communities d)) /\
    (4 * Network.communities_detected s <=
     Network.total_nodes (Network.network_metrics s))%nat.
Proof.
  eexists. eexists. eexists.
  match goal with
  | |- ?A /\ _ => assert (H : A) by (vm_compute; reflexivity)
  end.
  split; [exact H|]. split; [reflexivity|]. split; [reflexivity|].
  destruct (@network_communities_partition sample_libs 0
              (mkWorld new_engine star_table) _ _ _ H eq_refl eq_refl)
    as [G (_ & _ & Hnd & _ & Hle)].
  split; [exact Hnd | exact Hle].
Defined.

Lemma temporal_summary_consistent_witness :
  exists res s,
    fst (@temporal_pattern_analysis sample_libs 0
           (mkWorld new_engine burst_table)) = Ok res /\
    summary res = TemporalSummary s /\
    Temporal.risk_level s = "HIGH" /\
    Temporal.anomalies_detected s = 3%nat /\
    (Temporal.unusual_hour_percentage s == 75)%Q /\
    (Temporal.weekend_activity_percentage s == 75)%Q /\
    (Temporal.velocity_abuse_percentage s == 25)%Q.
Proof.
  eexists. eexists.
  assert (H : fst (@temporal_pattern_analysis sample_libs 0
                     (mkWorld new_engine burst_table)) = Ok _)
    by (vm_compute; reflexivity).
  split; [exact H|]. split; [reflexivity|].
  destruct (@temporal_summary_consistent sample_libs 0
              (mkWorld new_engine burst_table) _ _ H eq_refl)
    as (_ & Hl & Ha & _ & _ & _ & _ & Hu & Hw & Hv).
  split; [exact Hl|]. split; [exact Ha|].
  split; [rewrite Hu; vm_compute; reflexivity|].
  split; [rewrite Hw; vm_compute; reflexivity|].
  rewrite Hv. vm_compute. reflexivity.
Defined.

Lemma geographic_summary_consistent_witness :
  exists res s,
    fst (@geographic_clustering_analysis sample_libs 0
           (mkWorld new_engine critical_table)) = Ok res /\
    summary res = GeographicSummary s /\
    (Geographic.high_risk_percentage s <=
     Geographic.cross_border_percentage s)%Q /\
    Geographic.risk_level s = "HIGH".
Proof.
  eexists. eexists. split; [reflexivity|]. split; [reflexivity|].
  destruct (@geographic_summary_consistent sample_libs 0
              (mkWorld new_engine critical_table) _ _ eq_refl eq_refl)
    as (Hm & Hl & _).
  split; [exact Hm | exact Hl].
Defined.

Lemma behavioral_alerts_need_volume_witness :
  exists res s,
    fst (@behavioral_profiling sample_libs 0
           (mkWorld new_engine critical_table)) = Ok res /\
    summary res = BehavioralSummary s /\
    (Behavioral.behavioral_alerts_count s <= 3)%nat /\
    Behavioral.suspicious_customers_count s = 0%nat.
Proof.
  eexists. eexists. split; [reflexivity|]. split; [reflexivity|].
  destruct (@behavioral_alerts_need_volume sample_libs 0
              (mkWorld new_engine critical_table) _ _ eq_refl eq_refl)
    as (_ & _ & Ha & _ & Hs).
  split; [exact Ha|]. apply Hs. vm_compute. lia.
Defined.

Lemma predictive_summary_consistent_witness :
  exists res s d,
    fst (@predictive_risk_modeling sample_libs 0
           (mkWorld new_engine critical_table)) = Ok res /\
    summary res = PredictiveSummary s /\
    detailed_results res = PredictiveDetails d /\
    list_sum (map snd (Predictive.risk_distribution d)) = 2%nat /\
    Predictive.risk_level s = "HIGH" /\
    Predictive.high_risk_count s = 1%nat /\
    map Predictive.transaction (Predictive.high_risk_transactions d) =
      [critical_row].
Proof.
  eexists. eexists. eexists.
  split; [reflexivity|]. split; [reflexivity|]. split; [reflexivity|].
  destruct (@predictive_summary_consistent sample_libs 0
              (mkWorld new_engine critical_table) _ _ _
              eq_refl eq_refl eq_refl)
    as (_ & Hd & _ & _ & Hh & _ & _ & Hc & Hl).
  split; [exact Hd|]. split; [apply Hh; vm_compute; lia|].
  split; [rewrite Hc; vm_compute; reflexivity|].
  rewrite Hl. vm_compute. reflexivity.
Defined.

Lemma predictive_forecast_bounds_witness :
  exists res s d,
    fst (@predictive_risk_modeling sample_libs 0
           (mkWorld new_engine critical_table)) = Ok res /\
    summary res = PredictiveSummary s /\
    detailed_results res = PredictiveDetails d /\
    Predictive.risk_trend s = "INSUFFICIENT_DATA".
Proof.
  eexists. eexists. eexists.
  split; [reflexivity|]. split; [reflexivity|]. split; [reflexivity|].
  destruct (@predictive_forecast_bounds sample_libs 0
              (mkWorld new_engine critical_table) _ _ _
              eq_refl eq_refl eq_refl)
    as (_ & Hi & _).
  apply Hi. left. vm_compute. lia.
Defined.

(** ** The endpoint [/analytics/comprehensive] *)

Lemma in_completed (key k : string) (o : result AnalyticsResult)
  (r : AnalyticsResult) :
  In (k, r) (completed key o) -> k = key /\ o = Ok r.
Proof.
  destruct o as [r'|e]; cbn; [|intros []].
  intros [[= <- <-]|[]]. auto.
Qed.

(** What each analysis of a report says about its risk level. *)
Lemma report_result_levels {L : Libs} (now : Z) (w : World) (k : string)
  (r : AnalyticsResult) :
  let o1 := network_analysis now w in
  let o2 := temporal_pattern_analysis now (snd o1) in
  let o3 := geographic_clustering_analysis now (snd o2) in
  let o4 := behavioral_profiling now (snd o3) in
  let o5 := predictive_risk_modeling now (snd o4) in
  In (k, r) (completed "network" (fst o1) ++ completed "temporal" (fst o2) ++
             completed "geographic" (fst o3) ++ completed "behavioral" (fst o4) ++
             completed "predictive" (fst o5)) ->
  is_one_of ["LOW"; "MEDIUM"; "HIGH"] (summary_risk_level (summary r)) \/
  k = "geographic" /\ has_column (table w) "location" = false /\
  summary_risk_level (summary r) = None.
Proof.
  cbv zeta. rewrite !in_app_iff.
  intros [H|[H|[H|[H|H]]]]; apply in_completed in H; destruct H as [-> Hr].
  - left. apply (network_analysis_level _ _ Hr).
  - left. apply (temporal_pattern_analysis_level _ _ Hr).
  - apply geographic_clustering_analysis_level in Hr.
    rewrite temporal_pattern_analysis_run in Hr. cbn [snd table] in Hr.
    rewrite network_analysis_run in Hr. cbn [snd] in Hr.
    rewrite has_column_add_time_features in Hr.
    cbn [mem_str existsb String.eqb Ascii.eqb Bool.eqb orb] in Hr.
    rewrite orb_false_r in Hr.
    destruct (has_column (table w) "location"); [left; exact Hr|].
    right. rewrite Hr. auto.
  - left. apply (behavioral_risk_level_of _ _ Hr).
  - left. apply (predictive_risk_modeling_level _ _ Hr).
Qed.

Lemma comprehensive_analysis_report_on_strings_run {L : Libs} (now : Z)
  (w : World) :
  let w1 := mkWorld (engine w) (add_time_features now (table w)) in
  let skip := andb (has_column (table w1) "customer_id")
                   (negb (Nat.eqb (length (customer_index (table w1))) 0)) in
  let o4 := behavioral_profiling now w1 in
  let w4 := if skip then w1 else snd o4 in
  let rs := completed "network" (fst (network_analysis now w)) ++
            completed "geographic" (fst (geographic_clustering_analysis now w1)) ++
            (if skip then [] else completed "behavioral" (fst o4)) ++
            completed "predictive" (fst (predictive_risk_modeling now w4)) in
  comprehensive_analysis_report_on_strings now w =
  (Ok (mkReport rs (make_executive_summary (table w4) rs)), w4).
Proof.
  cbv zeta.
  cbv [comprehensive_analysis_report_on_strings run_module try_ bind ret
       M_monad get_table].
  rewrite network_analysis_run.
  destruct (network_analysis_on now (table w)) as [r1|e1];
    cbn [fst snd completed app];
    rewrite temporal_pattern_analysis_run;
    destruct (temporal_pattern_analysis_on now _) as [r2|e2];
    rewrite geographic_clustering_analysis_run;
    destruct (geographic_clustering_analysis_on now _) as [r3|e3];
    cbn [fst snd completed app table];
    destruct (andb _ _);
    cbn [fst snd completed app];
    try (destruct (behavioral_profiling now _) as [[r4|e4] w4];
         cbn [fst snd completed app]);
    rewrite predictive_risk_modeling_run;
    destruct (predictive_risk_modeling_on now _) as [r5|e5];
    cbn [fst snd completed app]; reflexivity.
Qed.

(** What the handler shows of an analysis whose risk level is known. *)
Lemma format_result_level (k : string) (r : AnalyticsResult) (no_location : bool) :
  is_one_of ["LOW"; "MEDIUM"; "HIGH"] (summary_risk_level (summary r)) \/
  k = "geographic" /\ no_location = true /\
  summary_risk_level (summary r) = None ->
  (length (formatted_recommendations (format_result r)) <= 3)%nat /\
  In (formatted_risk_level (format_result r))
     ["LOW"; "MEDIUM"; "HIGH"; "UNKNOWN"] /\
  (formatted_risk_level (format_result r) = "UNKNOWN" ->
   k = "geographic" /\ no_location = true).
Proof.
  intros H. unfold format_result.
  cbn [formatted_recommendations formatted_risk_level].
  split; [apply firstn_le_length|].
  destruct H as [[l [-> Hl]]|(-> & Hloc & ->)].
  - split; [cbn in Hl |- *; tauto|].
    intros ->. cbn in Hl. destruct Hl as [H|[H|[H|[]]]]; discriminate.
  - split; [cbn; auto 6|]. intros _. split; [reflexivity | exact Hloc].
Qed.

Lemma customer_index_filled {L : Libs} (df : DataFrame) :
  rows df <> [] ->
  (forall r, In r (rows df) -> customer_id r <> None) ->
  Nat.eqb (length (customer_index df)) 0 = false.
Proof.
  intros Hrows Hall. apply Nat.eqb_neq. unfold customer_index.
  rewrite sort_length.
  destruct (rows df) as [|r rs] eqn:E; [congruence|].
  cbn [map]. destruct (customer_id r) as [c|] eqn:Ec.
  - cbn [dropna unique length]. lia.
  - exfalso. apply (Hall r); [left; reflexivity | exact Ec].
Qed.

(** X20: the handler of [/analytics/comprehensive], from the parsed table
    on, for an upload whose customer and merchant cells are all filled.  It
    always has a response: no analyzer's exception reaches it.  The
    response counts the transactions of the upload and holds one entry per
    analysis of the report, in report order, with the analysis' summary and
    findings, its risk level ([UNKNOWN] when the summary has none) and its
    first three recommendations.  For an upload without a [timestamp] column
    the report is that of the upload with the clock's time in that column.
    For an upload with a [timestamp] column, which [read_csv] leaves as
    date strings, the response never holds the temporal analysis, and for
    an upload with rows it holds those of the network, geographic and
    predictive analysis that return, and no behavioral one.  Each entry
    shows at most three recommendations and a risk level among [LOW],
    [MEDIUM] and [HIGH], or [UNKNOWN], which only the geographic analysis
    of an upload without [location] gets.  Afterwards the table has a
    [timestamp] column. *)
Theorem comprehensive_analytics_response {L : Libs} (now : Z) (w : World) :
  (forall r, In r (rows (table w)) ->
             customer_id r <> None /\ merchant_name r <> None) ->
  let format := fun kr : string * AnalyticsResult =>
    (fst kr,
     mkFormattedResult (summary (snd kr))
       (match summary_risk_level (summary (snd kr)) with
        | Some level => level
        | None => "UNKNOWN"
        end)
       (firstn 3 (recommendations (snd kr)))
       (detailed_results (snd kr))) in
  let w1 := mkWorld (engine w) (add_time_features now (table w)) in
  exists resp w',
    comprehensive_analytics now w = (Ok resp, w') /\
    response_total_transactions resp = len (table w) /\
    total_transactions_analyzed (response_executive_summary resp) =
      len (table w) /\
    analyses_completed (response_executive_summary resp) =
      length (analysis_results resp) /\
    has_column (table w') "timestamp" = true /\
    (has_column (table w) "timestamp" = false ->
     exists rep,
       comprehensive_analysis_report now
         (mkWorld (engine w)
            (assign (table w) ["timestamp"] (set_timestamp now))) =
         (Ok rep, w') /\
       response_executive_summary resp = executive_summary rep /\
       analysis_results resp = map format (results rep)) /\
    (has_column (table w) "timestamp" = true ->
     ~ In "temporal" (map fst (analysis_results resp)) /\
     (rows (table w) <> [] ->
      analysis_results resp =
        map format
          (completed "network" (fst (network_analysis now w)) ++
           completed "geographic"
             (fst (geographic_clustering_analysis now w1)) ++
           completed "predictive" (fst (predictive_risk_modeling now w1))))) /\
    (forall k f, In (k, f) (analysis_results resp) ->
       (length (formatted_recommendations f) <= 3)%nat /\
       In (formatted_risk_level f) ["LOW"; "MEDIUM"; "HIGH"; "UNKNOWN"] /\
       (formatted_risk_level f = "UNKNOWN" ->
        k = "geographic" /\ has_column (table w) "location" = false)).
Proof.
  intros Hfilled format w1.
  assert (Hformat : forall rs,
            map (fun kr => (fst kr, format_result (snd kr))) rs = map format rs)
    by reflexivity.
  destruct (has_column (table w) "timestamp") eqn:Hts.
  - (* the upload has a timestamp column *)
    pose proof (comprehensive_analysis_report_on_strings_run now w) as Hrun.
    cbv zeta in Hrun. fold w1 in Hrun.
    set (skip := andb (has_column (table w1) "customer_id")
                      (negb (Nat.eqb (length (customer_index (table w1))) 0)))
      in *.
    set (o4 := behavioral_profiling now w1) in *.
    set (w4 := if skip then w1 else snd o4) in *.
    assert (T4 : table w4 = add_time_features now (table w)).
    { unfold w4. destruct skip; [reflexivity|].
      unfold o4. rewrite behavioral_profiling_table. reflexivity. }
    set (rs := completed "network" (fst (network_analysis now w)) ++ _) in *.
    assert (Hresp : comprehensive_analytics now w =
              (Ok (mkComprehensiveResponse
                     (make_executive_summary (table w4) rs)
                     (map (fun kr => (fst kr, format_result (snd kr))) rs)
                     (len (table w4))), w4)).
    { unfold comprehensive_analytics.
      cbv [bind ret M_monad get_table]. rewrite Hts, Hrun. reflexivity. }
    assert (Hloc : has_column (table w1) "location" =
                   has_column (table w) "location").
    { unfold w1. cbn [table]. rewrite has_column_add_time_features.
      apply orb_false_r. }
    assert (Hpred : fst (predictive_risk_modeling now w4) =
                    fst (predictive_risk_modeling now w1)).
    { rewrite !predictive_risk_modeling_run. cbn [fst]. rewrite T4.
      reflexivity. }
    eexists. eexists. split; [exact Hresp|].
    cbn [response_total_transactions response_executive_summary
         analysis_results].
    split; [rewrite T4, len_add_time_features; reflexivity|].
    split; [unfold make_executive_summary; cbn [total_transactions_analyzed];
            rewrite T4, len_add_time_features; reflexivity|].
    split; [unfold make_executive_summary; cbn [analyses_completed];
            rewrite length_map; reflexivity|].
    split; [rewrite T4, has_column_add_time_features; apply orb_true_r|].
    split; [discriminate|].
    split.
    { intros _. split.
      - rewrite map_map. cbn [fst]. intros H. apply in_map_iff in H.
        destruct H as [[k r] [Hk Hin]]. cbn [fst] in Hk. subst k.
        unfold rs in Hin. rewrite !in_app_iff in Hin.
        destruct Hin as [H|[H|[H|H]]];
          try (destruct skip; [destruct H|]);
          apply in_completed in H; destruct H as [H _]; discriminate.
      - intros Hrows. rewrite Hformat. f_equal. unfold rs.
        rewrite Hpred. f_equal. f_equal.
        assert (Hnone : (if skip then [] else completed "behavioral" (fst o4))
                        = []).
        { destruct skip eqn:Eskip; [reflexivity|].
          destruct (fst o4) as [r4|e4] eqn:E4; [|reflexivity]. exfalso.
          assert (Hok : is_ok (fst (behavioral_profiling now w1)) = true)
            by (fold o4; rewrite E4; reflexivity).
          apply behavioral_ok_iff in Hok. unfold has_columns in Hok.
          cbn [forallb] in Hok. apply andb_true_iff in Hok.
          destruct Hok as [Hc _]. unfold skip in Eskip. rewrite Hc in Eskip.
          cbn [andb] in Eskip. apply negb_false_iff in Eskip.
          rewrite customer_index_filled in Eskip; [discriminate| |].
          + unfold w1. cbn [table]. rewrite rows_add_time_features.
            intros E. apply map_eq_nil in E. contradiction.
          + unfold w1. cbn [table]. rewrite rows_add_time_features.
            intros r Hr. apply in_map_iff in Hr. destruct Hr as [r0 [<- Hr0]].
            rewrite Hts. cbn [set_time_features customer_id].
            apply (Hfilled r0 Hr0). }
        rewrite Hnone. reflexivity. }
    intros k f Hin. apply in_map_iff in Hin.
    destruct Hin as [[k' r] [[= <- <-] Hin]]. cbn [fst snd].
    rewrite <- Hloc.
    assert (Hfalse : forall b, b = false <-> negb b = true)
      by (intros []; cbn; intuition discriminate).
    destruct (@format_result_level k' r
                (negb (has_column (table w1) "location"))) as (F1 & F2 & F3).
    { unfold rs in Hin. rewrite !in_app_iff in Hin.
      destruct Hin as [H|[H|[H|H]]].
      - apply in_completed in H. destruct H as [-> Hr]. left.
        apply (network_analysis_level _ _ Hr).
      - apply in_completed in H. destruct H as [-> Hr].
        apply geographic_clustering_analysis_level in Hr.
        destruct (has_column (table w1) "location"); [left; exact Hr|].
        right. rewrite Hr. auto.
      - destruct skip; [destruct H|].
        apply in_completed in H. destruct H as [-> Hr]. left.
        apply (behavioral_risk_level_of _ _ Hr).
      - apply in_completed in H. destruct H as [-> Hr]. left.
        apply (predictive_risk_modeling_level _ _ Hr). }
    split; [exact F1|]. split; [exact F2|].
    intros Hu. destruct (F3 Hu) as [-> Hn]. split; [reflexivity|].
    apply Hfalse. exact Hn.
  - (* the upload has none: line 190 fills the column *)
    set (w0 := mkWorld (engine w)
                 (assign (table w) ["timestamp"] (set_timestamp now))).
    assert (Hlen0 : len (table w0) = len (table w)).
    { unfold w0, len, assign. cbn [table rows]. apply length_map. }
    assert (Hloc0 : has_column (table w0) "location" =
                    has_column (table w) "location").
    { unfold w0. cbn [table]. rewrite has_column_assign. cbn.
      apply orb_false_r. }
    pose proof (comprehensive_analysis_report_run now w0) as Hrun.
    cbv zeta in Hrun.
    pose proof (fun k r => @report_result_levels L now w0 k r) as Hlevels.
    cbv zeta in Hlevels.
    set (rs := completed "network" (fst (network_analysis now w0)) ++ _) in *.
    set (w5 := snd (predictive_risk_modeling now _)) in *.
    assert (T5 : table w5 = add_time_features now (table w0)).
    { unfold w5. rewrite predictive_risk_modeling_run. cbn [snd].
      rewrite behavioral_profiling_table.
      rewrite geographic_clustering_analysis_run. cbn [snd].
      rewrite temporal_pattern_analysis_run. reflexivity. }
    assert (Hresp : comprehensive_analytics now w =
              (Ok (mkComprehensiveResponse
                     (make_executive_summary (table w5) rs)
                     (map (fun kr => (fst kr, format_result (snd kr))) rs)
                     (len (table w5))), w5)).
    { unfold comprehensive_analytics.
      cbv [bind ret M_monad get_table put_table]. rewrite Hts.
      fold w0. rewrite Hrun. reflexivity. }
    eexists. eexists. split; [exact Hresp|].
    cbn [response_total_transactions response_executive_summary
         analysis_results].
    split; [rewrite T5, len_add_time_features; exact Hlen0|].
    split; [unfold make_executive_summary; cbn [total_transactions_analyzed];
            rewrite T5, len_add_time_features; exact Hlen0|].
    split; [unfold make_executive_summary; cbn [analyses_completed];
            rewrite length_map; reflexivity|].
    split; [rewrite T5, has_column_add_time_features; apply orb_true_r|].
    split.
    { intros _. eexists. split; [exact Hrun|]. cbn [executive_summary results].
      split; reflexivity. }
    split; [discriminate|].
    intros k f Hin. apply in_map_iff in Hin.
    destruct Hin as [[k' r] [[= <- <-] Hin]]. cbn [fst snd].
    rewrite <- Hloc0.
    assert (Hfalse : forall b, b = false <-> negb b = true)
      by (intros []; cbn; intuition discriminate).
    destruct (@format_result_level k' r
                (negb (has_column (table w0) "location"))) as (F1 & F2 & F3).
    { destruct (Hlevels k' r Hin) as [H|(-> & Hl & Hn)]; [left; exact H|].
      right. rewrite Hl. auto. }
    split; [exact F1|]. split; [exact F2|].
    intros Hu. destruct (F3 Hu) as [-> Hn]. split; [reflexivity|].
    apply Hfalse. exact Hn.
Qed.

Lemma comprehensive_analytics_response_witness :
  exists resp w',
    @comprehensive_analytics sample_libs 0 (mkWorld new_engine critical_table) =
      (Ok resp, w') /\
    map fst (analysis_results resp) = ["network"; "geographic"; "predictive"] /\
    analyses_completed (response_executive_summary resp) = 3%nat.
Proof.
  assert (Hfilled : forall r, In r (rows critical_table) ->
                              customer_id r <> None /\ merchant_name r <> None).
  { intros r [<-|[<-|[]]]; split; discriminate. }
  destruct (@comprehensive_analytics_response sample_libs 0
              (mkWorld new_engine critical_table) Hfilled)
    as (resp & w' & Hresp & _ & _ & Hn & _ & _ & Hs & _).
  exists resp, w'. split; [exact Hresp|].
  destruct (Hs eq_refl) as [_ Hrs].
  assert (Hrows : rows critical_table <> []) by discriminate.
  specialize (Hrs Hrows).
  split.
  - rewrite Hrs. vm_compute. reflexivity.
  - rewrite Hn, Hrs. vm_compute. reflexivity.
Defined.
